(** * JacaScript: the language semantics the teaching scripts demonstrate

    The repository is a set of annotated JavaScript scripts.  Every script
    is a straight-line sequence of [console.log] calls around small
    fragments that exercise one rule of the language each: hoisting, the
    temporal dead zone, [const], coercion, equality, logical and bitwise
    operators, spread and rest.

    This development embeds the fragments as monadic programs over an
    explicit run-time state (environment records, heap, console), next to
    the abstract operations of the language they rely on (ToNumber,
    ToInt32, IsLooselyEqual, GetBindingValue and so on), and proves what
    the scripts' comments say about them. *)

From Stdlib Require Import ZArith Lia Bool Ascii String.
From Stdlib Require Import SpecFloat PrimFloat FloatOps.
From stdpp Require Import base option list strings pretty gmap.

Local Open Scope string_scope.
Local Open Scope Z_scope.

Set Warnings "-register-all,-inexact-float".

(** ** The Number type

    A JavaScript Number is an IEEE-754 binary64 value.  [spec_float] is the
    Standard Library's specification of those values; the operations below
    instantiate it at precision 53 and maximal exponent 1024. *)

Module Num.

Abbreviation number := spec_float.

Definition prec : Z := 53.
Definition emax : Z := 1024.

Definition NaN : number := S754_nan.
Definition Infinity : number := S754_infinity false.
Definition NegInfinity : number := S754_infinity true.
Definition zero : number := S754_zero false.
Definition negzero : number := S754_zero true.

(** Number of binary digits of a positive integer. *)
Definition bits (p : positive) : Z := Z.log2 (Z.pos p) + 1.

(** The Number for a mathematical integer.  Integers below 2^53 in
    magnitude are representable exactly: the mantissa is the integer
    shifted up to 53 bits.  Larger ones are rounded to nearest, ties to
    even, as the engine does for a literal such as 9999999999999999. *)
Definition of_int (z : Z) : number :=
  match z with
  | Z0 => S754_zero false
  | Z.pos p =>
      if bits p <=? prec
      then S754_finite false (Z.to_pos (Z.shiftl (Z.pos p) (prec - bits p))) (bits p - prec)
      else binary_normalize prec emax z 0 false
  | Z.neg p =>
      if bits p <=? prec
      then S754_finite true (Z.to_pos (Z.shiftl (Z.pos p) (prec - bits p))) (bits p - prec)
      else binary_normalize prec emax z 0 false
  end.

(** The Number nearest to [m / 10^k], for a decimal literal with [k]
    digits after the point (4.9 is [of_decimal 49 1]). *)
Definition of_decimal (m : Z) (k : Z) : number :=
  match m with
  | Z0 => S754_zero false
  | Z.pos p => SFdiv prec emax (S754_finite false p 0) (S754_finite false (Z.to_pos (10 ^ k)) 0)
  | Z.neg p => SFdiv prec emax (S754_finite true p 0) (S754_finite false (Z.to_pos (10 ^ k)) 0)
  end.

Definition neg (x : number) : number := SFopp x.

(** Number::equal: NaN differs from everything, and +0 equals -0. *)
Definition equal (x y : number) : bool := SFeqb x y.

Definition isNaN (x : number) : bool :=
  match x with S754_nan => true | _ => false end.

Definition isZero (x : number) : bool :=
  match x with S754_zero _ => true | _ => false end.

(** The integer part of a finite number, discarding the fraction
    (rounding toward zero).  [Z.quot] is the truncating division. *)
Definition truncate (x : number) : Z :=
  match x with
  | S754_finite s m e =>
      if 0 <=? e
      then cond_Zopp s (Z.pos m * 2 ^ e)
      else Z.quot (cond_Zopp s (Z.pos m)) (2 ^ (- e))
  | _ => 0
  end.

(** Math.floor on the integer level: the greatest integer below. *)
Definition floor (x : number) : Z :=
  match x with
  | S754_finite s m e =>
      if 0 <=? e
      then cond_Zopp s (Z.pos m * 2 ^ e)
      else Z.div (cond_Zopp s (Z.pos m)) (2 ^ (- e))
  | _ => 0
  end.

(** Reduction of an integer into the signed 32-bit range, modulo 2^32. *)
Definition wrap32 (z : Z) : Z :=
  let r := z mod 2 ^ 32 in
  if 2 ^ 31 <=? r then r - 2 ^ 32 else r.

(** ToInt32: NaN, the zeros and the infinities give 0; a finite number
    is truncated and reduced modulo 2^32 into [-2^31, 2^31). *)
Definition toInt32 (x : number) : Z :=
  match x with
  | S754_finite _ _ _ => wrap32 (truncate x)
  | _ => 0
  end.

(** ToUint32: the same, reduced into [0, 2^32). *)
Definition toUint32 (x : number) : Z :=
  match x with
  | S754_finite _ _ _ => truncate x mod 2 ^ 32
  | _ => 0
  end.

(** The bitwise operators convert their operands with ToInt32, work on
    the two's complement bits and give a Number back.  The shift count
    is the right operand converted with ToUint32, modulo 32. *)
Definition bitNot (x : number) : number := of_int (Z.lnot (toInt32 x)).
Definition bitAnd (x y : number) : number := of_int (Z.land (toInt32 x) (toInt32 y)).
Definition bitOr (x y : number) : number := of_int (Z.lor (toInt32 x) (toInt32 y)).
Definition bitXor (x y : number) : number := of_int (Z.lxor (toInt32 x) (toInt32 y)).
Definition shiftLeft (x k : number) : number :=
  of_int (wrap32 (Z.shiftl (toInt32 x) (toUint32 k mod 32))).
Definition shiftRight (x k : number) : number :=
  of_int (Z.shiftr (toInt32 x) (toUint32 k mod 32)).
Definition shiftRightUnsigned (x k : number) : number :=
  of_int (Z.shiftr (toUint32 x) (toUint32 k mod 32)).

(** What it means for the integer [t] to be the finite number with sign
    [s], mantissa [m] and exponent [e] rounded toward zero: [t] has the
    sign of the number, and its magnitude is the greatest integer not
    above the magnitude [m * 2^e] of the number.  The inequality is
    scaled by the power of two that clears a negative exponent. *)
Definition truncationOf (s : bool) (m : positive) (e : Z) (t : Z) : Prop :=
  (if s then t <= 0 else 0 <= t) /\
  Z.abs t * 2 ^ Z.max 0 (- e) <= Z.pos m * 2 ^ Z.max 0 e
    < (Z.abs t + 1) * 2 ^ Z.max 0 (- e).

Definition mathFloor (x : number) : number :=
  match x with
  | S754_finite s _ _ =>
      let f := floor x in
      if (f =? 0) then S754_zero s else of_int f
  | _ => x
  end.

End Num.

(** ** Strings as the conversions read them

    A string is its sequence of bytes.  The conversions below look at
    ASCII characters only, where a byte is a UTF-16 code unit of the
    language. *)

Module Str.

Definition chars (s : string) : list ascii := list_ascii_of_string s.
Definition ofChars (cs : list ascii) : string := string_of_list_ascii cs.

(** StrWhiteSpaceChar, on the ASCII range: TAB, LF, VT, FF, CR, SP. *)
Definition isWhite (a : ascii) : bool :=
  let n := nat_of_ascii a in
  (Nat.eqb n 32 || (Nat.leb 9 n && Nat.leb n 13))%bool.

Fixpoint dropWhite (cs : list ascii) : list ascii :=
  match cs with
  | c :: rest => if isWhite c then dropWhite rest else cs
  | [] => []
  end.

Definition trim (cs : list ascii) : list ascii :=
  rev (dropWhite (rev (dropWhite cs))).

(** The value of a digit in the given base, if it is one. *)
Definition digitVal (base : Z) (a : ascii) : option Z :=
  let n := Z.of_nat (nat_of_ascii a) in
  let d := if (48 <=? n) && (n <=? 57) then n - 48
           else if (97 <=? n) && (n <=? 122) then n - 87
           else if (65 <=? n) && (n <=? 90) then n - 55
           else 99 in
  if d <? base then Some d else None.

(** Reads the longest prefix of digits; gives its value on top of [acc],
    the number of digits read and what is left. *)
Fixpoint readDigits (base : Z) (cs : list ascii) (acc : Z) (count : Z)
  : Z * Z * list ascii :=
  match cs with
  | [] => (acc, count, [])
  | c :: rest =>
      match digitVal base c with
      | Some d => readDigits base rest (acc * base + d) (count + 1)
      | None => (acc, count, cs)
      end
  end.

End Str.

(** ** Values, objects and the heap *)

(** A language value: a primitive or a reference to a heap object.
    BigInt and Symbol values, which none of the embedded sections uses,
    are left out. *)
Inductive value :=
| VUndefined
| VNull
| VBool (b : bool)
| VNumber (n : Num.number)
| VString (s : string)
| VObject (l : nat).

(** What a heap cell holds: an ordinary object with its own properties in
    insertion order, an array with its elements, or a function. *)
Inductive objdata :=
| OProps (props : list (string * value))
| OArray (elems : list value)
| OFunction (name : string).

(** [ofrozen] is set by Object.freeze. *)
Record object := mkObject { odata : objdata; ofrozen : bool }.

Abbreviation heap := (list object).

(** The language types, as the equality algorithms compare them. *)
Inductive jstype := TUndefined | TNull | TBoolean | TNumber | TString | TObject.

Definition typeOf (v : value) : jstype :=
  match v with
  | VUndefined => TUndefined
  | VNull => TNull
  | VBool _ => TBoolean
  | VNumber _ => TNumber
  | VString _ => TString
  | VObject _ => TObject
  end.

Definition jstype_eqb (a b : jstype) : bool :=
  match a, b with
  | TUndefined, TUndefined | TNull, TNull | TBoolean, TBoolean
  | TNumber, TNumber | TString, TString | TObject, TObject => true
  | _, _ => false
  end.

(** Number literals of the scripts. *)
Definition num (z : Z) : value := VNumber (Num.of_int z).
Definition dec (m k : Z) : value := VNumber (Num.of_decimal m k).

(** ToBoolean: the falsy values are false, +0, -0, NaN, the empty string,
    null and undefined; every object is truthy. *)
Definition toBoolean (v : value) : bool :=
  match v with
  | VUndefined | VNull => false
  | VBool b => b
  | VNumber n => negb (Num.isZero n || Num.isNaN n)
  | VString s => negb (String.eqb s "")
  | VObject _ => true
  end.

(** The typeof operator. *)
Definition typeof (h : heap) (v : value) : string :=
  match v with
  | VUndefined => "undefined"
  | VNull => "object"
  | VBool _ => "boolean"
  | VNumber _ => "number"
  | VString _ => "string"
  | VObject l =>
      match odata <$> h !! l with
      | Some (OFunction _) => "function"
      | _ => "object"
      end
  end.

(** ** Conversions between strings and numbers *)

Module Conv.

Import Str.

(** The value of the decimal [m * 10^e10] with sign [s], rounded to the
    nearest Number. *)
Definition decimalValue (s : bool) (m : Z) (e10 : Z) : Num.number :=
  match m with
  | Z.pos p =>
      if 0 <=? e10
      then Num.of_int (cond_Zopp s (m * 10 ^ e10))
      else SFdiv Num.prec Num.emax (S754_finite s p 0)
                 (S754_finite false (Z.to_pos (10 ^ (- e10))) 0)
  | _ => S754_zero s
  end.

Definition readSign (cs : list ascii) : bool * list ascii :=
  match cs with
  | "+"%char :: rest => (false, rest)
  | "-"%char :: rest => (true, rest)
  | _ => (false, cs)
  end.

(** StrUnsignedDecimalLiteral without Infinity: digits, an optional
    fraction, an optional exponent.  Gives mantissa and decimal exponent. *)
Definition parseUnsignedDecimal (cs : list ascii) : option (Z * Z) :=
  let '(ip, ni, r1) := readDigits 10 cs 0 0 in
  let '(m, nf, r2) :=
    match r1 with
    | "."%char :: r => readDigits 10 r ip 0
    | _ => (ip, 0, r1)
    end in
  if ni + nf =? 0 then None
  else
    match r2 with
    | [] => Some (m, - nf)
    | c :: r3 =>
        if (Ascii.eqb c "e" || Ascii.eqb c "E")%bool
        then
          let '(sg, r4) := readSign r3 in
          let '(ex, ne, r5) := readDigits 10 r4 0 0 in
          match r5 with
          | [] => if ne =? 0 then None else Some (m, cond_Zopp sg ex - nf)
          | _ => None
          end
        else None
    end.

(** StrDecimalLiteral: an optional sign, then Infinity or a decimal. *)
Definition parseDecimal (cs : list ascii) : option Num.number :=
  let '(sg, r) := readSign cs in
  if String.eqb (ofChars r) "Infinity" then Some (S754_infinity sg)
  else
    match parseUnsignedDecimal r with
    | Some (m, e10) => Some (decimalValue sg m e10)
    | None => None
    end.

(** NonDecimalIntegerLiteral: 0x, 0o and 0b prefixes, unsigned. *)
Definition parseNonDecimal (cs : list ascii) : option Num.number :=
  match cs with
  | "0"%char :: p :: rest =>
      let base :=
        if (Ascii.eqb p "x" || Ascii.eqb p "X")%bool then 16
        else if (Ascii.eqb p "o" || Ascii.eqb p "O")%bool then 8
        else if (Ascii.eqb p "b" || Ascii.eqb p "B")%bool then 2
        else 0 in
      if base =? 0 then None
      else
        match readDigits base rest 0 0 with
        | (v, n, []) => if n =? 0 then None else Some (Num.of_int v)
        | _ => None
        end
  | _ => None
  end.

(** StringToNumber: white space is trimmed; the empty string is +0; what
    does not parse as a numeric literal is NaN. *)
Definition stringToNumber (s : string) : Num.number :=
  match trim (chars s) with
  | [] => Num.zero
  | cs =>
      match parseNonDecimal cs with
      | Some n => n
      | None =>
          match parseDecimal cs with
          | Some n => n
          | None => Num.NaN
          end
      end
  end.

(** Whether a finite number has no fractional part. *)
Definition isInteger (x : Num.number) : bool :=
  match x with
  | S754_finite _ m e => (0 <=? e) || (Z.pos m mod 2 ^ (- e) =? 0)
  | S754_zero _ => true
  | _ => false
  end.

(** Number::toString in base 10, for NaN, the infinities, the zeros and
    the integers that are exact (up to 2^53), which print as their decimal
    digits.  The shortest round-trip digits of the other numbers are
    outside this model: [None]. *)
Definition numberToString (x : Num.number) : option string :=
  match x with
  | S754_nan => Some "NaN"
  | S754_zero _ => Some "0"
  | S754_infinity s => Some (if s then "-Infinity" else "Infinity")
  | S754_finite _ _ _ =>
      if isInteger x && (Z.abs (Num.truncate x) <=? 2 ^ 53)
      then Some (pretty (Num.truncate x))
      else None
  end.

(** Array.prototype.join with the separator [sep]. *)
Fixpoint joinWith (sep : string) (parts : list string) : string :=
  match parts with
  | [] => ""
  | [p] => p
  | p :: rest => p ++ sep ++ joinWith sep rest
  end.

(** All the results, if each is there. *)
Fixpoint allSome {A} (xs : list (option A)) : option (list A) :=
  match xs with
  | [] => Some []
  | Some x :: rest => cons x <$> allSome rest
  | None :: _ => None
  end.

(** ToString.  An array converts with Array.prototype.toString, which
    joins the elements with a comma and reads undefined and null as the
    empty string; an ordinary object is "[object Object]".  [fuel] bounds
    the nesting of arrays; the source text of a function is not
    modelled. *)
Fixpoint toStringF (fuel : nat) (h : heap) (v : value) : option string :=
  match v with
  | VUndefined => Some "undefined"
  | VNull => Some "null"
  | VBool b => Some (if b then "true" else "false")
  | VNumber n => numberToString n
  | VString s => Some s
  | VObject l =>
      match fuel with
      | O => None
      | S f =>
          match odata <$> h !! l with
          | Some (OArray es) =>
              joinWith "," <$>
                allSome (map (fun e => match e with
                                       | VUndefined | VNull => Some ""
                                       | _ => toStringF f h e
                                       end) es)
          | Some (OProps _) => Some "[object Object]"
          | _ => None
          end
      end
  end.

Definition toString (h : heap) (v : value) : option string :=
  toStringF (S (length h)) h v.

(** ToPrimitive: a primitive is already one; for the objects of this
    model valueOf gives the object back, so toString decides. *)
Definition toPrimitive (h : heap) (v : value) : option value :=
  match v with
  | VObject _ => VString <$> toString h v
  | _ => Some v
  end.

(** ToNumber, which is what Number(v) and the arithmetic operators
    apply. *)
Definition toNumber (h : heap) (v : value) : option Num.number :=
  match v with
  | VUndefined => Some Num.NaN
  | VNull => Some Num.zero
  | VBool b => Some (if b then Num.of_int 1 else Num.zero)
  | VNumber n => Some n
  | VString s => Some (stringToNumber s)
  | VObject _ =>
      match toPrimitive h v with
      | Some (VString s) => Some (stringToNumber s)
      | _ => None
      end
  end.

End Conv.

(** ** Equality *)

(** IsStrictlyEqual (===): values of different types are never equal;
    numbers compare with Number::equal, objects by identity. *)
Definition strictEq (x y : value) : bool :=
  match x, y with
  | VUndefined, VUndefined => true
  | VNull, VNull => true
  | VBool a, VBool b => Bool.eqb a b
  | VNumber a, VNumber b => Num.equal a b
  | VString a, VString b => String.eqb a b
  | VObject a, VObject b => Nat.eqb a b
  | _, _ => false
  end.

(** IsLooselyEqual (==), step by step as the standard lists them: same
    type, null against undefined, number against string, a boolean
    operand converted with ToNumber, an object against a primitive
    converted with ToPrimitive.  Each step recurses on converted
    operands; [fuel] counts the steps. *)
Fixpoint looseEqF (fuel : nat) (h : heap) (x y : value) : option bool :=
  match fuel with
  | O => None
  | S f =>
      if jstype_eqb (typeOf x) (typeOf y) then Some (strictEq x y)
      else
        match x, y with
        | VNull, VUndefined | VUndefined, VNull => Some true
        | VNumber _, VString s => looseEqF f h x (VNumber (Conv.stringToNumber s))
        | VString s, VNumber _ => looseEqF f h (VNumber (Conv.stringToNumber s)) y
        | VBool b, _ => looseEqF f h (VNumber (if b then Num.of_int 1 else Num.zero)) y
        | _, VBool b => looseEqF f h x (VNumber (if b then Num.of_int 1 else Num.zero))
        | (VString _ | VNumber _), VObject _ =>
            match Conv.toPrimitive h y with
            | Some p => looseEqF f h x p
            | None => None
            end
        | VObject _, (VString _ | VNumber _) =>
            match Conv.toPrimitive h x with
            | Some p => looseEqF f h p y
            | None => None
            end
        | _, _ => Some false
        end
  end.

(** No comparison takes more than four conversions. *)
Definition looseEq (h : heap) (x y : value) : option bool := looseEqF 5 h x y.

(** ** The run-time state *)

(** How a binding was declared. *)
Inductive bindingKind := KVar | KLet | KConst | KFunction | KParam.

(** A binding of an environment record.  [bvalue] is [None] from the
    creation of a [let] or [const] binding until its declaration runs:
    the temporal dead zone. *)
Record binding := mkBinding { bkind : bindingKind; bvalue : option value }.

(** An environment record: its bindings and the enclosing record. *)
Record envRecord := mkEnv { bindings : gmap string binding; outer : option nat }.

Inductive errorName := ReferenceError | TypeError.

(** A thrown error object, with the message of the V8 engine the scripts'
    solution comments quote. *)
Record error := mkError { ename : errorName; emessage : string }.

(** What console.log shows of a value at the moment of the call. *)
Inductive display :=
| DUndefined
| DNull
| DBool (b : bool)
| DNumber (n : Num.number)
| DString (s : string)
| DObject (props : list (string * display))
| DArray (elems : list display)
| DFunction (name : string)
| DNested.

(** The state of a running script: the environment records created so
    far, the record of the running code, the heap and the console. *)
Record state := mkState {
  envs : list envRecord;
  cur : nat;
  store : heap;
  console : list (list display)
}.

Definition setEnvs (es : list envRecord) (st : state) : state :=
  mkState es (cur st) (store st) (console st).
Definition setCur (c : nat) (st : state) : state :=
  mkState (envs st) c (store st) (console st).
Definition setStore (h : heap) (st : state) : state :=
  mkState (envs st) (cur st) h (console st).
Definition setConsole (c : list (list display)) (st : state) : state :=
  mkState (envs st) (cur st) (store st) c.

(** A script starts with the empty global record, heap and console. *)
Definition initialState : state :=
  mkState [mkEnv ∅ None] 0%nat [] [].

(** ** The monad of script code

    A computation runs on a state and ends normally with a result, or
    abruptly with a thrown error; [Unsupported] marks what this model
    does not cover. *)

Inductive outcome (A : Type) :=
| Normal (a : A)
| Thrown (e : error)
| Unsupported.

Arguments Normal {A} a.
Arguments Thrown {A} e.
Arguments Unsupported {A}.

Definition M (A : Type) : Type := state -> outcome A * state.

Definition ret {A} (a : A) : M A := fun st => (Normal a, st).

Definition bind {A B} (c : M A) (k : A -> M B) : M B :=
  fun st =>
    match c st with
    | (Normal a, st') => k a st'
    | (Thrown e, st') => (Thrown e, st')
    | (Unsupported, st') => (Unsupported, st')
    end.

Definition throw {A} (n : errorName) (msg : string) : M A :=
  fun st => (Thrown (mkError n msg), st).

Definition unsupported {A} : M A := fun st => (Unsupported, st).

Definition liftOption {A} (o : option A) : M A :=
  match o with
  | Some a => ret a
  | None => unsupported
  end.

Declare Scope js_scope.
Delimit Scope js_scope with js.
Notation "x <- c ;; k" := (bind c (fun x => k))
  (at level 100, c at next level, right associativity) : js_scope.
Notation "c ;; k" := (bind c (fun _ => k))
  (at level 100, right associativity) : js_scope.
Local Open Scope js_scope.

(** try { body } catch (e) { handler e } *)
Definition tryCatch {A} (body : M A) (handler : error -> M A) : M A :=
  fun st =>
    match body st with
    | (Thrown e, st') => handler e st'
    | r => r
    end.

(** Runs [cleanup] after [body] however [body] ends. *)
Definition finally {A} (body : M A) (cleanup : state -> state) : M A :=
  fun st => let '(r, st') := body st in (r, cleanup st').

(** e.message *)
Definition message (e : error) : value := VString (emessage e).

(** ** Environment records: hoisting, reads and writes *)

(** ResolveBinding: the nearest record on the chain from [e] that has a
    binding for [x], with that binding. *)
Fixpoint lookupF (fuel : nat) (es : list envRecord) (e : nat) (x : string)
  : option (nat * binding) :=
  match fuel with
  | O => None
  | S f =>
      match es !! e with
      | None => None
      | Some r =>
          match bindings r !! x with
          | Some b => Some (e, b)
          | None =>
              match outer r with
              | Some p => lookupF f es p x
              | None => None
              end
          end
      end
  end.

Definition lookupBinding (st : state) (x : string) : option (nat * binding) :=
  lookupF (length (envs st)) (envs st) (cur st) x.

(** The binding an identifier resolves to in a state. *)
Definition bindingOf (st : state) (x : string) : option binding :=
  snd <$> lookupBinding st x.


(** The records of a state form chains that end: the enclosing record of
    a record was created before it, and the running code has a record. *)
Definition wfState (st : state) : Prop :=
  (cur st < length (envs st))%nat /\
  forall e r p, envs st !! e = Some r -> outer r = Some p -> (p < e)%nat.

Definition updateRecord (x : string) (b : binding) (r : envRecord) : envRecord :=
  mkEnv (<[x := b]> (bindings r)) (outer r).

Definition putBinding (e : nat) (x : string) (b : binding) (st : state) : state :=
  setEnvs (alter (updateRecord x b) e (envs st)) st.

Definition tdzMessage (x : string) : string :=
  "Cannot access '" ++ x ++ "' before initialization".

(** Reading an identifier (GetBindingValue): a name with no binding and a
    binding in its dead zone both throw a ReferenceError. *)
Definition getBinding (x : string) : M value :=
  fun st =>
    match lookupBinding st x with
    | None => (Thrown (mkError ReferenceError (x ++ " is not defined")), st)
    | Some (_, b) =>
        match bvalue b with
        | Some v => (Normal v, st)
        | None => (Thrown (mkError ReferenceError (tdzMessage x)), st)
        end
    end.

(** The declaration [let x = v] or [const x = v] runs (InitializeBinding):
    the binding hoisted at scope entry leaves its dead zone. *)
Definition initializeBinding (x : string) (v : value) : M unit :=
  fun st =>
    match lookupBinding st x with
    | Some (e, b) => (Normal (), putBinding e x (mkBinding (bkind b) (Some v)) st)
    | None => (Unsupported, st)
    end.

(** The assignment [x = v] (SetMutableBinding) in a sloppy-mode script:
    a binding in its dead zone throws a ReferenceError, a [const] binding
    a TypeError; a name with no binding becomes a global variable. *)
Definition assign (x : string) (v : value) : M value :=
  fun st =>
    match lookupBinding st x with
    | None => (Normal v, putBinding 0 x (mkBinding KVar (Some v)) st)
    | Some (e, b) =>
        match bvalue b with
        | None => (Thrown (mkError ReferenceError (tdzMessage x)), st)
        | Some _ =>
            match bkind b with
            | KConst => (Thrown (mkError TypeError "Assignment to constant variable."), st)
            | k => (Normal v, putBinding e x (mkBinding k (Some v)) st)
            end
        end
    end.

(** [var x = v] where it stands: the binding exists since scope entry, so
    the statement is an assignment. *)
Definition varInit (x : string) (v : value) : M unit :=
  _ <- assign x v ;; ret ().

(** The bindings a scope entry creates for [let] and [const]
    declarations: all of them uninitialized. *)
Definition lexicalBindings (lex : list (string * bindingKind)) : gmap string binding :=
  list_to_map (map (fun d => (fst d, mkBinding (snd d) None)) lex).

(** The bindings a scope entry creates for [var] declarations: all
    undefined. *)
Definition varBindings (vars : list string) : gmap string binding :=
  list_to_map (map (fun x => (x, mkBinding KVar (Some VUndefined))) vars).

Definition pushEnv (r : envRecord) (st : state) : state :=
  setCur (length (envs st)) (setEnvs (envs st ++ [r]) st).

(** Entry into a block [{ ... }] with the [let] and [const] declarations
    [lex] in its statement list: a record for them below the current
    one. *)
Definition blockEntry (lex : list (string * bindingKind)) (st : state) : state :=
  pushEnv (mkEnv (lexicalBindings lex) (Some (cur st))) st.

(** The block: leaving it, normally or not, restores the current
    record. *)
Definition block {A} (lex : list (string * bindingKind)) (body : M A) : M A :=
  fun st => finally body (setCur (cur st)) (blockEntry lex st).

Definition paramBindings (params : list (string * value)) : gmap string binding :=
  list_to_map (map (fun p => (fst p, mkBinding KParam (Some (snd p)))) params).

(** Entry into a function body called with the record [defEnv] it was
    created in as its scope: a record holding the parameters, the [var]
    declarations of the whole body (undefined, unless a parameter has the
    name) and its top-level [let] and [const] declarations (dead). *)
Definition functionEntry (defEnv : nat) (params : list (string * value))
    (vars : list string) (lex : list (string * bindingKind)) (st : state) : state :=
  pushEnv (mkEnv (paramBindings params ∪ varBindings vars ∪ lexicalBindings lex)
                 (Some defEnv)) st.

Definition functionScope {A} (defEnv : nat) (params : list (string * value))
    (vars : list string) (lex : list (string * bindingKind)) (body : M A) : M A :=
  fun st => finally body (setCur (cur st)) (functionEntry defEnv params vars lex st).

(** The bindings of hoisted function declarations: each name is bound to
    its function object, allocated from heap address [base] on. *)
Definition functionBindings (base : nat) (funs : list string) : gmap string binding :=
  list_to_map (imap (fun i f => (f, mkBinding KFunction (Some (VObject (base + i))))) funs).

(** What the declarations of a script add to the global record [r]. *)
Definition hoistGlobals (base : nat) (funs vars : list string)
    (lex : list (string * bindingKind)) (r : envRecord) : envRecord :=
  mkEnv (lexicalBindings lex ∪ functionBindings base funs
         ∪ bindings r ∪ varBindings vars) (outer r).

(** Entry into a script (GlobalDeclarationInstantiation): before the
    first statement runs, the function declarations are bound to their
    functions, the [var] declarations to undefined where the name is not
    bound yet, and the top-level [let] and [const] declarations are
    created dead. *)
Definition scriptEntry (funs vars : list string) (lex : list (string * bindingKind))
    (st : state) : state :=
  setEnvs (alter (hoistGlobals (length (store st)) funs vars lex) (cur st) (envs st))
    (setStore (store st ++ map (fun f => mkObject (OFunction f) false) funs) st).

Definition script {A} (funs vars : list string) (lex : list (string * bindingKind))
    (body : M A) : M A :=
  fun st => body (scriptEntry funs vars lex st).

Definition isCallable (h : heap) (v : value) : bool :=
  match v with
  | VObject l =>
      match odata <$> h !! l with
      | Some (OFunction _) => true
      | _ => false
      end
  | _ => false
  end.

(** The call [name()] of a declared function whose body is [code]: the
    identifier is read first, and a value that is no function throws. *)
Definition call {A} (name : string) (code : M A) : M A :=
  f <- getBinding name ;;
  fun st =>
    if isCallable (store st) f then code st
    else (Thrown (mkError TypeError (name ++ " is not a function")), st).

(** ** Objects and arrays on the heap *)

Fixpoint propLookup (k : string) (ps : list (string * value)) : option value :=
  match ps with
  | [] => None
  | (k', v) :: rest => if String.eqb k k' then Some v else propLookup k rest
  end.

(** Defining a property: an existing key keeps its place, a new one goes
    last.  This is the order in which the language lists the keys that
    are not array indices; an array index ("0", "1", ...), which it lists
    before them, gets no place of its own here: the list keeps the order
    of creation. *)
Fixpoint propSet (k : string) (v : value) (ps : list (string * value))
  : list (string * value) :=
  match ps with
  | [] => [(k, v)]
  | (k', v') :: rest =>
      if String.eqb k k' then (k, v) :: rest else (k', v') :: propSet k v rest
  end.

Definition alloc (d : objdata) : M value :=
  fun st => (Normal (VObject (length (store st))),
             setStore (store st ++ [mkObject d false]) st).

(** The characters of a string, one for each byte: the code units and
    the code points of an ASCII string. *)
Definition charStrings (s : string) : list value :=
  map (fun c => VString (String c EmptyString)) (Str.chars s).

(** The own enumerable properties a spread or a rest copies: those of an
    object, the indexed elements of an array or a string, none for the
    other primitives (null and undefined included). *)
Definition ownProps (h : heap) (v : value) : list (string * value) :=
  match v with
  | VObject l =>
      match odata <$> h !! l with
      | Some (OProps ps) => ps
      | Some (OArray es) => imap (fun i e => (pretty i, e)) es
      | _ => []
      end
  | VString s => imap (fun i e => (pretty i, e)) (charStrings s)
  | _ => []
  end.

(** The values an iteration yields: the elements of an array, the
    characters of a string (of an ASCII string, see [charStrings]).  The
    other values of this model, which has no Set and no Map, are not
    iterable. *)
Definition iterate (h : heap) (v : value) : option (list value) :=
  match v with
  | VObject l =>
      match odata <$> h !! l with
      | Some (OArray es) => Some es
      | _ => None
      end
  | VString s => Some (charStrings s)
  | _ => None
  end.

(** A part of an object literal: [k: v] or [...v]. *)
Inductive propInit :=
| Field (k : string) (v : value)
| Spread (v : value).

(** A part of an array literal: [v] or [...v], the latter with its source
    text for the error message. *)
Inductive elemInit :=
| Item (v : value)
| SpreadItems (v : value) (src : string).

Definition addProps (h : heap) (acc : list (string * value)) (p : propInit)
  : list (string * value) :=
  match p with
  | Field k v => propSet k v acc
  | Spread v => fold_left (fun a kv => propSet (fst kv) (snd kv) a) (ownProps h v) acc
  end.

(** The object literal [{ parts }]: a new object, the parts defined left
    to right. *)
Definition objectLiteral (parts : list propInit) : M value :=
  fun st => alloc (OProps (fold_left (addProps (store st)) parts [])) st.

Fixpoint addElems (h : heap) (parts : list elemInit) (acc : list value)
  : list value + string :=
  match parts with
  | [] => inl acc
  | Item v :: rest => addElems h rest (acc ++ [v])
  | SpreadItems v src :: rest =>
      match iterate h v with
      | Some es => addElems h rest (acc ++ es)
      | None => inr src
      end
  end.

(** The array literal [[ parts ]]: a new array; spreading what is not
    iterable throws. *)
Definition arrayLiteral (parts : list elemInit) : M value :=
  fun st =>
    match addElems (store st) parts [] with
    | inl es => alloc (OArray es) st
    | inr src => (Thrown (mkError TypeError (src ++ " is not iterable")), st)
    end.

(** The values of the iterable on the right of an array pattern. *)
Definition iterateM (v : value) (src : string) : M (list value) :=
  fun st =>
    match iterate (store st) v with
    | Some es => (Normal es, st)
    | None => (Thrown (mkError TypeError (src ++ " is not iterable")), st)
    end.

(** The element an array pattern binds at position [i]: undefined past
    the end. *)
Definition element (es : list value) (i : nat) : value :=
  default VUndefined (es !! i).

(** The rest element [...r] of an array pattern after [n] elements. *)
Definition arrayRest (es : list value) (n : nat) : M value :=
  alloc (OArray (drop n es)).

Definition describe (v : value) : string :=
  match v with
  | VUndefined => "undefined"
  | _ => "null"
  end.

(** The rest property [...r] of an object pattern: a new object with the
    own properties of [v] whose keys the pattern did not name. *)
Definition objectRest (v : value) (named : list string) : M value :=
  fun st =>
    match v with
    | VUndefined | VNull =>
        (Thrown (mkError TypeError ("Cannot destructure '" ++ describe v
                                      ++ "' as it is " ++ describe v ++ ".")), st)
    | _ =>
        alloc (OProps (List.filter (fun kv => negb (existsb (String.eqb (fst kv)) named))
                                   (ownProps (store st) v))) st
    end.

(** The property read [o.k] on own properties; the prototype chain is not
    modelled.  Reading from undefined or null throws. *)
Definition getProp (o : value) (k : string) : M value :=
  fun st =>
    match o with
    | VUndefined | VNull =>
        (Thrown (mkError TypeError ("Cannot read properties of " ++ describe o
                                      ++ " (reading '" ++ k ++ "')")), st)
    | VObject l =>
        match odata <$> store st !! l with
        | Some (OProps ps) => (Normal (default VUndefined (propLookup k ps)), st)
        | Some (OArray es) =>
            if String.eqb k "length" then (Normal (num (Z.of_nat (length es))), st)
            else (Normal (default VUndefined (propLookup k (ownProps (store st) o))), st)
        | Some (OFunction n) =>
            (Normal (if String.eqb k "name" then VString n else VUndefined), st)
        | None => (Unsupported, st)
        end
    | VString s =>
        if String.eqb k "length" then (Normal (num (Z.of_nat (String.length s))), st)
        else (Normal (default VUndefined (propLookup k (ownProps (store st) o))), st)
    | _ => (Normal VUndefined, st)
    end.

(** The element read [o[i]]: the element of an array at that index, or
    undefined past its end; on other values the property whose key is
    the index. *)
Definition getIndex (o : value) (i : nat) : M value :=
  fun st =>
    match o with
    | VObject l =>
        match odata <$> store st !! l with
        | Some (OArray es) => (Normal (element es i), st)
        | _ => getProp o (pretty i) st
        end
    | _ => getProp o (pretty i) st
    end.

Definition putObject (l : nat) (d : objdata) (st : state) : state :=
  setStore (alter (fun o => mkObject d (ofrozen o)) l (store st)) st.

(** The property write [o.k = v] in sloppy mode: a frozen object ignores
    it silently; writing to undefined or null throws. *)
Definition setProp (o : value) (k : string) (v : value) : M value :=
  fun st =>
    match o with
    | VUndefined | VNull =>
        (Thrown (mkError TypeError ("Cannot set properties of " ++ describe o
                                      ++ " (setting '" ++ k ++ "')")), st)
    | VObject l =>
        match store st !! l with
        | Some (mkObject (OProps ps) false) => (Normal v, putObject l (OProps (propSet k v ps)) st)
        | Some (mkObject (OProps ps) true) => (Normal v, st)
        | Some _ => (Unsupported, st)
        | None => (Unsupported, st)
        end
    | _ => (Normal v, st)
    end.

(** arr.push(v): appends and gives the new length; a frozen array
    throws. *)
Definition push (o : value) (v : value) : M value :=
  fun st =>
    match o with
    | VObject l =>
        match store st !! l with
        | Some (mkObject (OArray es) false) =>
            (Normal (num (Z.of_nat (length es) + 1)), putObject l (OArray (es ++ [v])) st)
        | Some (mkObject (OArray es) true) =>
            (Thrown (mkError TypeError ("Cannot add property " ++ pretty (length es)
                                          ++ ", object is not extensible")), st)
        | _ => (Unsupported, st)
        end
    | _ => (Unsupported, st)
    end.

(** Object.freeze(o): shallow, and the identity on primitives. *)
Definition freeze (o : value) : M value :=
  fun st =>
    match o with
    | VObject l =>
        (Normal o, setStore (alter (fun ob => mkObject (odata ob) true) l (store st)) st)
    | _ => (Normal o, st)
    end.

(** ** The console *)

(** What console.log prints for a value: its own structure down to the
    nesting depth shown, the heap read at the moment of the call. *)
Fixpoint inspectF (fuel : nat) (h : heap) (v : value) : display :=
  match v with
  | VUndefined => DUndefined
  | VNull => DNull
  | VBool b => DBool b
  | VNumber n => DNumber n
  | VString s => DString s
  | VObject l =>
      match fuel with
      | O => DNested
      | S f =>
          match odata <$> h !! l with
          | Some (OProps ps) => DObject (map (fun kv => (fst kv, inspectF f h (snd kv))) ps)
          | Some (OArray es) => DArray (map (inspectF f h) es)
          | Some (OFunction n) => DFunction n
          | None => DUndefined
          end
      end
  end.

(** Node shows nested objects down to depth 2 below the logged value. *)
Definition inspect (h : heap) (v : value) : display := inspectF 3 h v.

(** console.log(args): one more line on the console. *)
Definition console_log (args : list value) : M unit :=
  fun st => (Normal (), setConsole (console st ++ [map (inspect (store st)) args]) st).

(** A template literal: the literal chunks and the substitutions
    converted with ToString, concatenated. *)
Fixpoint template (parts : list (string + value)) : M string :=
  match parts with
  | [] => ret ""
  | inl s :: rest => t <- template rest ;; ret (s ++ t)
  | inr v :: rest =>
      s <- (fun st => liftOption (Conv.toString (store st) v) st) ;;
      t <- template rest ;;
      ret (s ++ t)
  end.

(** The lines a script printed, run from the initial state. *)
Definition output {A} (s : M A) : list (list display) :=
  console (snd (s initialState)).

Definition result {A} (s : M A) : outcome A := fst (s initialState).

Definition finalState {A} (s : M A) : state := snd (s initialState).

(** What console.log would show of the variable [x] in the state [st]. *)
Definition showBinding (st : state) (x : string) : option display :=
  match lookupBinding st x with
  | Some (_, b) => inspect (store st) <$> bvalue b
  | None => None
  end.

(** ** Operators *)

Definition toNumberM (v : value) : M Num.number :=
  fun st => liftOption (Conv.toNumber (store st) v) st.

(** Number(v) *)
Definition Number (v : value) : M value :=
  n <- toNumberM v ;; ret (VNumber n).

Definition numeric1 (f : Num.number -> Num.number) (a : value) : M value :=
  x <- toNumberM a ;; ret (VNumber (f x)).

Definition numeric2 (f : Num.number -> Num.number -> Num.number) (a b : value) : M value :=
  x <- toNumberM a ;; y <- toNumberM b ;; ret (VNumber (f x y)).

(** [~a], [a | b], [a << b], [a >> b], [a >>> b], [a & b], [a ^ b] *)
Definition bitNot := numeric1 Num.bitNot.
Definition bitOr := numeric2 Num.bitOr.
Definition bitAnd := numeric2 Num.bitAnd.
Definition bitXor := numeric2 Num.bitXor.
Definition shiftLeft := numeric2 Num.shiftLeft.
Definition shiftRight := numeric2 Num.shiftRight.
Definition shiftRightUnsigned := numeric2 Num.shiftRightUnsigned.

(** Math.floor(a) *)
Definition Math_floor := numeric1 Num.mathFloor.

(** [a == b] and [a === b] *)
Definition looseEqual (a b : value) : M value :=
  fun st => liftOption (VBool <$> looseEq (store st) a b) st.

Definition strictEqual (a b : value) : M value := ret (VBool (strictEq a b)).

(** IsLessThan for [a < b]: two strings compare by their characters
    (byte by byte, which is the order of the code units of ASCII
    strings), anything else as numbers, and a NaN operand makes it
    false. *)
Definition lessThan (a b : value) : M value :=
  fun st =>
    match Conv.toPrimitive (store st) a, Conv.toPrimitive (store st) b with
    | Some (VString x), Some (VString y) => (Normal (VBool (String.ltb x y)), st)
    | Some pa, Some pb =>
        match Conv.toNumber (store st) pa, Conv.toNumber (store st) pb with
        | Some x, Some y => (Normal (VBool (SFltb x y)), st)
        | _, _ => (Unsupported, st)
        end
    | _, _ => (Unsupported, st)
    end.

(** Number.isNaN(a) and Object.is(a, b), the latter SameValue: NaN is
    itself, and +0 is not -0. *)
Definition Number_isNaN (a : value) : value :=
  match a with
  | VNumber n => VBool (Num.isNaN n)
  | _ => VBool false
  end.

Definition Object_is (a b : value) : value :=
  match a, b with
  | VNumber S754_nan, VNumber S754_nan => VBool true
  | VNumber (S754_zero s), VNumber (S754_zero t) => VBool (Bool.eqb s t)
  | _, _ => VBool (strictEq a b)
  end.

(** [a || b]: the right operand is a computation, run only when the left
    value is falsy. *)
Definition or_ (a b : M value) : M value :=
  x <- a ;; if toBoolean x then ret x else b.

(** [a && b]: the right operand runs only when the left value is
    truthy. *)
Definition and_ (a b : M value) : M value :=
  x <- a ;; if toBoolean x then b else ret x.

(** [a ?? b]: the right operand runs only when the left value is null or
    undefined. *)
Definition nullish (a b : M value) : M value :=
  x <- a ;;
  match x with
  | VUndefined | VNull => b
  | _ => ret x
  end.

(** [!a] *)
Definition not_ (a : value) : value := VBool (negb (toBoolean a)).

(** An expression statement: the value is dropped. *)
Definition exprStmt (e : M value) : M unit := _ <- e ;; ret ().

(** The characters a string literal of the scripts needs and a Rocq
    literal cannot hold directly. *)
Definition nl : string := String (ascii_of_nat 10) EmptyString.
Definition dq : string := String (ascii_of_nat 34) EmptyString.
Definition str (s : string) : value := VString s.

(** * The scripts

    Each definition below embeds one section of a script, statement by
    statement, as a script of its own: the identifiers of a section are
    used nowhere else in its file (they carry the section's suffix), so
    the section prints the same lines alone as inside the file.  The
    declarations a scope hoists are the ones its statements contain. *)

(** ** src/unnamed/part_001, first file: spread and rest *)

Module SpreadRest.

(** Lines 45-51, "2. Rest Operator". *)
Definition rest_operator : M unit :=
  script [] []
    [("a_s2", KConst); ("rest_s2", KConst); ("first_s2", KConst); ("others_s2", KConst)]
    (o <- objectLiteral [Field "a" (num 10); Field "b" (num 20); Field "c" (num 30)] ;;
     a <- getProp o "a" ;;
     initializeBinding "a_s2" a ;;
     r <- objectRest o ["a"] ;;
     initializeBinding "rest_s2" r ;;
     v <- getBinding "rest_s2" ;;
     console_log [str "Rest in object destructuring:"; v] ;;
     arr <- arrayLiteral [Item (num 10); Item (num 20); Item (num 30); Item (num 40)] ;;
     es <- iterateM arr "[10,20,30,40]" ;;
     initializeBinding "first_s2" (element es 0) ;;
     r <- arrayRest es 1 ;;
     initializeBinding "others_s2" r ;;
     v <- getBinding "others_s2" ;;
     console_log [str "Rest in array destructuring:"; v]).

(** Lines 70-78, "4. Real-World Use Cases": copying and the immutable
    update. *)
Definition immutable_update : M unit :=
  script [] []
    [("original_s4", KConst); ("copy_s4", KConst); ("user_s4", KConst);
     ("updatedUser_s4", KConst)]
    (o <- objectLiteral [Field "x" (num 1); Field "y" (num 2)] ;;
     initializeBinding "original_s4" o ;;
     o <- getBinding "original_s4" ;;
     c <- objectLiteral [Spread o] ;;
     initializeBinding "copy_s4" c ;;
     c <- getBinding "copy_s4" ;;
     console_log [str "Shallow copying an object:"; c] ;;
     u <- objectLiteral [Field "name" (str "Alice"); Field "age" (num 20)] ;;
     initializeBinding "user_s4" u ;;
     u <- getBinding "user_s4" ;;
     u' <- objectLiteral [Spread u; Field "age" (num 21)] ;;
     initializeBinding "updatedUser_s4" u' ;;
     u' <- getBinding "updatedUser_s4" ;;
     console_log [str "Immutable update:"; u']).

(** Lines 85-89, "Hidden Internals": the spread of an array of objects. *)
Definition hidden_internals : M unit :=
  script [] [] [("nested_hi", KConst); ("copy_hi", KConst)]
    (ox <- objectLiteral [Field "x" (num 1)] ;;
     oy <- objectLiteral [Field "y" (num 2)] ;;
     a <- arrayLiteral [Item ox; Item oy] ;;
     initializeBinding "nested_hi" a ;;
     a <- getBinding "nested_hi" ;;
     c <- arrayLiteral [SpreadItems a "nested_hi"] ;;
     initializeBinding "copy_hi" c ;;
     c <- getBinding "copy_hi" ;;
     c0 <- getIndex c 0 ;;
     exprStmt (setProp c0 "x" (num 99)) ;;
     a <- getBinding "nested_hi" ;;
     a0 <- getIndex a 0 ;;
     x <- getProp a0 "x" ;;
     console_log [str "Spread is a shallow copy. Original was mutated:"; x]).

(** Lines 136-142, "Q1: Shallow Copy". *)
Definition q1_shallow_copy : M unit :=
  script [] [] [("obj1_bb", KConst); ("obj2_bb", KConst)]
    (console_log [str (nl ++ "--- Q1: Shallow Copy ---")] ;;
     inner <- objectLiteral [Field "c" (num 2)] ;;
     o1 <- objectLiteral [Field "a" (num 1); Field "b" inner] ;;
     initializeBinding "obj1_bb" o1 ;;
     o1 <- getBinding "obj1_bb" ;;
     o2 <- objectLiteral [Spread o1] ;;
     initializeBinding "obj2_bb" o2 ;;
     o2 <- getBinding "obj2_bb" ;;
     b <- getProp o2 "b" ;;
     exprStmt (setProp b "c" (num 99)) ;;
     o1 <- getBinding "obj1_bb" ;;
     b <- getProp o1 "b" ;;
     c <- getProp b "c" ;;
     console_log [str "What is obj1.b.c?"; c] ;;
     console_log [str "✅ Answer: 99. The nested object `b` was a reference, not a copy."]).

End SpreadRest.

(** ** src/unnamed/part_001, second file: destructuring use cases *)

Module Destructuring.

(** Lines 224-229, "5. Ignoring Values".  The pattern [{ x_s5, ...rest_s5 }]
    is the shorthand of [{ x_s5: x_s5, ...rest_s5 }]: it reads the
    property whose key is x_s5 and leaves that key out of the rest. *)
Definition ignoring_values : M unit :=
  script [] []
    [("a_s5", KConst); ("b_s5", KConst); ("x_s5", KConst); ("rest_s5", KConst)]
    (console_log [str (nl ++ "--- 5. Ignoring Values ---")] ;;
     arr <- arrayLiteral [Item (num 1); Item (num 2); Item (num 3)] ;;
     es <- iterateM arr "[1,2,3]" ;;
     initializeBinding "a_s5" (element es 0) ;;
     initializeBinding "b_s5" (element es 2) ;;
     a <- getBinding "a_s5" ;;
     b <- getBinding "b_s5" ;;
     t <- template [inl "a="; inr a; inl ", b="; inr b] ;;
     console_log [str "Ignoring with commas [a, , b]:"; str t] ;;
     o <- objectLiteral [Field "x" (num 1); Field "y" (num 2); Field "z" (num 3)] ;;
     x <- getProp o "x_s5" ;;
     initializeBinding "x_s5" x ;;
     r <- objectRest o ["x_s5"] ;;
     initializeBinding "rest_s5" r ;;
     v <- getBinding "rest_s5" ;;
     console_log [str "Ignoring with rest operator {...rest}:"; v]).

(** The value the trailing comment of line 229 announces:
    [{ y: 2, z: 3 }]. *)
Definition annotated_rest_s5 : display :=
  DObject [("y", DNumber (Num.of_int 2)); ("z", DNumber (Num.of_int 3))].

End Destructuring.

(** ** src/unnamed/part_006: advanced spread and rest *)

Module AdvancedSpread.

(** Lines 16-21, "1. Shallow vs. Deep Copy Trap". *)
Definition shallow_copy_trap : M unit :=
  script [] [] [("obj_s1", KConst); ("copy_s1", KConst)]
    (console_log [str (nl ++ "--- 1. Shallow vs. Deep Copy Trap ---")] ;;
     inner <- objectLiteral [Field "c" (num 2)] ;;
     o <- objectLiteral [Field "a" (num 1); Field "b" inner] ;;
     initializeBinding "obj_s1" o ;;
     o <- getBinding "obj_s1" ;;
     c <- objectLiteral [Spread o] ;;
     initializeBinding "copy_s1" c ;;
     c <- getBinding "copy_s1" ;;
     b <- getProp c "b" ;;
     exprStmt (setProp b "c" (num 99)) ;;
     o <- getBinding "obj_s1" ;;
     b <- getProp o "b" ;;
     x <- getProp b "c" ;;
     console_log [str "Original object was mutated (obj.b.c):"; x] ;;
     console_log [str "👉 Why? Spread only performs a shallow copy. Nested objects are copied by reference."]).

(** Lines 69-74, "5. Destructuring with Rest". *)
Definition destructuring_with_rest : M unit :=
  script [] []
    [("a_s5", KConst); ("rest_s5", KConst); ("head_s5", KConst); ("tail_s5", KConst)]
    (console_log [str (nl ++ "--- 5. Destructuring with Rest ---")] ;;
     o <- objectLiteral [Field "a" (num 1); Field "b" (num 2); Field "c" (num 3)] ;;
     a <- getProp o "a" ;;
     initializeBinding "a_s5" a ;;
     r <- objectRest o ["a"] ;;
     initializeBinding "rest_s5" r ;;
     v <- getBinding "rest_s5" ;;
     console_log [str "Rest of object properties:"; v] ;;
     arr <- arrayLiteral [Item (num 10); Item (num 20); Item (num 30)] ;;
     es <- iterateM arr "[10,20,30]" ;;
     initializeBinding "head_s5" (element es 0) ;;
     r <- arrayRest es 1 ;;
     initializeBinding "tail_s5" r ;;
     v <- getBinding "tail_s5" ;;
     console_log [str "Rest of array elements:"; v]).

End AdvancedSpread.

(** ** src/scripts/015_variables-practice-round-2.js *)

Module Round2.



(** Lines 33-42, "Q2. Const & Reassignment". *)
Definition q2_const_reassignment : M unit :=
  script [] [] [("arr_q2", KConst)]
    (console_log [str (nl ++ "--- Q2: Const & Reassignment ---")] ;;
     a <- arrayLiteral [Item (num 1); Item (num 2); Item (num 3)] ;;
     initializeBinding "arr_q2" a ;;
     a <- getBinding "arr_q2" ;;
     exprStmt (push a (num 4)) ;;
     a <- getBinding "arr_q2" ;;
     console_log [str "Q2.1:"; a] ;;
     tryCatch
       (block []
          (n <- arrayLiteral [Item (num 5); Item (num 6); Item (num 7)] ;;
           exprStmt (assign "arr_q2" n) ;;
           a <- getBinding "arr_q2" ;;
           console_log [str "Q2.2:"; a]))
       (fun e => block [] (console_log [str "Q2.2 Error:"; message e]))).



(** Lines 82-84: the function expression assigned to sayHi_q5. *)
Definition sayHi_q5 : M value :=
  functionScope 0 [] [] []
    (console_log [str "Hi!"] ;; ret VUndefined).

(** Lines 76-84, "Q5. Function Hoisting with Var". *)
Definition q5_function_hoisting_var : M unit :=
  script [] ["sayHi_q5"] []
    (console_log [str (nl ++ "--- Q5: Function Hoisting with Var ---")] ;;
     tryCatch
       (block [] (exprStmt (call "sayHi_q5" sayHi_q5)))
       (fun e => block [] (console_log [str "Q5 Error:"; message e])) ;;
     f <- alloc (OFunction "sayHi_q5") ;;
     varInit "sayHi_q5" f).


(** Lines 144-151, "Q10. const Object Mutability". *)
Definition q10_const_object_mutability : M unit :=
  script [] [] [("obj_q10", KConst)]
    (console_log [str (nl ++ "--- Q10: const Object Mutability ---")] ;;
     o <- objectLiteral [Field "name" (str "JS")] ;;
     initializeBinding "obj_q10" o ;;
     o <- getBinding "obj_q10" ;;
     exprStmt (setProp o "name" (str "JavaScript")) ;;
     o <- getBinding "obj_q10" ;;
     console_log [str "Q10.1:"; o] ;;
     o <- getBinding "obj_q10" ;;
     exprStmt (freeze o) ;;
     o <- getBinding "obj_q10" ;;
     exprStmt (setProp o "name" (str "ECMAScript")) ;;
     o <- getBinding "obj_q10" ;;
     console_log [str "Q10.2:"; o]).

End Round2.

(** ** src/scripts/003_OperatorsInside/019_assignment-and-destructuring-deep-dive.js,
    first file: assignment *)

Module Assignment.

(** Lines 49-56, "Case 4: Assignment to Non-Writable". *)
Definition case4_non_writable : M unit :=
  script [] [] [("PI_c4", KConst)]
    (console_log [str (nl ++ "--- Case 4: Assignment to Non-Writable ---")] ;;
     initializeBinding "PI_c4" (dec 314 2) ;;
     tryCatch
       (block [] (exprStmt (assign "PI_c4" (dec 31415 4))))
       (fun e => block [] (console_log [str "Error assigning to const:"; message e]))).

End Assignment.

(** ** The same file, second part: variables, the real basics *)

Module VariableBasics.


(** Lines 291-309, "Exercise 3: Block Scope". *)
Definition exercise3_block_scope : M unit :=
  script [] ["p_ex3"] []
    (console_log [str (nl ++ "--- Exercise 3: Block Scope ---")] ;;
     (if toBoolean (VBool true)
      then block [("q_ex3", KLet); ("r_ex3", KConst)]
             (varInit "p_ex3" (num 1) ;;
              initializeBinding "q_ex3" (num 2) ;;
              initializeBinding "r_ex3" (num 3))
      else ret ()) ;;
     p <- getBinding "p_ex3" ;;
     console_log [str "Value of 'p_ex3' outside block:"; p] ;;
     tryCatch
       (block []
          (q <- getBinding "q_ex3" ;;
           console_log [str "Value of 'q_ex3' outside block:"; q]))
       (fun e => block [] (console_log [str "Error accessing 'q_ex3':"; message e])) ;;
     tryCatch
       (block []
          (r <- getBinding "r_ex3" ;;
           console_log [str "Value of 'r_ex3' outside block:"; r]))
       (fun e => block [] (console_log [str "Error accessing 'r_ex3':"; message e]))).

(** Lines 316-325, "Exercise 4: Const Objects". *)
Definition exercise4_const_objects : M unit :=
  script [] [] [("obj_ex4", KConst)]
    (console_log [str (nl ++ "--- Exercise 4: Const Objects ---")] ;;
     o <- objectLiteral [Field "lang" (str "JS")] ;;
     initializeBinding "obj_ex4" o ;;
     o <- getBinding "obj_ex4" ;;
     exprStmt (setProp o "lang" (str "Python")) ;;
     o <- getBinding "obj_ex4" ;;
     console_log [str "Mutated const object:"; o] ;;
     tryCatch
       (block []
          (n <- objectLiteral [Field "lang" (str "C++")] ;;
           exprStmt (assign "obj_ex4" n)))
       (fun e => block [] (console_log [str "Error re-assigning const object:"; message e]))).


End VariableBasics.

(** ** src/scripts/001_introToVariables.js, second file: the Number
    primitive *)

Module NumberPrimitive.

(** Lines 116-123, "Type Conversion to Number". *)
Definition type_conversion_to_number : M unit :=
  script [] [] []
    (console_log [str (nl ++ "--- Type Conversion to Number ---")] ;;
     n <- Number (str "42") ;;
     console_log [str ("Number(" ++ dq ++ "42" ++ dq ++ "):"); n] ;;
     n <- Number (str "") ;;
     console_log [str ("Number(" ++ dq ++ dq ++ "):"); n] ;;
     n <- Number (str "foo") ;;
     console_log [str ("Number(" ++ dq ++ "foo" ++ dq ++ "):"); n] ;;
     n <- Number (VBool true) ;;
     console_log [str "Number(true):"; n] ;;
     n <- Number (VBool false) ;;
     console_log [str "Number(false):"; n] ;;
     n <- Number VNull ;;
     console_log [str "Number(null):"; n] ;;
     n <- Number VUndefined ;;
     console_log [str "Number(undefined):"; n]).

End NumberPrimitive.

(** ** src/scripts/016_type-conversion-and-operators-deep-dive.js *)

Module TypeConversion.

(** Lines 39-48, the ToNumber table of the header comment: the
    conversions of null, undefined, the empty string, "123", "abc", [],
    [1], [1,2] and {}, in that order. *)
Definition toNumber_table : M (list value) :=
  n1 <- Number VNull ;;
  n2 <- Number VUndefined ;;
  n3 <- Number (str "") ;;
  n4 <- Number (str "123") ;;
  n5 <- Number (str "abc") ;;
  a <- arrayLiteral [] ;;
  n6 <- Number a ;;
  a <- arrayLiteral [Item (num 1)] ;;
  n7 <- Number a ;;
  a <- arrayLiteral [Item (num 1); Item (num 2)] ;;
  n8 <- Number a ;;
  o <- objectLiteral [] ;;
  n9 <- Number o ;;
  ret [n1; n2; n3; n4; n5; n6; n7; n8; n9].

(** Lines 125-144, "Comparison Operators". *)
Definition comparison_operators : M unit :=
  script [] [] []
    (console_log [str (nl ++ "--- Comparison Operators ---")] ;;
     r <- strictEqual (num 0) (str "0") ;;
     console_log [str ("0 === " ++ dq ++ "0" ++ dq ++ " ->"); r] ;;
     r <- strictEqual (VNumber Num.NaN) (VNumber Num.NaN) ;;
     console_log [str "NaN === NaN ->"; r] ;;
     r <- looseEqual VNull VUndefined ;;
     console_log [str "null == undefined ->"; r] ;;
     r <- looseEqual (str "42") (num 42) ;;
     console_log [str (dq ++ "42" ++ dq ++ " == 42 ->"); r] ;;
     r <- looseEqual (VBool true) (num 1) ;;
     console_log [str "true == 1 ->"; r] ;;
     a <- arrayLiteral [] ;;
     r <- looseEqual a (num 0) ;;
     console_log [str "[] == 0 ->"; r] ;;
     a <- arrayLiteral [] ;;
     r <- looseEqual a (VBool false) ;;
     console_log [str "[] == false ->"; r] ;;
     r <- lessThan (str "2") (str "12") ;;
     console_log [str (dq ++ "2" ++ dq ++ " < " ++ dq ++ "12" ++ dq ++ " ->"); r] ;;
     r <- lessThan (str "2") (num 12) ;;
     console_log [str (dq ++ "2" ++ dq ++ " < 12 ->"); r]).

(** Lines 149-177, "Comparison Brain-Benders with Solutions". *)
Definition comparison_brain_benders : M unit :=
  script [] [] []
    (console_log [str (nl ++ "--- Comparison Brain-Benders with Solutions ---")] ;;
     r <- looseEqual VNull VUndefined ;;
     console_log [str "Q1.1: null == undefined ->"; r] ;;
     r <- strictEqual VNull VUndefined ;;
     console_log [str "Q1.2: null === undefined ->"; r] ;;
     a <- arrayLiteral [] ;;
     r <- looseEqual a (num 0) ;;
     console_log [str "Q2.1: [] == 0 ->"; r] ;;
     a <- arrayLiteral [] ;;
     r <- looseEqual a (VBool false) ;;
     console_log [str "Q2.2: [] == false ->"; r] ;;
     a <- arrayLiteral [Item VNull] ;;
     r <- looseEqual a (num 0) ;;
     console_log [str "Q2.3: [null] == 0 ->"; r] ;;
     r <- lessThan (str "2") (str "12") ;;
     console_log [str ("Q3: " ++ dq ++ "2" ++ dq ++ " < " ++ dq ++ "12" ++ dq ++ " ->"); r] ;;
     r <- looseEqual (VBool false) (str "0") ;;
     console_log [str ("Q4.1: false == " ++ dq ++ "0" ++ dq ++ " ->"); r] ;;
     r <- strictEqual (VBool false) (str "0") ;;
     console_log [str ("Q4.2: false === " ++ dq ++ "0" ++ dq ++ " ->"); r] ;;
     r <- strictEqual (VNumber Num.NaN) (VNumber Num.NaN) ;;
     console_log [str "Q5: NaN === NaN ->"; r] ;;
     console_log [str "   Number.isNaN(NaN) ->"; Number_isNaN (VNumber Num.NaN)] ;;
     console_log [str "   Object.is(NaN, NaN) ->";
                  Object_is (VNumber Num.NaN) (VNumber Num.NaN)]).

End TypeConversion.

(** ** src/unnamed/part_005, second file: the Boolean primitive *)

Module BooleanPrimitive.

(** Lines 297-308, "Tricky Loose Equality (==)". *)
Definition tricky_loose_equality : M unit :=
  script [] [] []
    (console_log [str (nl ++ "--- Tricky Loose Equality (==) ---")] ;;
     a <- arrayLiteral [] ;;
     r <- looseEqual a (VBool false) ;;
     console_log [str "[] == false is"; r] ;;
     a <- arrayLiteral [] ;;
     r <- strictEqual a (VBool false) ;;
     console_log [str "[] === false is"; r] ;;
     r <- looseEqual (str "0") (VBool false) ;;
     console_log [str (dq ++ "0" ++ dq ++ " == false is"); r] ;;
     r <- looseEqual VNull (VBool false) ;;
     console_log [str "null == false is"; r]).

End BooleanPrimitive.

(** ** src/unnamed/part_005, first file: logical operators *)

Module LogicalOperators.

(** Lines 14-29, "1. OR" and "2. AND". *)
Definition or_and_operators : M unit :=
  script [] [] []
    (console_log [str (nl ++ "--- 1. OR ( || ) Operator ---")] ;;
     r <- or_ (ret (str "hello")) (ret (str "world")) ;;
     console_log [str (dq ++ "hello" ++ dq ++ " || " ++ dq ++ "world" ++ dq ++ " ->"); r] ;;
     r <- or_ (ret (str "")) (ret (str "fallback")) ;;
     console_log [str (dq ++ dq ++ " || " ++ dq ++ "fallback" ++ dq ++ " ->"); r] ;;
     r <- or_ (or_ (ret (num 0)) (ret VNull)) (ret (str "ok")) ;;
     console_log [str "0 || null || 'ok' ->"; r] ;;
     r <- or_ (or_ (ret (num 0)) (ret VNull)) (ret VUndefined) ;;
     console_log [str "0 || null || undefined ->"; r] ;;
     console_log [str (nl ++ "--- 2. AND ( && ) Operator ---")] ;;
     r <- and_ (ret (str "hello")) (ret (str "world")) ;;
     console_log [str (dq ++ "hello" ++ dq ++ " && " ++ dq ++ "world" ++ dq ++ " ->"); r] ;;
     r <- and_ (ret (num 0)) (ret (str "ignored")) ;;
     console_log [str "0 && 'ignored' ->"; r] ;;
     r <- and_ (and_ (ret (num 42)) (ret (VBool true))) (ret (str "ok")) ;;
     console_log [str "42 && true && 'ok' ->"; r]).

(** Lines 44-47: function expensiveOperation. *)
Definition expensiveOperation : M value :=
  functionScope 0 [] [] []
    (console_log [str "   (Expensive operation was called!)"] ;;
     ret (VBool true)).

(** Lines 41-51, "4. Short-Circuiting". *)
Definition short_circuiting : M unit :=
  script ["expensiveOperation"] [] []
    (console_log [str (nl ++ "--- 4. Short-Circuiting ---")] ;;
     console_log [str "true || expensiveOperation(): The second part is never evaluated."] ;;
     exprStmt (or_ (ret (VBool true)) (call "expensiveOperation" expensiveOperation)) ;;
     console_log [str "false && expensiveOperation(): The second part is never evaluated."] ;;
     exprStmt (and_ (ret (VBool false)) (call "expensiveOperation" expensiveOperation))).

(** Lines 93-94: the arrow functions a_q5 and b_q5; the value of an
    arrow with an expression body is that of the expression, and
    console.log gives undefined. *)
Definition a_q5 : M value :=
  functionScope 0 [] [] []
    (console_log [str "   (A was called)"] ;; ret VUndefined).

Definition b_q5 : M value :=
  functionScope 0 [] [] []
    (console_log [str "   (B was called)"] ;; ret VUndefined).

(** Lines 91-95, "Q5: a() || b()". *)
Definition q5_a_or_b : M value :=
  script [] [] [("a_q5", KLet); ("b_q5", KLet)]
    (console_log [str "Q5: a() || b()"] ;;
     f <- alloc (OFunction "a_q5") ;;
     initializeBinding "a_q5" f ;;
     g <- alloc (OFunction "b_q5") ;;
     initializeBinding "b_q5" g ;;
     or_ (call "a_q5" a_q5) (call "b_q5" b_q5)).

(** Lines 118-121: function log(x). *)
Definition log (x : value) : M value :=
  functionScope 0 [("x", x)] [] []
    (x <- getBinding "x" ;;
     t <- template [inl "   (log function called with: "; inr x; inl ")"] ;;
     console_log [str t] ;;
     getBinding "x").

(** Lines 116-123, "Case 2: Function calls inside short-circuit". *)
Definition case2_short_circuit_calls : M unit :=
  script ["log"] [] []
    (console_log [str (nl ++ "--- Case 2: Short-circuiting function calls ---")] ;;
     r <- and_ (call "log" (log (num 0))) (call "log" (log (num 1))) ;;
     console_log [str "Result of log(0) && log(1):"; r] ;;
     r <- or_ (call "log" (log (num 1))) (call "log" (log (num 2))) ;;
     console_log [str "Result of log(1) || log(2):"; r]).

End LogicalOperators.

(** ** src/unnamed/part_000: bitwise operator tricks *)

Module Bitwise.

(** Lines 16-24, "1. Double NOT". *)
Definition double_not : M unit :=
  script [] [] []
    (console_log [str (nl ++ "--- 1. Double NOT (~~) for Fast Truncation ---")] ;;
     a <- bitNot (dec 49 1) ;;
     r <- bitNot a ;;
     console_log [str "~~4.9 ->"; r] ;;
     a <- bitNot (dec (-49) 1) ;;
     r <- bitNot a ;;
     console_log [str "~~-4.9 ->"; r] ;;
     r <- Math_floor (dec (-49) 1) ;;
     console_log [str "Math.floor(-4.9) ->"; r]).

(** Lines 57-62, "4. Bitwise OR (| 0)". *)
Definition or_zero : M unit :=
  script [] [] []
    (console_log [str (nl ++ "--- 4. Bitwise OR (| 0) to Truncate to Integer ---")] ;;
     r <- bitOr (dec 37 1) (num 0) ;;
     console_log [str "3.7 | 0 ->"; r] ;;
     r <- bitOr (dec (-37) 1) (num 0) ;;
     console_log [str "-3.7 | 0 ->"; r]).

(** Lines 81-88, "6. Bitwise Shifts". *)
Definition shifts : M unit :=
  script [] [] []
    (console_log [str (nl ++ "--- 6. Bitwise Shifts (<<, >>) for Fast Math ---")] ;;
     r <- shiftLeft (num 5) (num 1) ;;
     console_log [str "5 << 1 (5 * 2^1) ->"; r] ;;
     r <- shiftLeft (num 5) (num 3) ;;
     console_log [str "5 << 3 (5 * 2^3) ->"; r] ;;
     r <- shiftRight (num 20) (num 1) ;;
     console_log [str "20 >> 1 (20 / 2^1) ->"; r] ;;
     r <- shiftRight (num 20) (num 2) ;;
     console_log [str "20 >> 2 (20 / 2^2) ->"; r]).

(** Lines 93-98, "7. Unsigned Right Shift". *)
Definition unsigned_shift : M unit :=
  script [] [] []
    (console_log [str (nl ++ "--- 7. Unsigned Right Shift (>>>) ---")] ;;
     r <- shiftRight (num (-5)) (num 0) ;;
     console_log [str "-5 >> 0 ->"; r] ;;
     r <- shiftRightUnsigned (num (-5)) (num 0) ;;
     console_log [str "-5 >>> 0 ->"; r]).

End Bitwise.


(** * More of the scripts

    The sections below are the neighbours of the ones above in the same
    files: the functions the scripts declare, and the statements whose
    result depends on the operands only through a rule of the language.
    They come with the few operations of the language they need on top
    of the ones above. *)

(** ** Where the byte strings and the property lists are the language's

    Two predicates delimit what the theorems say about the order of keys
    and about the characters of strings. *)

(** A key made of decimal digits only.  The array indices ("0", "1",
    ...), which the language lists before the other keys of an object
    and in ascending order, are among these keys; every other key is
    listed in the order of its creation, which is the order [propSet]
    keeps. *)
Definition digitsOnly (k : string) : bool :=
  match Str.chars k with
  | [] => false
  | cs => forallb (fun a => let n := nat_of_ascii a in Nat.leb 48 n && Nat.leb n 57) cs
  end.

(** A string of ASCII characters: each byte is one character, a code
    unit and a code point of the language at once. *)
Definition asciiOnly (s : string) : bool :=
  forallb (fun a => Nat.ltb (nat_of_ascii a) 128) (Str.chars s).

(** ** More operators and patterns *)

(** [a > b]: IsLessThan with the operands exchanged. *)
Definition greaterThan (a b : value) : M value := lessThan b a.

(** A default initialiser, [x = d] in a pattern or a parameter list: the
    initialiser [d] runs only when the value is undefined. *)
Definition orDefault (v : value) (d : M value) : M value :=
  match v with
  | VUndefined => d
  | _ => ret v
  end.

(** Optional chaining [o?.k]: undefined on undefined and null, the
    property read otherwise. *)
Definition optionalProp (o : value) (k : string) : M value :=
  match o with
  | VUndefined | VNull => ret VUndefined
  | _ => getProp o k
  end.

(** The check at the head of an object pattern whose first property is
    [k]: undefined and null cannot be destructured. *)
Definition requireObject (v : value) (k : string) : M unit :=
  match v with
  | VUndefined =>
      throw TypeError ("Cannot destructure property '" ++ k
                         ++ "' of 'undefined' as it is undefined.")
  | VNull =>
      throw TypeError ("Cannot destructure property '" ++ k
                         ++ "' of 'object null' as it is null.")
  | _ => ret ()
  end.

(** The length of an array. *)
Definition arrayLength (o : value) : M nat :=
  fun st =>
    match o with
    | VObject l =>
        match odata <$> store st !! l with
        | Some (OArray es) => (Normal (length es), st)
        | _ => (Unsupported, st)
        end
    | _ => (Unsupported, st)
    end.

(** The loop of Array.prototype.map: the callback runs on the elements
    in index order, from index [k] on for [count] elements, each element
    read when its turn comes.  The callbacks of the scripts take the
    element only and leave the array as it is. *)
Fixpoint mapFrom (f : value -> M value) (arr : value) (count k : nat) (acc : list value)
  : M (list value) :=
  match count with
  | O => ret acc
  | S c =>
      e <- getIndex arr k ;;
      v <- f e ;;
      mapFrom f arr c (S k) (acc ++ [v])
  end.

(** arr.map(f): the results make a new array. *)
Definition arrayMap (arr : value) (f : value -> M value) : M value :=
  n <- arrayLength arr ;;
  rs <- mapFrom f arr n 0 [] ;;
  alloc (OArray rs).

(** ** src/unnamed/part_000: masks and the XOR swap *)

Module BitTricks.

(** Lines 36-37: the expression [n & 1 ? "odd" : "even"]. *)
Definition parity (n : value) : M value :=
  r <- bitAnd n (num 1) ;;
  ret (if toBoolean r then str "odd" else str "even").

(** Lines 29-37, "2. Bitwise AND (& 1) for Even/Odd Check". *)
Definition even_odd_check : M unit :=
  script [] [] []
    (console_log [str (nl ++ "--- 2. Bitwise AND (& 1) for Even/Odd Check ---")] ;;
     r <- bitAnd (num 5) (num 1) ;;
     console_log [str "5 & 1 (is 1, so odd) ->"; r] ;;
     r <- bitAnd (num 8) (num 1) ;;
     console_log [str "8 & 1 (is 0, so even) ->"; r] ;;
     r <- parity (num 5) ;;
     console_log [r] ;;
     r <- parity (num 8) ;;
     console_log [r]).

(** Lines 49-51: the three assignments of the swap. *)
Definition xor_swap_steps : M unit :=
  a <- getBinding "a" ;;
  b <- getBinding "b" ;;
  x <- bitXor a b ;;
  exprStmt (assign "a" x) ;;
  a <- getBinding "a" ;;
  b <- getBinding "b" ;;
  x <- bitXor a b ;;
  exprStmt (assign "b" x) ;;
  a <- getBinding "a" ;;
  b <- getBinding "b" ;;
  x <- bitXor a b ;;
  exprStmt (assign "a" x).

(** Lines 42-52, "3. XOR Swap Trick". *)
Definition xor_swap : M unit :=
  script [] [] [("a", KLet); ("b", KLet)]
    (console_log [str (nl ++ "--- 3. XOR (^) Swap Trick ---")] ;;
     initializeBinding "a" (num 5) ;;
     initializeBinding "b" (num 3) ;;
     xor_swap_steps ;;
     a <- getBinding "a" ;;
     b <- getBinding "b" ;;
     console_log [str "a, b after XOR swap:"; a; b]).

(** Line 73: the expression [(p & f) > 0]. *)
Definition flagSet (p f : value) : M value :=
  r <- bitAnd p f ;;
  greaterThan r (num 0).

(** Lines 67-76, "5. Bit Masking with AND". *)
Definition bit_masking : M unit :=
  script [] [] [("permissions", KLet); ("READ_PERMISSION", KLet); ("mask", KLet)]
    (console_log [str (nl ++ "--- 5. Bit Masking with AND (&) ---")] ;;
     initializeBinding "permissions" (num 11) ;;
     initializeBinding "READ_PERMISSION" (num 4) ;;
     p <- getBinding "permissions" ;;
     f <- getBinding "READ_PERMISSION" ;;
     r <- flagSet p f ;;
     console_log [str "Has read permission?"; r] ;;
     initializeBinding "mask" (num 15) ;;
     m <- getBinding "mask" ;;
     r <- bitAnd (num 123) m ;;
     console_log [str "123 & mask (binary 1111011 & 00001111) ->"; r]).

End BitTricks.

(** ** src/scripts/001_introToVariables.js, second file: NaN and -0 *)

Module NumberPitfalls.

(** Lines 137-147, "2. NaN's weird behavior" and "3. The existence of
    -0". *)
Definition nan_and_negative_zero : M unit :=
  script [] [] []
    (r <- strictEqual (VNumber Num.NaN) (VNumber Num.NaN) ;;
     console_log [str "NaN === NaN is"; r] ;;
     console_log [str "Number.isNaN(NaN) is"; Number_isNaN (VNumber Num.NaN)] ;;
     r <- strictEqual (num 0) (VNumber (Num.neg (Num.of_int 0))) ;;
     console_log [str "0 === -0 is"; r] ;;
     console_log [str "Object.is(0, -0) is";
                  Object_is (num 0) (VNumber (Num.neg (Num.of_int 0)))]).

End NumberPitfalls.

(** ** src/unnamed/part_006: merging and defaults *)

Module SpreadTricks.

(** Lines 34-41, "2. Merging Objects & Overwrites". *)
Definition merging_objects : M unit :=
  script [] []
    [("a_s2", KConst); ("b_s2", KConst); ("merged_s2", KConst); ("mergedSafe_s2", KConst)]
    (console_log [str (nl ++ "--- 2. Merging Objects & Overwrites ---")] ;;
     a <- objectLiteral [Field "x" (num 1); Field "y" (num 2)] ;;
     initializeBinding "a_s2" a ;;
     b <- objectLiteral [Field "y" (num 10); Field "z" (num 3)] ;;
     initializeBinding "b_s2" b ;;
     a <- getBinding "a_s2" ;;
     b <- getBinding "b_s2" ;;
     m <- objectLiteral [Spread a; Spread b] ;;
     initializeBinding "merged_s2" m ;;
     m <- getBinding "merged_s2" ;;
     console_log [str "Later spread overwrites earlier:"; m] ;;
     b <- getBinding "b_s2" ;;
     a <- getBinding "a_s2" ;;
     m <- objectLiteral [Spread b; Spread a] ;;
     initializeBinding "mergedSafe_s2" m ;;
     m <- getBinding "mergedSafe_s2" ;;
     console_log [str "Reversing order preserves earlier values:"; m]).

(** Lines 48-50: the arrow function
    [u => u.id === 2 ? { ...u, active: true } : u], created at the top
    level. *)
Definition activate_second (u : value) : M value :=
  functionScope 0 [("u", u)] [] []
    (u <- getBinding "u" ;;
     id <- getProp u "id" ;;
     c <- strictEqual id (num 2) ;;
     if toBoolean c
     then (u <- getBinding "u" ;;
           objectLiteral [Spread u; Field "active" (VBool true)])
     else getBinding "u").

(** Lines 46-53, "3. Immutable Array Updates". *)
Definition immutable_array_updates : M unit :=
  script [] [] [("users_s3", KConst); ("updated_s3", KConst)]
    (console_log [str (nl ++ "--- 3. Immutable Array Updates ---")] ;;
     u1 <- objectLiteral [Field "id" (num 1); Field "active" (VBool false)] ;;
     u2 <- objectLiteral [Field "id" (num 2); Field "active" (VBool false)] ;;
     a <- arrayLiteral [Item u1; Item u2] ;;
     initializeBinding "users_s3" a ;;
     a <- getBinding "users_s3" ;;
     m <- arrayMap a activate_second ;;
     initializeBinding "updated_s3" m ;;
     a <- getBinding "users_s3" ;;
     console_log [str "Original users array:"; a] ;;
     m <- getBinding "updated_s3" ;;
     console_log [str "Updated users array (immutable):"; m] ;;
     console_log [str "👉 Spread avoids mutation, which is key for state management (e.g., React)."]).

(** Line 62: the arrow function [arg => `[${arg}]`], created in the body
    of logAll, whose record is the current one then. *)
Definition bracketed (arg : value) : M value :=
  fun st =>
    functionScope (cur st) [("arg", arg)] [] []
      (a <- getBinding "arg" ;;
       t <- template [inl "["; inr a; inl "]"] ;;
       ret (str t)) st.

(** Lines 59-63: function logAll(first, ...rest), declared at the top
    level, called with the arguments [args]. *)
Definition logAll (args : list value) : M value :=
  r <- arrayRest args 1 ;;
  functionScope 0 [("first", element args 0); ("rest", r)] [] []
    (f <- getBinding "first" ;;
     console_log [str "  First argument:"; f] ;;
     r <- getBinding "rest" ;;
     console_log [str "  Rest of arguments (as a real array):"; r] ;;
     r <- getBinding "rest" ;;
     m <- arrayMap r bracketed ;;
     console_log [str "  Can we use .map() on rest? ->"; m] ;;
     ret VUndefined).

(** Lines 58-64, "4. Rest Parameters for Flexible APIs". *)
Definition rest_parameters : M unit :=
  script ["logAll"] [] []
    (console_log [str (nl ++ "--- 4. Rest Parameters for Flexible APIs ---")] ;;
     exprStmt (call "logAll" (logAll [str "A"; str "B"; str "C"]))).

(** Line 108: the properties of the object literal bound to defaults. *)
Definition setup_defaults : list (string * value) :=
  [("debug", VBool false); ("verbose", VBool false); ("port", num 8080)].

(** Lines 107-112: function setup(options), declared at the top level. *)
Definition setup (options : value) : M value :=
  functionScope 0 [("options", options)] [] [("defaults", KConst); ("finalConfig", KConst)]
    (d <- objectLiteral (map (fun kv => Field (fst kv) (snd kv)) setup_defaults) ;;
     initializeBinding "defaults" d ;;
     d <- getBinding "defaults" ;;
     o <- getBinding "options" ;;
     f <- objectLiteral [Spread d; Spread o] ;;
     initializeBinding "finalConfig" f ;;
     f <- getBinding "finalConfig" ;;
     console_log [str "  Final config:"; f] ;;
     getBinding "finalConfig").

(** Lines 106-114, "9. Merging Defaults". *)
Definition merging_defaults : M unit :=
  script ["setup"] [] []
    (console_log [str (nl ++ "--- 9. Merging Defaults ---")] ;;
     console_log [str "Calling setup({ debug: true }):"] ;;
     o <- objectLiteral [Field "debug" (VBool true)] ;;
     exprStmt (call "setup" (setup o))).

End SpreadTricks.

(** ** src/unnamed/part_001, second file: swapping and parameter
    defaults *)

Module DestructuringUses.

(** Line 179: [[a_s1, b_s1] = [b_s1, a_s1]]. *)
Definition swap_statement : M unit :=
  b <- getBinding "b_s1" ;;
  a <- getBinding "a_s1" ;;
  arr <- arrayLiteral [Item b; Item a] ;;
  es <- iterateM arr "[b_s1, a_s1]" ;;
  exprStmt (assign "a_s1" (element es 0)) ;;
  exprStmt (assign "b_s1" (element es 1)).

(** Lines 177-180, "1. Swapping Variables". *)
Definition swapping_variables : M unit :=
  script [] [] [("a_s1", KLet); ("b_s1", KLet)]
    (console_log [str (nl ++ "--- 1. Swapping Variables ---")] ;;
     initializeBinding "a_s1" (num 1) ;;
     initializeBinding "b_s1" (num 2) ;;
     swap_statement ;;
     a <- getBinding "a_s1" ;;
     b <- getBinding "b_s1" ;;
     t <- template [inl "a="; inr a; inl ", b="; inr b] ;;
     console_log [str "Swapped a and b ->"; str t]).

(** Lines 213-215: function connect({ host = "localhost", port = 80 } = {}),
    declared at the top level.  The parameter names are bound left to
    right as the pattern is matched. *)
Definition connect (arg : value) : M value :=
  fun st =>
    finally
      (o <- orDefault arg (objectLiteral []) ;;
       requireObject o "host" ;;
       h <- getProp o "host" ;;
       h <- orDefault h (ret (str "localhost")) ;;
       initializeBinding "host" h ;;
       p <- getProp o "port" ;;
       p <- orDefault p (ret (num 80)) ;;
       initializeBinding "port" p ;;
       h <- getBinding "host" ;;
       p <- getBinding "port" ;;
       t <- template [inl "   Connecting to "; inr h; inl ":"; inr p] ;;
       console_log [str t] ;;
       ret VUndefined)
      (setCur (cur st))
      (pushEnv (mkEnv (lexicalBindings [("host", KParam); ("port", KParam)]) (Some 0%nat)) st).

(** Lines 211-219, "4. Function Parameter Defaults". *)
Definition function_parameter_defaults : M unit :=
  script ["connect"] [] []
    (console_log [str (nl ++ "--- 4. Function Parameter Defaults ---")] ;;
     console_log [str "Calling connect():"] ;;
     exprStmt (call "connect" (connect VUndefined)) ;;
     console_log [str "Calling connect({ host: '127.0.0.1' }):"] ;;
     o <- objectLiteral [Field "host" (str "127.0.0.1")] ;;
     exprStmt (call "connect" (connect o))).

End DestructuringUses.

(** ** src/scripts/003_OperatorsInside/019_assignment-and-destructuring-deep-dive.js,
    first file: the chained assignment and nested patterns *)

Module AssignmentCases.

(** Line 95: [a_bb.x = a_bb = { n: 2 }].  The reference [a_bb.x] on the
    left is evaluated first, down to the object a_bb holds then. *)
Definition chained_assignment_statement : M unit :=
  target <- getBinding "a_bb" ;;
  o <- objectLiteral [Field "n" (num 2)] ;;
  v <- assign "a_bb" o ;;
  exprStmt (setProp target "x" v).

(** Lines 82-98, "Brain-Bender: Chained Assignment with Mutation". *)
Definition chained_assignment_with_mutation : M unit :=
  script [] [] [("a_bb", KLet); ("b_bb", KLet)]
    (console_log [str (nl ++ "--- Brain-Bender: Chained Assignment with Mutation ---")] ;;
     o <- objectLiteral [Field "n" (num 1)] ;;
     initializeBinding "a_bb" o ;;
     a <- getBinding "a_bb" ;;
     initializeBinding "b_bb" a ;;
     chained_assignment_statement ;;
     a <- getBinding "a_bb" ;;
     x <- getProp a "x" ;;
     console_log [str "a.x ->"; x] ;;
     b <- getBinding "b_bb" ;;
     x <- getProp b "x" ;;
     console_log [str "b.x ->"; x]).

(** Line 139: the pattern
    [{ profile: { address: { city: city_d4_safe } = {} } = {} }] matched
    against [v]. *)
Definition safe_nested_pattern (v : value) : M unit :=
  requireObject v "profile" ;;
  p <- getProp v "profile" ;;
  p <- orDefault p (objectLiteral []) ;;
  a <- getProp p "address" ;;
  a <- orDefault a (objectLiteral []) ;;
  c <- getProp a "city" ;;
  initializeBinding "city_d4_safe" c.

(** Line 175: the pattern [{ a: a_db3, b: { c: c_db3 } }] matched against
    [v]. *)
Definition nested_pattern (v : value) : M unit :=
  requireObject v "a" ;;
  a <- getProp v "a" ;;
  initializeBinding "a_db3" a ;;
  b <- getProp v "b" ;;
  c <- getProp b "c" ;;
  initializeBinding "c_db3" c.

(** Lines 138-140: the safe pattern on the empty object. *)
Definition safe_nested_city : M unit :=
  script [] [] [("city_d4_safe", KConst)]
    (o <- objectLiteral [] ;;
     safe_nested_pattern o ;;
     c <- getBinding "city_d4_safe" ;;
     console_log [str "Safe nested city ->"; c]).

(** Lines 172-179, "Q3" of the destructuring brain-benders. *)
Definition q3_nested_missing : M unit :=
  script [] [] []
    (console_log [str (nl ++ "Q3:")] ;;
     tryCatch
       (block [("a_db3", KConst); ("c_db3", KConst)]
          (o <- objectLiteral [Field "a" (num 1)] ;;
           nested_pattern o ;;
           c <- getBinding "c_db3" ;;
           console_log [str "  const { a, b: { c } } = { a: 1 }; ->"; c]))
       (fun e => block [] (console_log [str "  Error in Q3:"; message e]))).

(** Lines 152-154: function printUser({ name, age }), declared at the top
    level. *)
Definition printUser (arg : value) : M value :=
  fun st =>
    finally
      (requireObject arg "name" ;;
       n <- getProp arg "name" ;;
       initializeBinding "name" n ;;
       a <- getProp arg "age" ;;
       initializeBinding "age" a ;;
       n <- getBinding "name" ;;
       a <- getBinding "age" ;;
       t <- template [inl "User: "; inr n; inl ", Age: "; inr a] ;;
       console_log [str t] ;;
       ret VUndefined)
      (setCur (cur st))
      (pushEnv (mkEnv (lexicalBindings [("name", KParam); ("age", KParam)]) (Some 0%nat)) st).

(** Lines 151-155, "6. Function Parameter Destructuring". *)
Definition function_parameter_destructuring : M unit :=
  script ["printUser"] [] []
    (console_log [str (nl ++ "--- 6. Function Parameter Destructuring ---")] ;;
     o <- objectLiteral [Field "name" (str "Alice"); Field "age" (num 25)] ;;
     exprStmt (call "printUser" (printUser o))).

End AssignmentCases.

(** ** The same file, second part: function hoisting *)

Module VariableQuestions.

(** Lines 367-369: function sayHello. *)
Definition sayHello : M value :=
  functionScope 0 [] [] []
    (console_log [str "sayHello() output: Hello!"] ;; ret VUndefined).

(** Lines 376-378: the function expression assigned to sayHi. *)
Definition sayHi : M value :=
  functionScope 0 [] [] []
    (console_log [str "Hi!"] ;; ret VUndefined).

(** Lines 364-378, "Q2: Function Hoisting". *)
Definition q2_function_hoisting : M unit :=
  script ["sayHello"] ["sayHi"] []
    (console_log [str (nl ++ "--- Q2: Function Hoisting ---")] ;;
     exprStmt (call "sayHello" sayHello) ;;
     tryCatch
       (block [] (exprStmt (call "sayHi" sayHi)))
       (fun e => block [] (console_log [str "sayHi() error:"; message e])) ;;
     f <- alloc (OFunction "sayHi") ;;
     varInit "sayHi" f).

End VariableQuestions.

(** ** src/scripts/015_variables-practice-round-2.js: parameters in
    their dead zone *)

Module Round2Parameters.

(** Lines 132-134: function test_q9(x = y, y = 2), declared at the top
    level.  The parameters are bound left to right, each default
    initialiser evaluated when its turn comes. *)
Definition test_q9 (x y : value) : M value :=
  fun st =>
    finally
      (x <- orDefault x (getBinding "y") ;;
       initializeBinding "x" x ;;
       y <- orDefault y (ret (num 2)) ;;
       initializeBinding "y" y ;;
       x <- getBinding "x" ;;
       y <- getBinding "y" ;;
       console_log [x; y] ;;
       ret VUndefined)
      (setCur (cur st))
      (pushEnv (mkEnv (lexicalBindings [("x", KParam); ("y", KParam)]) (Some 0%nat)) st).

(** Lines 131-139, "Q9. TDZ + Function Parameter". *)
Definition q9_tdz_function_parameter : M unit :=
  script ["test_q9"] [] []
    (console_log [str (nl ++ "--- Q9: TDZ + Function Parameter ---")] ;;
     tryCatch
       (block [] (exprStmt (call "test_q9" (test_q9 VUndefined VUndefined))))
       (fun e => block [] (console_log [str "Q9 Error:"; message e]))).

End Round2Parameters.

(** ** src/unnamed/part_005, first file: assignments inside logical
    expressions *)

Module LogicalCorners.

(** Lines 109-114, "Case 1: || vs ??". *)
Definition case1_or_vs_nullish : M unit :=
  script [] [] []
    (console_log [str (nl ++ "--- Case 1: || vs ?? ---")] ;;
     r <- or_ (ret (num 0)) (ret (str "default")) ;;
     console_log [str "0 || 'default' ->"; r] ;;
     r <- nullish (ret (num 0)) (ret (str "default")) ;;
     console_log [str "0 ?? 'default' ->"; r]).

(** Line 139: the expression [(x_case5 = 0) || (x_case5 = 5)]. *)
Definition assign_or_assign : M value :=
  or_ (assign "x_case5" (num 0)) (assign "x_case5" (num 5)).

(** Lines 136-140, "Case 5: Assignment in Expression". *)
Definition case5_assignment_in_expression : M unit :=
  script [] [] [("x_case5", KLet)]
    (console_log [str (nl ++ "--- Case 5: Assignment in Expression ---")] ;;
     initializeBinding "x_case5" VUndefined ;;
     r <- assign_or_assign ;;
     console_log [str "Result of (x = 0) || (x = 5):"; r] ;;
     x <- getBinding "x_case5" ;;
     console_log [str "Final value of x:"; x]).

(** Line 179: the expression [y_q3 ?? ((y_q3 = 10) && 20)]. *)
Definition nullish_assign : M value :=
  nullish (getBinding "y_q3") (and_ (assign "y_q3" (num 10)) (ret (num 20))).

(** Lines 177-180, "Q3" of the final brain-benders. *)
Definition q3_nullish_assignment : M unit :=
  script [] [] [("y_q3", KLet)]
    (initializeBinding "y_q3" VUndefined ;;
     r <- nullish_assign ;;
     console_log [str "Q3: y ?? (y = 10) && 20 ->"; r] ;;
     y <- getBinding "y_q3" ;;
     console_log [str "   (Final value of y is:"; y; str ")"]).

End LogicalCorners.

(** ** src/unnamed/part_005, second file: validation by truthiness *)

Module BooleanUses.

(** Lines 315-322: function validateInput(userInput), declared at the
    top level. *)
Definition validateInput (userInput : value) : M value :=
  functionScope 0 [("userInput", userInput)] [] []
    (u <- getBinding "userInput" ;;
     if toBoolean (not_ u) then block [] (ret (VBool false))
     else ret (VBool true)).

(** Lines 325-333: function handleApiResponse(data), declared at the top
    level. *)
Definition handleApiResponse (data : value) : M value :=
  functionScope 0 [("data", data)] [] []
    (d <- getBinding "data" ;;
     len <- optionalProp d "length" ;;
     if toBoolean (not_ len) then block [] (ret (str "No records"))
     else ret (str "Records found")).

(** Lines 315-334, "Real-World Use Cases". *)
Definition real_world_use_cases : M unit :=
  script ["validateInput"; "handleApiResponse"] [] []
    (exprStmt (call "validateInput" (validateInput (str ""))) ;;
     o <- objectLiteral [Field "length" (num 0)] ;;
     exprStmt (call "handleApiResponse" (handleApiResponse o))).

End BooleanUses.

(** ** src/unnamed/part_001, first file, and part_006: spreads in array
    literals *)

Module ArraySpread.

(** part_001, lines 21-27, "1. Spread Operator": arrays and strings. *)
Definition spread_expands : M unit :=
  script [] [] [("arr_s1", KConst); ("newArr_s1", KConst)]
    (a <- arrayLiteral [Item (num 1); Item (num 2); Item (num 3)] ;;
     initializeBinding "arr_s1" a ;;
     a <- getBinding "arr_s1" ;;
     n <- arrayLiteral [Item (num 0); SpreadItems a "arr_s1"; Item (num 4)] ;;
     initializeBinding "newArr_s1" n ;;
     n <- getBinding "newArr_s1" ;;
     console_log [str "Spreading an array [0, ...[1,2,3], 4]:"; n] ;;
     s <- arrayLiteral [SpreadItems (str "hello") (dq ++ "hello" ++ dq)] ;;
     console_log [str "Spreading a string [...'hello']:"; s]).

(** part_001, lines 65-68, "Merging arrays". *)
Definition merging_arrays : M unit :=
  script [] [] [("arr1_s4", KConst); ("arr2_s4", KConst); ("mergedArr_s4", KConst)]
    (a <- arrayLiteral [Item (num 1); Item (num 2)] ;;
     initializeBinding "arr1_s4" a ;;
     b <- arrayLiteral [Item (num 3); Item (num 4)] ;;
     initializeBinding "arr2_s4" b ;;
     a <- getBinding "arr1_s4" ;;
     b <- getBinding "arr2_s4" ;;
     m <- arrayLiteral [SpreadItems a "arr1_s4"; SpreadItems b "arr2_s4"] ;;
     initializeBinding "mergedArr_s4" m ;;
     m <- getBinding "mergedArr_s4" ;;
     console_log [str "Merging arrays:"; m]).

(** part_001, lines 100-106, "1. Non-Iterable Spread". *)
Definition non_iterable_spread : M unit :=
  script [] [] [("notIterable_ac", KConst)]
    (o <- objectLiteral [Field "a" (num 1); Field "b" (num 2)] ;;
     initializeBinding "notIterable_ac" o ;;
     tryCatch
       (block [("fail_ac", KConst)]
          (o <- getBinding "notIterable_ac" ;;
           f <- arrayLiteral [SpreadItems o "notIterable_ac"] ;;
           initializeBinding "fail_ac" f))
       (fun e =>
          block [] (console_log [str "Array spread on non-iterable object fails:";
                                 message e]))).

(** part_001, lines 144-149, "Q2: Spread vs. Flatten". *)
Definition spread_vs_flatten : M unit :=
  script [] [] [("arr1_bb", KConst); ("arr2_bb", KConst)]
    (console_log [str (nl ++ "--- Q2: Spread vs. Flatten ---")] ;;
     a <- arrayLiteral [Item (num 1); Item (num 2); Item (num 3)] ;;
     initializeBinding "arr1_bb" a ;;
     a1 <- getBinding "arr1_bb" ;;
     a2 <- getBinding "arr1_bb" ;;
     b <- arrayLiteral [SpreadItems a1 "arr1_bb"; Item a2] ;;
     initializeBinding "arr2_bb" b ;;
     b <- getBinding "arr2_bb" ;;
     console_log [str "What is the output of [...arr1, arr1]?"; b] ;;
     console_log [str "✅ Answer: [1, 2, 3, [1, 2, 3]]. Spread doesn't flatten nested arrays."]).

(** part_006, lines 80-86, "6. Spreading Non-Iterables". *)
Definition spreading_non_iterables : M unit :=
  script [] [] [("obj_s6", KConst)]
    (console_log [str (nl ++ "--- 6. Spreading Non-Iterables ---")] ;;
     o <- objectLiteral [Field "a" (num 1); Field "b" (num 2)] ;;
     initializeBinding "obj_s6" o ;;
     tryCatch
       (block []
          (o <- getBinding "obj_s6" ;;
           a <- arrayLiteral [SpreadItems o "obj_s6"] ;;
           console_log [a]))
       (fun e =>
          block [] (console_log [str "Spreading a plain object into an array fails:";
                                 message e]))).

End ArraySpread.

(** ** src/scripts/016_type-conversion-and-operators-deep-dive.js: the
    remainder operator *)

(** Number::remainder.  NaN and the infinite and zero operands are
    decided first; for two finite operands without a fractional part the
    result is the remainder of the truncating division, which has the
    sign of the dividend, a zero result included.  Finite operands with a
    fractional part are outside this model: [None]. *)
Definition numberRemainder (x y : Num.number) : option Num.number :=
  match x, y with
  | S754_nan, _ | _, S754_nan => Some Num.NaN
  | S754_infinity _, _ => Some Num.NaN
  | _, S754_infinity _ => Some x
  | _, S754_zero _ => Some Num.NaN
  | S754_zero _, _ => Some x
  | S754_finite s _ _, S754_finite _ _ _ =>
      if Conv.isInteger x && Conv.isInteger y
      then
        let r := Z.rem (Num.truncate x) (Num.truncate y) in
        Some (if r =? 0 then S754_zero s else Num.of_int r)
      else None
  end.

(** [a % b] *)
Definition remainder (a b : value) : M value :=
  x <- toNumberM a ;;
  y <- toNumberM b ;;
  fun st => liftOption (VNumber <$> numberRemainder x y) st.

Module Arithmetic.

(** Lines 82-85, the remainder examples. *)
Definition remainder_operator : M unit :=
  script [] [] []
    (r <- remainder (num 5) (num 2) ;;
     console_log [str "5 % 2 ->"; r] ;;
     r <- remainder (num (-5)) (num 2) ;;
     console_log [str "-5 % 2 ->"; r] ;;
     r <- remainder (num 5) (num (-2)) ;;
     console_log [str "5 % -2 ->"; r]).

End Arithmetic.

(** * Properties *)

(** ** Numbers: ToInt32 and the bitwise operators *)

Section NumberFacts.

Import Num.

Lemma wrap32_range (z : Z) : - 2 ^ 31 <= wrap32 z < 2 ^ 31.
Proof.
  unfold wrap32. cbv zeta.
  pose proof (Z.mod_pos_bound z (2 ^ 32) eq_refl) as Hb.
  destruct (Z.leb_spec (2 ^ 31) (z mod 2 ^ 32)); lia.
Qed.

Lemma wrap32_small (z : Z) : - 2 ^ 31 <= z < 2 ^ 31 -> wrap32 z = z.
Proof.
  unfold wrap32. cbv zeta. intros Hz.
  destruct (Z.leb_spec (2 ^ 31) (z mod 2 ^ 32)) as [H | H];
    Z.div_mod_to_equations; lia.
Qed.

Lemma bits_bound (p : positive) (n : Z) :
  0 < n -> Z.pos p < 2 ^ n -> bits p <= n.
Proof.
  intros Hn Hp. unfold bits.
  assert (Z.log2 (Z.pos p) < n) by (apply Z.log2_lt_pow2; lia). lia.
Qed.

(** The mantissa [of_int] builds is the integer times a power of two. *)
Lemma shifted_mantissa (p : positive) (k : Z) :
  0 <= k -> Z.pos (Z.to_pos (Z.shiftl (Z.pos p) k)) = Z.pos p * 2 ^ k.
Proof.
  intros Hk. rewrite Z.shiftl_mul_pow2 by lia.
  apply Z2Pos.id. apply Z.mul_pos_pos; [lia | apply Z.pow_pos_nonneg; lia].
Qed.

Lemma truncate_of_int (z : Z) : Z.abs z < 2 ^ 53 -> truncate (of_int z) = z.
Proof.
  intros Hz. destruct z as [| p | p]; [reflexivity | |].
  - assert (Hb : bits p <= 53) by (apply bits_bound; lia).
    unfold of_int, prec. rewrite (proj2 (Z.leb_le _ _) Hb). unfold truncate.
    rewrite shifted_mantissa by lia.
    destruct (Z.leb_spec 0 (bits p - 53)) as [H | H].
    + replace (bits p - 53) with 0 by lia. simpl cond_Zopp.
      replace (53 - bits p) with 0 by lia. rewrite !Z.pow_0_r. lia.
    + simpl cond_Zopp. replace (- (bits p - 53)) with (53 - bits p) by lia.
      apply Z.quot_mul. apply Z.pow_nonzero; lia.
  - assert (Hb : bits p <= 53) by (apply bits_bound; lia).
    unfold of_int, prec. rewrite (proj2 (Z.leb_le _ _) Hb). unfold truncate.
    rewrite shifted_mantissa by lia.
    destruct (Z.leb_spec 0 (bits p - 53)) as [H | H].
    + replace (bits p - 53) with 0 by lia. simpl cond_Zopp.
      replace (53 - bits p) with 0 by lia. rewrite !Z.pow_0_r. lia.
    + simpl cond_Zopp. replace (- (bits p - 53)) with (53 - bits p) by lia.
      rewrite Z.quot_opp_l by (apply Z.pow_nonzero; lia).
      rewrite Z.quot_mul by (apply Z.pow_nonzero; lia). reflexivity.
Qed.

(** An integer below 2^53 converts to a zero or to a finite number. *)
Lemma of_int_finite (z : Z) :
  Z.abs z < 2 ^ 53 -> z <> 0 -> exists s m e, of_int z = S754_finite s m e.
Proof.
  intros Hz Hnz. destruct z as [| p | p]; [congruence | |].
  - assert (Hb : bits p <= 53) by (apply bits_bound; lia).
    unfold of_int, prec. rewrite (proj2 (Z.leb_le _ _) Hb). eauto.
  - assert (Hb : bits p <= 53) by (apply bits_bound; lia).
    unfold of_int, prec. rewrite (proj2 (Z.leb_le _ _) Hb). eauto.
Qed.

Lemma toInt32_of_int (z : Z) : - 2 ^ 31 <= z < 2 ^ 31 -> toInt32 (of_int z) = z.
Proof.
  intros Hz. destruct (Z.eq_dec z 0) as [-> | Hnz]; [reflexivity |].
  assert (Hs : Z.abs z < 2 ^ 53) by lia.
  destruct (of_int_finite z Hs Hnz) as (s & m & e & Heq).
  pose proof (truncate_of_int z Hs) as Ht. rewrite Heq in Ht |- *.
  unfold toInt32. rewrite Ht. apply wrap32_small. exact Hz.
Qed.

Lemma toUint32_of_int (z : Z) : 0 <= z < 2 ^ 32 -> toUint32 (of_int z) = z.
Proof.
  intros Hz. destruct (Z.eq_dec z 0) as [-> | Hnz]; [reflexivity |].
  assert (Hs : Z.abs z < 2 ^ 53) by lia.
  destruct (of_int_finite z Hs Hnz) as (s & m & e & Heq).
  pose proof (truncate_of_int z Hs) as Ht. rewrite Heq in Ht |- *.
  unfold toUint32. rewrite Ht. apply Z.mod_small. exact Hz.
Qed.

Lemma toInt32_range (x : number) : - 2 ^ 31 <= toInt32 x < 2 ^ 31.
Proof.
  destruct x; simpl; try lia. apply wrap32_range.
Qed.

End NumberFacts.

Section BitwiseFacts.

Import Num.

Lemma truncate_toward_zero (s : bool) (m : positive) (e : Z) :
  truncationOf s m e (truncate (S754_finite s m e)).
Proof.
  unfold truncationOf, truncate.
  destruct (Z.leb_spec 0 e) as [He | He].
  - rewrite (Z.max_r 0 e) by lia. rewrite (Z.max_l 0 (- e)) by lia.
    rewrite Z.pow_0_r.
    assert (Hp : 0 < Z.pos m * 2 ^ e)
      by (apply Z.mul_pos_pos; [lia | apply Z.pow_pos_nonneg; lia]).
    destruct s; simpl cond_Zopp; split; lia.
  - rewrite (Z.max_l 0 e) by lia. rewrite (Z.max_r 0 (- e)) by lia.
    rewrite Z.pow_0_r, Z.mul_1_r.
    set (d := 2 ^ (- e)).
    assert (Hd : 0 < d) by (apply Z.pow_pos_nonneg; lia).
    assert (Hq : Z.quot (Z.pos m) d = Z.pos m / d)
      by (apply Z.quot_div_nonneg; lia).
    assert (Hlo : d * (Z.pos m / d) <= Z.pos m) by (apply Z.mul_div_le; lia).
    assert (Hhi : Z.pos m < d * Z.succ (Z.pos m / d))
      by (apply Z.mul_succ_div_gt; lia).
    assert (H0 : 0 <= Z.pos m / d) by (apply Z.div_pos; lia).
    destruct s; simpl cond_Zopp.
    + change (Z.neg m) with (- Z.pos m).
      rewrite Z.quot_opp_l by lia. rewrite Hq. split; [lia |].
      rewrite Z.abs_opp, Z.abs_eq by lia. lia.
    + rewrite Hq. split; [lia |]. rewrite Z.abs_eq by lia. lia.
Qed.

Lemma lnot_range (i : Z) : - 2 ^ 31 <= i < 2 ^ 31 -> - 2 ^ 31 <= Z.lnot i < 2 ^ 31.
Proof. unfold Z.lnot. rewrite <- Z.sub_1_r. lia. Qed.

(** [~~x] is ToInt32 of [x], given back as a Number. *)
Lemma bitNot_bitNot (x : number) : bitNot (bitNot x) = of_int (toInt32 x).
Proof.
  unfold bitNot.
  rewrite toInt32_of_int by (apply lnot_range, toInt32_range).
  rewrite Z.lnot_involutive. reflexivity.
Qed.

(** [x | 0] is ToInt32 of [x] as well. *)
Lemma bitOr_zero (x : number) : bitOr x (of_int 0) = of_int (toInt32 x).
Proof.
  unfold bitOr. change (toInt32 (of_int 0)) with 0. rewrite Z.lor_0_r. reflexivity.
Qed.

Lemma shiftLeft_pow2 (n k : Z) :
  0 <= n -> 0 <= k < 32 -> n * 2 ^ k < 2 ^ 31 ->
  shiftLeft (of_int n) (of_int k) = of_int (n * 2 ^ k).
Proof.
  intros Hn Hk Hr.
  assert (Hn' : n < 2 ^ 31).
  { assert (1 <= 2 ^ k) by (apply (Z.pow_le_mono_r 2 0 k); lia). nia. }
  unfold shiftLeft.
  rewrite toInt32_of_int by lia. rewrite toUint32_of_int by lia.
  rewrite Z.mod_small by lia. rewrite Z.shiftl_mul_pow2 by lia.
  rewrite wrap32_small; [reflexivity |].
  assert (0 <= n * 2 ^ k) by (apply Z.mul_nonneg_nonneg; [lia | apply Z.pow_nonneg; lia]).
  lia.
Qed.

Lemma shiftRight_pow2 (n k : Z) :
  0 <= n < 2 ^ 31 -> 0 <= k < 32 ->
  shiftRight (of_int n) (of_int k) = of_int (n / 2 ^ k).
Proof.
  intros Hn Hk. unfold shiftRight.
  rewrite toInt32_of_int by lia. rewrite toUint32_of_int by lia.
  rewrite Z.mod_small by lia. rewrite Z.shiftr_div_pow2 by lia. reflexivity.
Qed.

End BitwiseFacts.

(** C7, as the code has it.  For every finite number x, ~~x and x | 0 are
    both x converted with ToInt32: x rounded toward zero, then reduced
    modulo 2^32 into the signed 32-bit range, which is the rounded value
    itself when that lies in the range (~~4.9 = 4, ~~-4.9 = -4,
    -3.7 | 0 = -3, while Math.floor(-4.9) = -5).  For integers
    0 <= n < 2^31 and shift counts 0 <= k < 32, n >> k is floor(n / 2^k),
    and n << k is n * 2^k when that stays below 2^31 (5 << 3 = 40,
    20 >> 2 = 5). *)
Theorem bitwise_truncation_and_shifts (s : bool) (m : positive) (e : Z) (n k : Z) :
  0 <= n < 2 ^ 31 -> 0 <= k < 32 ->
  let x := S754_finite s m e in
  (Num.bitNot (Num.bitNot x) = Num.of_int (Num.toInt32 x)
   /\ Num.bitOr x (Num.of_int 0) = Num.of_int (Num.toInt32 x)
   /\ Num.toInt32 x = Num.wrap32 (Num.truncate x)
   /\ Num.truncationOf s m e (Num.truncate x)
   /\ (- 2 ^ 31 <= Num.truncate x < 2 ^ 31 -> Num.toInt32 x = Num.truncate x))
  /\ (Num.bitNot (Num.bitNot (Num.of_decimal 49 1)) = Num.of_int 4
      /\ Num.bitNot (Num.bitNot (Num.of_decimal (-49) 1)) = Num.of_int (-4)
      /\ Num.bitOr (Num.of_decimal (-37) 1) (Num.of_int 0) = Num.of_int (-3)
      /\ Num.mathFloor (Num.of_decimal (-49) 1) = Num.of_int (-5))
  /\ (Num.shiftRight (Num.of_int n) (Num.of_int k) = Num.of_int (n / 2 ^ k)
      /\ (n * 2 ^ k < 2 ^ 31 ->
          Num.shiftLeft (Num.of_int n) (Num.of_int k) = Num.of_int (n * 2 ^ k)))
  /\ (Num.shiftLeft (Num.of_int 5) (Num.of_int 3) = Num.of_int 40
      /\ Num.shiftRight (Num.of_int 20) (Num.of_int 2) = Num.of_int 5)
  /\ output Bitwise.double_not
     = [[DString (nl ++ "--- 1. Double NOT (~~) for Fast Truncation ---")];
        [DString "~~4.9 ->"; DNumber (Num.of_int 4)];
        [DString "~~-4.9 ->"; DNumber (Num.of_int (-4))];
        [DString "Math.floor(-4.9) ->"; DNumber (Num.of_int (-5))]]
  /\ output Bitwise.or_zero
     = [[DString (nl ++ "--- 4. Bitwise OR (| 0) to Truncate to Integer ---")];
        [DString "3.7 | 0 ->"; DNumber (Num.of_int 3)];
        [DString "-3.7 | 0 ->"; DNumber (Num.of_int (-3))]]
  /\ output Bitwise.shifts
     = [[DString (nl ++ "--- 6. Bitwise Shifts (<<, >>) for Fast Math ---")];
        [DString "5 << 1 (5 * 2^1) ->"; DNumber (Num.of_int 10)];
        [DString "5 << 3 (5 * 2^3) ->"; DNumber (Num.of_int 40)];
        [DString "20 >> 1 (20 / 2^1) ->"; DNumber (Num.of_int 10)];
        [DString "20 >> 2 (20 / 2^2) ->"; DNumber (Num.of_int 5)]].
Proof.
  intros Hn Hk x. split; [| split; [| split]].
  - split; [apply bitNot_bitNot |].
    split; [apply bitOr_zero |].
    split; [reflexivity |].
    split; [apply truncate_toward_zero |].
    intros Hr. unfold x, Num.toInt32. apply wrap32_small. exact Hr.
  - repeat split; vm_compute; reflexivity.
  - split; [apply shiftRight_pow2; assumption |].
    intros Hr. apply shiftLeft_pow2; lia.
  - repeat split; vm_compute; reflexivity.
Qed.

Lemma bitwise_truncation_and_shifts_witness :
  Num.bitNot (Num.bitNot (Num.of_decimal 49 1)) = Num.of_int 4
  /\ Num.bitOr (Num.of_decimal 49 1) (Num.of_int 0) = Num.of_int 4
  /\ Num.truncationOf false 5516909543528858 (-50) 4
  /\ Num.shiftRight (Num.of_int 20) (Num.of_int 2) = Num.of_int (20 / 2 ^ 2)
  /\ Num.shiftLeft (Num.of_int 20) (Num.of_int 2) = Num.of_int (20 * 2 ^ 2).
Proof.
  destruct (bitwise_truncation_and_shifts false 5516909543528858 (-50) 20 2
              ltac:(lia) ltac:(lia))
    as ((Hnot & Hor & _ & Htrunc & _) & _ & (Hshr & Hshl) & _).
  split; [exact Hnot |]. split; [exact Hor |]. split; [exact Htrunc |].
  split; [exact Hshr |]. apply Hshl. lia.
Defined.

(** The claim as the specification has it asks of the shifts only that the
    operands are non-negative and the result within the signed 32-bit
    range.  The shift count is taken modulo 32, so 5 >> 32 is 5 and not
    floor(5 / 2^32) = 0. *)
Lemma shift_count_is_taken_modulo_32 :
  0 <= 5 /\ 0 <= 32 /\ - 2 ^ 31 <= 5 / 2 ^ 32 < 2 ^ 31
  /\ Num.shiftRight (Num.of_int 5) (Num.of_int 32) = Num.of_int 5
  /\ Num.of_int (5 / 2 ^ 32) = Num.of_int 0
  /\ Num.equal (Num.of_int 5) (Num.of_int 0) = false.
Proof.
  repeat split; try (vm_compute; reflexivity); vm_compute; congruence.
Qed.

(** ** Environment records *)

Section EnvironmentFacts.

Implicit Types (st : state) (es : list envRecord) (x y : string) (b : binding).

Lemma putBinding_envs e x b st :
  envs (putBinding e x b st) = alter (updateRecord x b) e (envs st).
Proof. reflexivity. Qed.

(** Rebinding [y] does not change what another name resolves to. *)
Lemma lookupF_alter_ne fuel es c e x y b :
  x <> y ->
  lookupF fuel (alter (updateRecord y b) e es) c x = lookupF fuel es c x.
Proof.
  intros Hne. revert c. induction fuel as [| f IH]; intros c; [reflexivity |].
  simpl. destruct (decide (c = e)) as [-> | Hce].
  - rewrite list_lookup_alter_eq. destruct (es !! e) as [r |]; simpl; [| reflexivity].
    rewrite lookup_insert_ne by congruence.
    destruct (bindings r !! x); [reflexivity |].
    destruct (outer r); [apply IH | reflexivity].
  - rewrite list_lookup_alter_ne by congruence.
    destruct (es !! c) as [r |]; [| reflexivity].
    destruct (bindings r !! x); [reflexivity |].
    destruct (outer r); [apply IH | reflexivity].
Qed.

(** Rebinding [x] in the record it resolves to changes the binding found
    and nothing else. *)
Lemma lookupF_alter_same fuel es c e x b b' :
  lookupF fuel es c x = Some (e, b) ->
  lookupF fuel (alter (updateRecord x b') e es) c x = Some (e, b').
Proof.
  revert c. induction fuel as [| f IH]; intros c Hl; [discriminate |].
  simpl in Hl |- *. destruct (es !! c) as [r |] eqn:Hr; [| discriminate].
  destruct (bindings r !! x) as [b0 |] eqn:Hb.
  - injection Hl as <- <-. rewrite list_lookup_alter_eq, Hr. simpl.
    rewrite lookup_insert_eq. reflexivity.
  - destruct (outer r) as [p |] eqn:Ho; [| discriminate].
    destruct (decide (c = e)) as [-> | Hce].
    + rewrite list_lookup_alter_eq, Hr. simpl.
      (* the record at [e] has no binding of [x], yet the search ends there *)
      exfalso. clear IH. revert p Hl Ho. revert Hr Hb. generalize r.
      clear. intros r Hr Hb p Hl _. revert p Hl.
      induction f as [| f IHf]; intros p Hl; [discriminate |].
      simpl in Hl. destruct (es !! p) as [r' |] eqn:Hr'; [| discriminate].
      destruct (bindings r' !! x) eqn:Hb'.
      * injection Hl as -> _. congruence.
      * destruct (outer r'); [eauto | discriminate].
    + rewrite list_lookup_alter_ne, Hr by congruence. rewrite Hb, Ho. apply IH, Hl.
Qed.

(** With chains that end, the search needs fuel only up to the record
    it starts from. *)
Lemma lookupF_fuel es c x f g :
  (forall e r' p, es !! e = Some r' -> outer r' = Some p -> (p < e)%nat) ->
  (c < f)%nat -> (c < g)%nat -> lookupF f es c x = lookupF g es c x.
Proof.
  intros Hwf. revert f g. induction c as [c IH] using lt_wf_ind.
  intros f g Hf Hg.
  destruct f as [| f]; [lia |]. destruct g as [| g]; [lia |]. simpl.
  destruct (es !! c) as [r' |] eqn:Hr; [| reflexivity].
  destruct (bindings r' !! x); [reflexivity |].
  destruct (outer r') as [p |] eqn:Ho; [| reflexivity].
  pose proof (Hwf _ _ _ Hr Ho) as Hp. apply IH; lia.
Qed.

(** It does not see the records created later either. *)
Lemma lookupF_app fuel es r c x :
  (forall e r' p, es !! e = Some r' -> outer r' = Some p -> (p < e)%nat) ->
  (c < length es)%nat ->
  lookupF fuel (es ++ [r]) c x = lookupF fuel es c x.
Proof.
  intros Hwf. revert fuel. induction c as [c IH] using lt_wf_ind.
  intros fuel Hc. destruct fuel as [| f]; [reflexivity |]. simpl.
  rewrite lookup_app_l by lia.
  destruct (es !! c) as [r' |] eqn:Hr; [| reflexivity].
  destruct (bindings r' !! x); [reflexivity |].
  destruct (outer r') as [p |] eqn:Ho; [| reflexivity].
  pose proof (Hwf _ _ _ Hr Ho) as Hp. apply IH; lia.
Qed.

(** What an identifier resolves to on entry into a scope whose record is
    [mkEnv bs (Some (cur st))]: the new binding if the scope declares the
    name, and what it resolved to before otherwise. *)
Lemma lookupBinding_pushEnv_declared st bs o x b :
  bs !! x = Some b ->
  lookupBinding (pushEnv (mkEnv bs o) st) x = Some (length (envs st), b).
Proof.
  intros Hb. unfold lookupBinding, pushEnv. simpl.
  rewrite length_app. simpl. rewrite Nat.add_1_r. simpl.
  rewrite lookup_app_r by lia. rewrite Nat.sub_diag. simpl. rewrite Hb. reflexivity.
Qed.

Lemma lookupBinding_pushEnv_other st bs x :
  wfState st -> bs !! x = None ->
  lookupBinding (pushEnv (mkEnv bs (Some (cur st))) st) x = lookupBinding st x.
Proof.
  intros [Hc Hwf] Hb. unfold lookupBinding, pushEnv. simpl.
  rewrite length_app. simpl. rewrite Nat.add_1_r. simpl.
  rewrite lookup_app_r by lia. rewrite Nat.sub_diag. simpl. rewrite Hb.
  apply lookupF_app; assumption.
Qed.

Lemma wfState_initial : wfState initialState.
Proof.
  split; [simpl; lia |]. intros e r p Hr Ho.
  destruct e as [| e]; simpl in Hr; [| destruct e; discriminate].
  injection Hr as <-. discriminate.
Qed.

Lemma wfState_pushEnv st bs :
  wfState st -> wfState (pushEnv (mkEnv bs (Some (cur st))) st).
Proof.
  intros [Hc Hwf]. split.
  - unfold pushEnv. simpl. rewrite length_app. simpl. lia.
  - intros e r p Hr Ho. unfold pushEnv in Hr. simpl in Hr.
    destruct (decide (e < length (envs st))%nat) as [Hlt | Hge].
    + rewrite lookup_app_l in Hr by lia. eauto.
    + rewrite lookup_app_r in Hr by lia.
      destruct (e - length (envs st))%nat as [| k] eqn:Hk; simpl in Hr;
        [| destruct k; discriminate].
      injection Hr as <-. simpl in Ho. injection Ho as <-. lia.
Qed.

Lemma wfState_putBinding st e x b : wfState st -> wfState (putBinding e x b st).
Proof.
  intros [Hc Hwf]. split.
  - simpl. rewrite length_alter. exact Hc.
  - intros e' r p Hr Ho. simpl in Hr.
    destruct (decide (e = e')) as [-> | Hne].
    + rewrite list_lookup_alter_eq in Hr.
      destruct (envs st !! e') as [r0 |] eqn:Hr0; [| discriminate].
      injection Hr as <-. simpl in Ho. eauto.
    + rewrite list_lookup_alter_ne in Hr by congruence. eauto.
Qed.

(** The declarations of a scope: which names its record binds. *)
Lemma lexicalBindings_declared (lex : list (string * bindingKind)) x :
  x ∈ (fst <$> lex) -> exists k, lexicalBindings lex !! x = Some (mkBinding k None).
Proof.
  unfold lexicalBindings. induction lex as [| [y k] lex IH]; simpl; intros Hin.
  - inversion Hin.
  - destruct (decide (y = x)) as [-> | Hne].
    + exists k. apply lookup_insert_eq.
    + rewrite lookup_insert_ne by congruence. apply IH.
      apply elem_of_cons in Hin as [Heq | Hin]; [congruence | exact Hin].
Qed.

Lemma lexicalBindings_other (lex : list (string * bindingKind)) x :
  x ∉ (fst <$> lex) -> lexicalBindings lex !! x = None.
Proof.
  unfold lexicalBindings. induction lex as [| [y k] lex IH]; simpl; intros Hin.
  - apply lookup_empty.
  - apply not_elem_of_cons in Hin as [Hne Hin].
    rewrite lookup_insert_ne by congruence. apply IH, Hin.
Qed.

Lemma varBindings_declared (vars : list string) x :
  x ∈ vars -> varBindings vars !! x = Some (mkBinding KVar (Some VUndefined)).
Proof.
  unfold varBindings. induction vars as [| y vars IH]; simpl; intros Hin.
  - inversion Hin.
  - destruct (decide (y = x)) as [-> | Hne].
    + apply lookup_insert_eq.
    + rewrite lookup_insert_ne by congruence. apply IH.
      apply elem_of_cons in Hin as [Heq | Hin]; [congruence | exact Hin].
Qed.




Lemma getBinding_value st x k v :
  bindingOf st x = Some (mkBinding k (Some v)) -> getBinding x st = (Normal v, st).
Proof.
  unfold bindingOf, getBinding. destruct (lookupBinding st x) as [[e b] |]; simpl;
    [| discriminate].
  intros [= ->]. reflexivity.
Qed.


Lemma assign_const st x v w :
  bindingOf st x = Some (mkBinding KConst (Some v)) ->
  assign x w st = (Thrown (mkError TypeError "Assignment to constant variable."), st).
Proof.
  unfold bindingOf, assign. destruct (lookupBinding st x) as [[e b] |]; simpl;
    [| discriminate].
  intros [= ->]. reflexivity.
Qed.

Lemma bindingOf_putBinding_same st x e b b' :
  lookupBinding st x = Some (e, b) -> bindingOf (putBinding e x b' st) x = Some b'.
Proof.
  intros Hl. unfold bindingOf, lookupBinding. rewrite putBinding_envs.
  rewrite length_alter. simpl.
  unfold lookupBinding in Hl. rewrite (lookupF_alter_same _ _ _ _ _ _ b' Hl).
  reflexivity.
Qed.

Lemma bindingOf_putBinding_ne st x y e b :
  x <> y -> bindingOf (putBinding e y b st) x = bindingOf st x.
Proof.
  intros Hne. unfold bindingOf, lookupBinding. rewrite putBinding_envs.
  rewrite length_alter. simpl. rewrite lookupF_alter_ne by exact Hne. reflexivity.
Qed.

(** The declaration runs: the binding leaves its dead zone with the
    value. *)
Lemma initializeBinding_dead st x k v :
  bindingOf st x = Some (mkBinding k None) ->
  exists st', initializeBinding x v st = (Normal (), st')
              /\ bindingOf st' x = Some (mkBinding k (Some v))
              /\ store st' = store st /\ console st' = console st.
Proof.
  unfold bindingOf at 1, initializeBinding.
  destruct (lookupBinding st x) as [[e b] |] eqn:Hl; simpl; [| discriminate].
  intros [= ->]. eexists. split; [reflexivity |]. split; [| split; reflexivity].
  simpl. eapply bindingOf_putBinding_same, Hl.
Qed.


Lemma initializeBinding_other st x y w b :
  x <> y -> bindingOf st x = Some b ->
  bindingOf (snd (initializeBinding y w st)) x = Some b.
Proof.
  intros Hne Hb. unfold initializeBinding.
  destruct (lookupBinding st y) as [[e b'] |]; simpl; [| exact Hb].
  rewrite bindingOf_putBinding_ne; assumption.
Qed.

Lemma console_log_binding st x args :
  bindingOf (snd (console_log args st)) x = bindingOf st x.
Proof. reflexivity. Qed.

End EnvironmentFacts.

(** ** The temporal dead zone *)



(** ** Hoisting of var and function declarations *)

Section HoistingFacts.


Lemma functionBindings_cons base y (funs : list string) :
  functionBindings base (y :: funs)
  = <[y := mkBinding KFunction (Some (VObject base))]> (functionBindings (S base) funs).
Proof.
  unfold functionBindings. simpl. rewrite Nat.add_0_r.
  match goal with
  | |- context [imap ?F funs] =>
      replace (imap F funs)
        with (imap (fun i f => (f, mkBinding KFunction (Some (VObject (S base + i))))) funs)
  end; [reflexivity |].
  apply imap_ext. intros i z _. simpl. do 4 f_equal. lia.
Qed.

Lemma functionBindings_other base (funs : list string) x :
  x ∉ funs -> functionBindings base funs !! x = None.
Proof.
  revert base. induction funs as [| y funs IH]; intros base Hin.
  - apply lookup_empty.
  - apply not_elem_of_cons in Hin as [Hne Hin].
    rewrite functionBindings_cons, lookup_insert_ne by congruence. apply IH, Hin.
Qed.

Lemma functionBindings_declared base (funs : list string) x :
  x ∈ funs ->
  exists i, funs !! i = Some x
            /\ functionBindings base funs !! x
               = Some (mkBinding KFunction (Some (VObject (base + i)))).
Proof.
  revert base. induction funs as [| y funs IH]; intros base Hin.
  - inversion Hin.
  - rewrite functionBindings_cons. destruct (decide (y = x)) as [-> | Hne].
    + exists 0%nat. split; [reflexivity |]. rewrite Nat.add_0_r. apply lookup_insert_eq.
    + apply elem_of_cons in Hin as [Heq | Hin]; [congruence |].
      destruct (IH (S base) Hin) as (i & Hi & Hl). exists (S i). split; [exact Hi |].
      rewrite lookup_insert_ne by congruence.
      replace (base + S i)%nat with (S base + i)%nat by lia. exact Hl.
Qed.

(** What an identifier declared by the script resolves to at its entry. *)
Lemma lookupBinding_scriptEntry st funs vars lex r x b :
  envs st !! cur st = Some r ->
  bindings (hoistGlobals (length (store st)) funs vars lex r) !! x = Some b ->
  lookupBinding (scriptEntry funs vars lex st) x = Some (cur st, b).
Proof.
  intros Hr Hb. unfold lookupBinding, scriptEntry. simpl.
  rewrite length_alter.
  assert (Hlen : (cur st < length (envs st))%nat) by (eapply lookup_lt_Some, Hr).
  destruct (length (envs st)) as [| n]; [lia |]. simpl.
  rewrite list_lookup_alter_eq, Hr. simpl. simpl in Hb. rewrite Hb. reflexivity.
Qed.

End HoistingFacts.




(** ** The heap: properties, copies and const bindings *)

Section HeapFacts.

Implicit Types (st : state) (ps qs : list (string * value)) (k : string) (v w : value).

Lemma propLookup_propSet_eq k v ps : propLookup k (propSet k v ps) = Some v.
Proof.
  induction ps as [| [k' v'] ps IH]; simpl.
  - rewrite String.eqb_refl. reflexivity.
  - destruct (String.eqb_spec k k') as [-> | Hne]; simpl.
    + rewrite String.eqb_refl. reflexivity.
    + rewrite (proj2 (String.eqb_neq k k') Hne). exact IH.
Qed.

Lemma propLookup_propSet_ne k k' v ps :
  k <> k' -> propLookup k' (propSet k v ps) = propLookup k' ps.
Proof.
  intros Hne. induction ps as [| [k0 v0] ps IH]; simpl.
  - rewrite (proj2 (String.eqb_neq k' k)) by congruence. reflexivity.
  - destruct (String.eqb_spec k k0) as [-> | Hk]; simpl.
    + rewrite (proj2 (String.eqb_neq k' k0)) by congruence. reflexivity.
    + destruct (String.eqb k' k0); [reflexivity | exact IH].
Qed.

Lemma propSet_fresh k v ps : k ∉ (fst <$> ps) -> propSet k v ps = (ps ++ [(k, v)])%list.
Proof.
  induction ps as [| [k' v'] ps IH]; simpl; intros Hk; [reflexivity |].
  apply not_elem_of_cons in Hk as [Hne Hk].
  rewrite (proj2 (String.eqb_neq k k')) by exact Hne. rewrite IH by exact Hk.
  reflexivity.
Qed.

(** Property lists keep their keys distinct: defining a property replaces
    the value of a key that is there, and no other operation adds keys. *)
Lemma propSet_keys k v ps :
  fst <$> propSet k v ps
  = if bool_decide (k ∈ (fst <$> ps)) then fst <$> ps else ((fst <$> ps) ++ [k])%list.
Proof.
  induction ps as [| [k' v'] ps IH]; csimpl; [reflexivity |].
  destruct (String.eqb_spec k k') as [-> | Hne]; csimpl.
  - rewrite bool_decide_eq_true_2 by apply list_elem_of_here. reflexivity.
  - rewrite IH. destruct (decide (k ∈ (fst <$> ps))) as [Hin | Hin].
    + rewrite !bool_decide_eq_true_2; [reflexivity | apply list_elem_of_further, Hin | exact Hin].
    + rewrite !bool_decide_eq_false_2; [reflexivity | | exact Hin].
      intros H. apply elem_of_cons in H as [? | ?]; [congruence | contradiction].
Qed.

Lemma propSet_NoDup k v ps : NoDup (fst <$> ps) -> NoDup (fst <$> propSet k v ps).
Proof.
  intros Hnd. rewrite propSet_keys. case_bool_decide as Hin; [exact Hnd |].
  apply NoDup_app. split; [exact Hnd |]. split.
  - intros x Hx Hk. apply list_elem_of_singleton in Hk. subst x. contradiction.
  - apply NoDup_singleton.
Qed.

Lemma addProps_NoDup (h : heap) (p : propInit) ps :
  NoDup (fst <$> ps) -> NoDup (fst <$> addProps h ps p).
Proof.
  destruct p as [k v | v]; simpl; [apply propSet_NoDup |].
  generalize (ownProps h v). intros src. revert ps.
  induction src as [| [k w] src IH]; intros ps Hnd; simpl; [exact Hnd |].
  apply IH, propSet_NoDup, Hnd.
Qed.

(** So the object a literal creates has distinct keys. *)
Lemma objectLiteral_NoDup (h : heap) (parts : list propInit) :
  NoDup (fst <$> fold_left (addProps h) parts []).
Proof.
  assert (H : forall ps, NoDup (fst <$> ps) ->
                         NoDup (fst <$> fold_left (addProps h) parts ps)).
  { induction parts as [| p parts IH]; intros ps Hnd; simpl; [exact Hnd |].
    apply IH, addProps_NoDup, Hnd. }
  apply H. apply NoDup_nil_2.
Qed.

(** Copying the properties of an object one by one rebuilds its property
    list: same keys, same order, same values. *)
Lemma copy_props ps acc :
  NoDup (fst <$> (acc ++ ps)%list) ->
  fold_left (fun a kv => propSet (fst kv) (snd kv) a) ps acc = (acc ++ ps)%list.
Proof.
  revert acc. induction ps as [| [k v] ps IH]; intros acc Hnd; simpl.
  - rewrite app_nil_r. reflexivity.
  - assert (Hfresh : k ∉ (fst <$> acc)).
    { rewrite fmap_app in Hnd. apply NoDup_app in Hnd as (_ & Hdis & _).
      intros Hin. apply (Hdis k Hin). simpl. apply list_elem_of_here. }
    rewrite propSet_fresh by exact Hfresh. rewrite IH.
    + rewrite <- app_assoc. reflexivity.
    + rewrite <- app_assoc. exact Hnd.
Qed.

Lemma objectLiteral_spread st l ps fr :
  store st !! l = Some (mkObject (OProps ps) fr) ->
  NoDup (fst <$> ps) ->
  objectLiteral [Spread (VObject l)] st
  = (Normal (VObject (length (store st))),
     setStore (store st ++ [mkObject (OProps ps) false])%list st).
Proof.
  intros Hl Hnd. unfold objectLiteral, alloc. simpl. rewrite Hl. simpl.
  rewrite (copy_props ps []) by exact Hnd. reflexivity.
Qed.

Lemma getProp_object st l ps fr k :
  store st !! l = Some (mkObject (OProps ps) fr) ->
  getProp (VObject l) k st = (Normal (default VUndefined (propLookup k ps)), st).
Proof. intros Hl. unfold getProp. rewrite Hl. reflexivity. Qed.

Lemma setProp_object st l ps k v :
  store st !! l = Some (mkObject (OProps ps) false) ->
  setProp (VObject l) k v st = (Normal v, putObject l (OProps (propSet k v ps)) st).
Proof. intros Hl. unfold setProp. rewrite Hl. reflexivity. Qed.

Lemma setProp_frozen st l ps k v :
  store st !! l = Some (mkObject (OProps ps) true) ->
  setProp (VObject l) k v st = (Normal v, st).
Proof. intros Hl. unfold setProp. rewrite Hl. reflexivity. Qed.

Lemma store_putObject_eq st l d o :
  store st !! l = Some o ->
  store (putObject l d st) !! l = Some (mkObject d (ofrozen o)).
Proof. intros Hl. simpl. rewrite list_lookup_alter_eq, Hl. reflexivity. Qed.

Lemma store_putObject_ne st l l' d :
  l <> l' -> store (putObject l d st) !! l' = store st !! l'.
Proof. intros Hne. simpl. apply list_lookup_alter_ne. exact Hne. Qed.

End HeapFacts.

(** C9.  The spread of an object into a new object literal, and of an
    array into a new array literal, copies one level.  The copy is a new
    object that holds the same values under the same keys (at the same
    indices), so a nested object of any kind, a plain object, an array or
    a function, frozen or not, is the same reference in both.  What is
    done through the copy's reference to a nested object is therefore
    seen through the original: a property written to a nested plain
    object is read back through the original (unless that object is
    frozen, and then the write is ignored for both), and an element
    pushed onto a nested array is found through the original (on a frozen
    array the push throws and nothing changes).  This holds as well when
    the object holds itself, as long as the write does not replace the
    very property that holds it.  A property written to
    the copy itself, or an element pushed onto the copied array, leaves
    every object that was on the heap as it was, the original included.
    The object half and the array half stand each on its own heap.  The
    scripts print 99 for obj.b.c and for nested[0].x. *)
Theorem spread_is_shallow :
  (forall (st : state) (l : nat) (ps : list (string * value)) (fr : bool),
      store st !! l = Some (mkObject (OProps ps) fr) ->
      NoDup (fst <$> ps) ->
      let c := length (store st) in
      exists st1 ps',
        objectLiteral [Spread (VObject l)] st = (Normal (VObject c), st1)
        /\ c <> l
        /\ store st1 = (store st ++ [mkObject (OProps ps') false])%list
        /\ (forall k, propLookup k ps' = propLookup k ps)
        /\ (Forall (fun k => digitsOnly k = false) (fst <$> ps) -> ps' = ps)
        /\ (forall k, getProp (VObject c) k st1 = getProp (VObject l) k st1)
        /\ (forall k v, propLookup k ps = Some v ->
              getProp (VObject c) k st1 = (Normal v, st1))
        /\ (forall k n qs fz k2 w,
              propLookup k ps = Some (VObject n) -> n <> l \/ k2 <> k ->
              store st !! n = Some (mkObject (OProps qs) fz) ->
              exists st2,
                (b <- getProp (VObject c) k ;; setProp b k2 w) st1 = (Normal w, st2)
                /\ (b <- getProp (VObject l) k ;; getProp b k2) st2
                   = (Normal (if fz then default VUndefined (propLookup k2 qs) else w), st2)
                /\ (b <- getProp (VObject c) k ;; getProp b k2) st2
                   = (b <- getProp (VObject l) k ;; getProp b k2) st2)
        /\ (forall k n xs fz w,
              propLookup k ps = Some (VObject n) ->
              store st !! n = Some (mkObject (OArray xs) fz) ->
              if fz
              then exists msg,
                     (b <- getProp (VObject c) k ;; push b w) st1
                     = (Thrown (mkError TypeError msg), st1)
              else exists st2,
                     (b <- getProp (VObject c) k ;; push b w) st1
                     = (Normal (num (Z.of_nat (length xs) + 1)), st2)
                     /\ (b <- getProp (VObject l) k ;; getIndex b (length xs)) st2
                        = (Normal w, st2))
        /\ (forall k u, exists st3,
              setProp (VObject c) k u st1 = (Normal u, st3)
              /\ getProp (VObject c) k st3 = (Normal u, st3)
              /\ (forall j, (j < c)%nat -> store st3 !! j = store st !! j)
              /\ (forall k', getProp (VObject l) k' st3
                             = (Normal (default VUndefined (propLookup k' ps)), st3))))
  /\ (forall (st : state) (a : nat) (es : list value) (fa : bool) (src : string),
        store st !! a = Some (mkObject (OArray es) fa) ->
        let c := length (store st) in
        exists st1,
          arrayLiteral [SpreadItems (VObject a) src] st = (Normal (VObject c), st1)
          /\ c <> a
          /\ store st1 = (store st ++ [mkObject (OArray es) false])%list
          /\ (forall i, getIndex (VObject c) i st1 = getIndex (VObject a) i st1)
          /\ (forall i v, es !! i = Some v ->
                getIndex (VObject c) i st1 = (Normal v, st1))
          /\ (forall i n qs fz k2 w,
                es !! i = Some (VObject n) ->
                store st !! n = Some (mkObject (OProps qs) fz) ->
                exists st2,
                  (e <- getIndex (VObject c) i ;; setProp e k2 w) st1 = (Normal w, st2)
                  /\ (e <- getIndex (VObject a) i ;; getProp e k2) st2
                     = (Normal (if fz then default VUndefined (propLookup k2 qs) else w),
                        st2)
                  /\ (e <- getIndex (VObject c) i ;; getProp e k2) st2
                     = (e <- getIndex (VObject a) i ;; getProp e k2) st2)
          /\ (forall i n xs fz w,
                es !! i = Some (VObject n) ->
                store st !! n = Some (mkObject (OArray xs) fz) ->
                if fz
                then exists msg,
                       (e <- getIndex (VObject c) i ;; push e w) st1
                       = (Thrown (mkError TypeError msg), st1)
                else exists st2,
                       (e <- getIndex (VObject c) i ;; push e w) st1
                       = (Normal (num (Z.of_nat (length xs) + 1)), st2)
                       /\ (e <- getIndex (VObject a) i ;; getIndex e (length xs)) st2
                          = (Normal w, st2))
          /\ (forall u, exists st3,
                push (VObject c) u st1 = (Normal (num (Z.of_nat (length es) + 1)), st3)
                /\ store st3 !! c = Some (mkObject (OArray (es ++ [u])) false)
                /\ (forall j, (j < c)%nat -> store st3 !! j = store st !! j)
                /\ (forall i, getIndex (VObject a) i st3 = (Normal (element es i), st3))))
  /\ output SpreadRest.q1_shallow_copy
     = [[DString (nl ++ "--- Q1: Shallow Copy ---")];
        [DString "What is obj1.b.c?"; DNumber (Num.of_int 99)];
        [DString "✅ Answer: 99. The nested object `b` was a reference, not a copy."]]
  /\ output AdvancedSpread.shallow_copy_trap !! 1%nat
     = Some [DString "Original object was mutated (obj.b.c):"; DNumber (Num.of_int 99)]
  /\ output SpreadRest.hidden_internals
     = [[DString "Spread is a shallow copy. Original was mutated:"; DNumber (Num.of_int 99)]]
  /\ output SpreadRest.immutable_update !! 1%nat
     = Some [DString "Immutable update:";
             DObject [("name", DString "Alice"); ("age", DNumber (Num.of_int 21))]]
  /\ showBinding (finalState SpreadRest.immutable_update) "user_s4"
     = Some (DObject [("name", DString "Alice"); ("age", DNumber (Num.of_int 20))]).
Proof.
  split; [| split; [| repeat split; vm_compute; reflexivity]].
  - (* the spread of an object *)
    intros st l ps fr Hl Hnd c.
    assert (Hlc : (l < c)%nat) by (eapply lookup_lt_Some, Hl).
    set (st1 := setStore (store st ++ [mkObject (OProps ps) false]) st).
    assert (Hold : forall j, (j < c)%nat -> store st1 !! j = store st !! j).
    { intros j Hj. simpl. apply lookup_app_l. exact Hj. }
    assert (Hc1 : store st1 !! c = Some (mkObject (OProps ps) false)).
    { simpl. rewrite lookup_app_r by (unfold c; lia).
      unfold c. rewrite Nat.sub_diag. reflexivity. }
    assert (Hl1 : store st1 !! l = Some (mkObject (OProps ps) fr))
      by (rewrite Hold by exact Hlc; exact Hl).
    assert (Hgc : forall k, getProp (VObject c) k st1
                            = (Normal (default VUndefined (propLookup k ps)), st1))
      by (intros k; apply (getProp_object _ _ _ _ _ Hc1)).
    assert (Hgl : forall k, getProp (VObject l) k st1
                            = (Normal (default VUndefined (propLookup k ps)), st1))
      by (intros k; apply (getProp_object _ _ _ _ _ Hl1)).
    exists st1, ps.
    split; [eapply objectLiteral_spread; eassumption |].
    split; [lia |]. split; [reflexivity |]. split; [reflexivity |].
    split; [reflexivity |].
    split; [intros k; rewrite Hgc, Hgl; reflexivity |].
    split; [intros k v Hk; rewrite Hgc, Hk; reflexivity |].
    split; [| split].
    + (* a nested plain object *)
      intros k n qs fz k2 w Hk Hne Hn.
      assert (Hnc : (n < c)%nat) by (eapply lookup_lt_Some, Hn).
      assert (Hn1 : store st1 !! n = Some (mkObject (OProps qs) fz))
        by (rewrite Hold by exact Hnc; exact Hn).
      destruct fz.
      * exists st1. unfold bind. rewrite Hgc, Hgl, Hk. simpl default.
        rewrite (setProp_frozen _ _ _ _ _ Hn1), (getProp_object _ _ _ _ _ Hn1).
        repeat split; reflexivity.
      * set (st2 := putObject n (OProps (propSet k2 w qs)) st1).
        assert (Hn2 : store st2 !! n = Some (mkObject (OProps (propSet k2 w qs)) false))
          by apply (store_putObject_eq _ _ _ _ Hn1).
        assert (Hc2 : store st2 !! c = Some (mkObject (OProps ps) false))
          by (unfold st2; rewrite store_putObject_ne by lia; exact Hc1).
        assert (Hgl2 : getProp (VObject l) k st2 = (Normal (VObject n), st2)).
        { destruct (decide (n = l)) as [-> | Hnl].
          - (* the object holds itself under [k] *)
            assert (qs = ps) by congruence. subst qs.
            rewrite (getProp_object _ _ _ _ _ Hn2).
            rewrite propLookup_propSet_ne by (destruct Hne; congruence).
            rewrite Hk. reflexivity.
          - rewrite (getProp_object _ l ps fr), Hk; [reflexivity |].
            unfold st2. rewrite store_putObject_ne by exact Hnl. exact Hl1. }
        exists st2. unfold bind. rewrite Hgc, Hk. simpl default.
        rewrite (setProp_object _ _ _ _ _ Hn1). fold st2.
        rewrite Hgl2, (getProp_object _ _ _ _ _ Hc2), Hk.
        simpl default.
        rewrite (getProp_object _ _ _ _ _ Hn2), propLookup_propSet_eq.
        repeat split; reflexivity.
    + (* a nested array *)
      intros k n xs fz w Hk Hn.
      assert (Hnc : (n < c)%nat) by (eapply lookup_lt_Some, Hn).
      assert (Hne : n <> l) by (intros ->; rewrite Hn in Hl; discriminate).
      assert (Hn1 : store st1 !! n = Some (mkObject (OArray xs) fz))
        by (rewrite Hold by exact Hnc; exact Hn).
      destruct fz.
      * eexists. unfold bind. rewrite Hgc, Hk. simpl default.
        unfold push. rewrite Hn1. reflexivity.
      * set (st2 := putObject n (OArray (xs ++ [w])) st1).
        assert (Hn2 : store st2 !! n = Some (mkObject (OArray (xs ++ [w])) false))
          by apply (store_putObject_eq _ _ _ _ Hn1).
        assert (Hl2 : store st2 !! l = Some (mkObject (OProps ps) fr))
          by (unfold st2; rewrite store_putObject_ne by exact Hne; exact Hl1).
        exists st2. unfold bind. rewrite Hgc, Hk. simpl default.
        split; [unfold push; rewrite Hn1; reflexivity |].
        rewrite (getProp_object _ _ _ _ _ Hl2), Hk. simpl default.
        unfold getIndex, element. rewrite Hn2. simpl fmap. cbv beta iota.
        rewrite lookup_app_r by lia. rewrite Nat.sub_diag. reflexivity.
    + (* a property of the copy itself *)
      intros k u. set (st3 := putObject c (OProps (propSet k u ps)) st1).
      assert (Hold3 : forall j, (j < c)%nat -> store st3 !! j = store st !! j).
      { intros j Hj. unfold st3. rewrite store_putObject_ne by lia. apply Hold, Hj. }
      exists st3. split; [apply setProp_object, Hc1 |]. split; [| split].
      * rewrite (getProp_object _ c (propSet k u ps) false).
        -- rewrite propLookup_propSet_eq. reflexivity.
        -- apply (store_putObject_eq _ _ _ _ Hc1).
      * exact Hold3.
      * intros k'. apply (getProp_object _ _ _ fr).
        rewrite Hold3 by exact Hlc. exact Hl.
  - (* the spread of an array *)
    intros st a es fa src Ha c.
    assert (Hac : (a < c)%nat) by (eapply lookup_lt_Some, Ha).
    set (st1 := setStore (store st ++ [mkObject (OArray es) false]) st).
    assert (Hold : forall j, (j < c)%nat -> store st1 !! j = store st !! j).
    { intros j Hj. simpl. apply lookup_app_l. exact Hj. }
    assert (Hc1 : store st1 !! c = Some (mkObject (OArray es) false)).
    { simpl. rewrite lookup_app_r by (unfold c; lia).
      unfold c. rewrite Nat.sub_diag. reflexivity. }
    assert (Ha1 : store st1 !! a = Some (mkObject (OArray es) fa))
      by (rewrite Hold by exact Hac; exact Ha).
    assert (Hgi : forall (s : state) (x : nat) (ys : list value) (f : bool) (i : nat),
               store s !! x = Some (mkObject (OArray ys) f) ->
               getIndex (VObject x) i s = (Normal (element ys i), s)).
    { intros s x ys f i Hx. unfold getIndex. rewrite Hx. reflexivity. }
    exists st1.
    split; [unfold arrayLiteral; simpl; rewrite Ha; reflexivity |].
    split; [lia |]. split; [reflexivity |].
    split; [intros i; rewrite (Hgi _ _ _ _ i Hc1), (Hgi _ _ _ _ i Ha1); reflexivity |].
    split; [intros i v Hi; rewrite (Hgi _ _ _ _ i Hc1); unfold element; rewrite Hi;
            reflexivity |].
    split; [| split].
    + (* a nested plain object *)
      intros i n qs fz k2 w Hi Hn.
      assert (Hnc : (n < c)%nat) by (eapply lookup_lt_Some, Hn).
      assert (Hne : n <> a) by (intros ->; rewrite Hn in Ha; discriminate).
      assert (Hn1 : store st1 !! n = Some (mkObject (OProps qs) fz))
        by (rewrite Hold by exact Hnc; exact Hn).
      assert (He : element es i = VObject n) by (unfold element; rewrite Hi; reflexivity).
      destruct fz.
      * exists st1. unfold bind.
        rewrite (Hgi _ _ _ _ i Hc1), (Hgi _ _ _ _ i Ha1), He.
        rewrite (setProp_frozen _ _ _ _ _ Hn1), (getProp_object _ _ _ _ _ Hn1).
        repeat split; reflexivity.
      * set (st2 := putObject n (OProps (propSet k2 w qs)) st1).
        assert (Hn2 : store st2 !! n = Some (mkObject (OProps (propSet k2 w qs)) false))
          by apply (store_putObject_eq _ _ _ _ Hn1).
        assert (Ha2 : store st2 !! a = Some (mkObject (OArray es) fa))
          by (unfold st2; rewrite store_putObject_ne by exact Hne; exact Ha1).
        assert (Hc2 : store st2 !! c = Some (mkObject (OArray es) false))
          by (unfold st2; rewrite store_putObject_ne by lia; exact Hc1).
        exists st2. unfold bind. rewrite (Hgi _ _ _ _ i Hc1), He.
        rewrite (setProp_object _ _ _ _ _ Hn1). fold st2.
        rewrite (Hgi _ _ _ _ i Ha2), (Hgi _ _ _ _ i Hc2), He.
        rewrite (getProp_object _ _ _ _ _ Hn2), propLookup_propSet_eq.
        repeat split; reflexivity.
    + (* a nested array *)
      intros i n xs fz w Hi Hn.
      assert (Hnc : (n < c)%nat) by (eapply lookup_lt_Some, Hn).
      assert (Hn1 : store st1 !! n = Some (mkObject (OArray xs) fz))
        by (rewrite Hold by exact Hnc; exact Hn).
      assert (He : element es i = VObject n) by (unfold element; rewrite Hi; reflexivity).
      destruct fz.
      * eexists. unfold bind. rewrite (Hgi _ _ _ _ i Hc1), He.
        unfold push. rewrite Hn1. reflexivity.
      * set (st2 := putObject n (OArray (xs ++ [w])) st1).
        assert (Hn2 : store st2 !! n = Some (mkObject (OArray (xs ++ [w])) false))
          by apply (store_putObject_eq _ _ _ _ Hn1).
        assert (Hga2 : getIndex (VObject a) i st2 = (Normal (VObject n), st2)).
        { destruct (decide (n = a)) as [-> | Hna].
          - (* the array holds itself at [i] *)
            assert (xs = es) by congruence. subst xs.
            rewrite (Hgi _ _ _ _ i Hn2). unfold element.
            rewrite (lookup_app_l_Some _ _ _ _ Hi). reflexivity.
          - rewrite (Hgi _ a es fa i), He; [reflexivity |].
            unfold st2. rewrite store_putObject_ne by exact Hna. exact Ha1. }
        exists st2. unfold bind. rewrite (Hgi _ _ _ _ i Hc1), He.
        split; [unfold push; rewrite Hn1; reflexivity |].
        rewrite Hga2, (Hgi _ _ _ _ _ Hn2).
        unfold element. rewrite lookup_app_r by lia. rewrite Nat.sub_diag. reflexivity.
    + (* an element pushed onto the copy itself *)
      intros u. set (st3 := putObject c (OArray (es ++ [u])) st1).
      assert (Hold3 : forall j, (j < c)%nat -> store st3 !! j = store st !! j).
      { intros j Hj. unfold st3. rewrite store_putObject_ne by lia. apply Hold, Hj. }
      exists st3. split; [unfold push; rewrite Hc1; reflexivity |]. split; [| split].
      * apply (store_putObject_eq _ _ _ _ Hc1).
      * exact Hold3.
      * intros i. apply (Hgi _ _ _ fa). rewrite Hold3 by exact Hac. exact Ha.
Qed.

Lemma spread_is_shallow_witness :
  let st := mkState [mkEnv ∅ None] 0%nat
              [mkObject (OProps [("c", num 2)]) false;
               mkObject (OProps [("a", num 1); ("b", VObject 0)]) false;
               mkObject (OArray [VObject 0]) false] [] in
  (exists st1,
      objectLiteral [Spread (VObject 1)] st = (Normal (VObject 3), st1)
      /\ getProp (VObject 3) "b" st1 = (Normal (VObject 0), st1)
      /\ exists st2,
           (b <- getProp (VObject 3) "b" ;; setProp b "c" (num 99)) st1
           = (Normal (num 99), st2)
           /\ (b <- getProp (VObject 1) "b" ;; getProp b "c") st2
              = (Normal (num 99), st2))
  /\ (exists st1,
        arrayLiteral [SpreadItems (VObject 2) "nested"] st = (Normal (VObject 3), st1)
        /\ exists st2,
             (e <- getIndex (VObject 3) 0 ;; setProp e "c" (num 99)) st1
             = (Normal (num 99), st2)
             /\ (e <- getIndex (VObject 2) 0 ;; getProp e "c") st2
                = (Normal (num 99), st2)).
Proof.
  intros st.
  assert (Hnd : NoDup (fst <$> [("a", num 1); ("b", VObject 0)])).
  { simpl. apply NoDup_cons. split.
    - intros H. apply list_elem_of_singleton in H. discriminate.
    - apply NoDup_singleton. }
  destruct spread_is_shallow as (Hobj & Harr & _).
  destruct (Hobj st 1%nat [("a", num 1); ("b", VObject 0)] false eq_refl Hnd)
    as (st1 & ps' & Hcopy & _ & _ & _ & _ & _ & Hget & Hnested & _).
  destruct (Hnested "b" 0%nat [("c", num 2)] false "c" (num 99) eq_refl
              ltac:(left; discriminate) eq_refl) as (st2 & Hset & Hread & _).
  destruct (Harr st 2%nat [VObject 0] false "nested" eq_refl)
    as (sa & Hacopy & _ & _ & _ & _ & Hanested & _).
  destruct (Hanested 0%nat 0%nat [("c", num 2)] false "c" (num 99) eq_refl eq_refl)
    as (sb & Haset & Haread & _).
  split.
  - exists st1. split; [exact Hcopy |]. split; [exact (Hget "b" (VObject 0) eq_refl) |].
    exists st2. split; [exact Hset | exact Hread].
  - exists sa. split; [exact Hacopy |].
    exists sb. split; [exact Haset | exact Haread].
Defined.

(** C10, as the code has it.  Once a const binding holds its value, an
    assignment to it throws the TypeError "Assignment to constant
    variable." and changes nothing: not the binding, not the heap.  A
    write to a property of the object the binding refers to succeeds and
    is read back, and so does a push onto the array it refers to, unless
    the object has been frozen: a frozen object ignores the write, and a
    frozen array throws on push.  arr_q2.push(4) gives [1, 2, 3, 4],
    obj_ex4.lang becomes "Python", and the three assignments throw. *)
Theorem const_reassignment_and_mutation (st : state) (x k : string) (v w : value)
    (l : nat) :
  bindingOf st x = Some (mkBinding KConst (Some v)) ->
  v = VObject l ->
  assign x w st
  = (Thrown (mkError TypeError "Assignment to constant variable."), st)
  /\ (forall ps, store st !! l = Some (mkObject (OProps ps) false) ->
        exists st',
          (o <- getBinding x ;; setProp o k w) st = (Normal w, st')
          /\ bindingOf st' x = Some (mkBinding KConst (Some v))
          /\ (o <- getBinding x ;; getProp o k) st' = (Normal w, st'))
  /\ (forall es, store st !! l = Some (mkObject (OArray es) false) ->
        exists st',
          (o <- getBinding x ;; push o w) st
          = (Normal (num (Z.of_nat (length es) + 1)), st')
          /\ bindingOf st' x = Some (mkBinding KConst (Some v))
          /\ store st' !! l = Some (mkObject (OArray (es ++ [w])) false))
  /\ (forall ps, store st !! l = Some (mkObject (OProps ps) true) ->
        (o <- getBinding x ;; setProp o k w) st = (Normal w, st))
  /\ (forall es, store st !! l = Some (mkObject (OArray es) true) ->
        exists msg, (o <- getBinding x ;; push o w) st
                    = (Thrown (mkError TypeError msg), st))
  /\ output Round2.q2_const_reassignment
     = [[DString (nl ++ "--- Q2: Const & Reassignment ---")];
        [DString "Q2.1:";
         DArray [DNumber (Num.of_int 1); DNumber (Num.of_int 2);
                 DNumber (Num.of_int 3); DNumber (Num.of_int 4)]];
        [DString "Q2.2 Error:"; DString "Assignment to constant variable."]]
  /\ output VariableBasics.exercise4_const_objects
     = [[DString (nl ++ "--- Exercise 4: Const Objects ---")];
        [DString "Mutated const object:"; DObject [("lang", DString "Python")]];
        [DString "Error re-assigning const object:";
         DString "Assignment to constant variable."]]
  /\ output Assignment.case4_non_writable
     = [[DString (nl ++ "--- Case 4: Assignment to Non-Writable ---")];
        [DString "Error assigning to const:"; DString "Assignment to constant variable."]].
Proof.
  intros Hb ->.
  pose proof (getBinding_value st x KConst (VObject l) Hb) as Hget.
  split; [eapply assign_const, Hb |].
  split.
  { intros ps Hl. exists (putObject l (OProps (propSet k w ps)) st).
    split; [unfold bind; rewrite Hget; cbv beta iota; apply setProp_object, Hl |].
    split; [exact Hb |].
    unfold bind.
    rewrite (getBinding_value (putObject l (OProps (propSet k w ps)) st) x KConst
               (VObject l) Hb).
    cbv beta iota.
    rewrite (getProp_object _ l (propSet k w ps) false).
    - rewrite propLookup_propSet_eq. reflexivity.
    - apply (store_putObject_eq _ _ _ _ Hl). }
  split.
  { intros es Hl. exists (putObject l (OArray (es ++ [w])) st).
    split; [unfold bind; rewrite Hget; cbv beta iota; unfold push; rewrite Hl; reflexivity |].
    split; [exact Hb |]. apply (store_putObject_eq _ _ _ _ Hl). }
  split.
  { intros ps Hl. unfold bind. rewrite Hget. cbv beta iota. eapply setProp_frozen, Hl. }
  split.
  { intros es Hl. eexists. unfold bind. rewrite Hget. cbv beta iota. unfold push. rewrite Hl.
    reflexivity. }
  repeat split; vm_compute; reflexivity.
Qed.

Lemma const_reassignment_and_mutation_witness :
  let st := mkState [mkEnv {[ "obj_ex4" := mkBinding KConst (Some (VObject 0)) ]} None]
              0%nat [mkObject (OProps [("lang", str "JS")]) false] [] in
  assign "obj_ex4" (VObject 1) st
  = (Thrown (mkError TypeError "Assignment to constant variable."), st)
  /\ exists st',
       (o <- getBinding "obj_ex4" ;; setProp o "lang" (str "Python")) st
       = (Normal (str "Python"), st')
       /\ (o <- getBinding "obj_ex4" ;; getProp o "lang") st' = (Normal (str "Python"), st').
Proof.
  intros st.
  destruct (const_reassignment_and_mutation st "obj_ex4" "lang" (VObject 0)
              (str "Python") 0 eq_refl eq_refl) as (_ & Hmut & _).
  destruct (const_reassignment_and_mutation st "obj_ex4" "lang" (VObject 0)
              (VObject 1) 0 eq_refl eq_refl) as (Hassign & _).
  split; [exact Hassign |].
  destruct (Hmut [("lang", str "JS")] eq_refl) as (st' & Hset & _ & Hread).
  exists st'. split; [exact Hset | exact Hread].
Defined.

(** The claim as the specification has it lets every write to a property
    of an object behind a const binding succeed.  In Q10 of the same
    script the object is frozen before the second write: the write of
    "ECMAScript" is ignored, and "Q10.2" prints the name "JavaScript"
    again. *)
Lemma write_to_frozen_const_object_is_ignored :
  output Round2.q10_const_object_mutability
  = [[DString (nl ++ "--- Q10: const Object Mutability ---")];
     [DString "Q10.1:"; DObject [("name", DString "JavaScript")]];
     [DString "Q10.2:"; DObject [("name", DString "JavaScript")]]]
  /\ String.eqb "JavaScript" "ECMAScript" = false.
Proof. split; vm_compute; reflexivity. Qed.

(** ** Logical operators *)

(** C6.  [a || b] is [a] when [a] is truthy and [b] otherwise; [a && b]
    is [a] when [a] is falsy and [b] otherwise.  The right operand is a
    computation that runs only when the left value does not decide: when
    it does, the result and the state are those of the left operand
    alone, whatever the right operand would do.  The script prints no
    line of expensiveOperation, log(0) && log(1) calls log once, and
    a() || b() calls both. *)
Theorem logical_operators_short_circuit (ea eb : M value) (st st' : state)
    (a b : value) :
  ea st = (Normal a, st') ->
  or_ ea eb st = (if toBoolean a then (Normal a, st') else eb st')
  /\ and_ ea eb st = (if toBoolean a then eb st' else (Normal a, st'))
  /\ or_ (ret a) (ret b) st = (Normal (if toBoolean a then a else b), st)
  /\ and_ (ret a) (ret b) st = (Normal (if toBoolean a then b else a), st)
  /\ output LogicalOperators.short_circuiting
     = [[DString (nl ++ "--- 4. Short-Circuiting ---")];
        [DString "true || expensiveOperation(): The second part is never evaluated."];
        [DString "false && expensiveOperation(): The second part is never evaluated."]]
  /\ output LogicalOperators.or_and_operators
     = [[DString (nl ++ "--- 1. OR ( || ) Operator ---")];
        [DString (dq ++ "hello" ++ dq ++ " || " ++ dq ++ "world" ++ dq ++ " ->");
         DString "hello"];
        [DString (dq ++ dq ++ " || " ++ dq ++ "fallback" ++ dq ++ " ->");
         DString "fallback"];
        [DString "0 || null || 'ok' ->"; DString "ok"];
        [DString "0 || null || undefined ->"; DUndefined];
        [DString (nl ++ "--- 2. AND ( && ) Operator ---")];
        [DString (dq ++ "hello" ++ dq ++ " && " ++ dq ++ "world" ++ dq ++ " ->");
         DString "world"];
        [DString "0 && 'ignored' ->"; DNumber (Num.of_int 0)];
        [DString "42 && true && 'ok' ->"; DString "ok"]]
  /\ output LogicalOperators.case2_short_circuit_calls
     = [[DString (nl ++ "--- Case 2: Short-circuiting function calls ---")];
        [DString "   (log function called with: 0)"];
        [DString "Result of log(0) && log(1):"; DNumber (Num.of_int 0)];
        [DString "   (log function called with: 1)"];
        [DString "Result of log(1) || log(2):"; DNumber (Num.of_int 1)]]
  /\ output LogicalOperators.q5_a_or_b
     = [[DString "Q5: a() || b()"]; [DString "   (A was called)"];
        [DString "   (B was called)"]]
  /\ result LogicalOperators.q5_a_or_b = Normal VUndefined.
Proof.
  intros Ha.
  split; [unfold or_, bind; rewrite Ha; destruct (toBoolean a); reflexivity |].
  split; [unfold and_, bind; rewrite Ha; destruct (toBoolean a); reflexivity |].
  split; [unfold or_, bind, ret; destruct (toBoolean a); reflexivity |].
  split; [unfold and_, bind, ret; destruct (toBoolean a); reflexivity |].
  repeat split; vm_compute; reflexivity.
Qed.

Lemma logical_operators_short_circuit_witness :
  or_ (ret (VBool true))
      (call "expensiveOperation" LogicalOperators.expensiveOperation) initialState
  = (Normal (VBool true), initialState)
  /\ and_ (ret (VBool false))
          (call "expensiveOperation" LogicalOperators.expensiveOperation) initialState
     = (Normal (VBool false), initialState).
Proof.
  destruct (logical_operators_short_circuit (ret (VBool true))
              (call "expensiveOperation" LogicalOperators.expensiveOperation)
              initialState initialState (VBool true) VUndefined eq_refl)
    as (Hor & _).
  destruct (logical_operators_short_circuit (ret (VBool false))
              (call "expensiveOperation" LogicalOperators.expensiveOperation)
              initialState initialState (VBool false) VUndefined eq_refl)
    as (_ & Hand & _).
  split; [exact Hor | exact Hand].
Defined.

(** ** Conversions and equality *)

Section ConversionFacts.

Lemma toString_empty_array (h : heap) (l : nat) (fr : bool) :
  h !! l = Some (mkObject (OArray []) fr) -> Conv.toString h (VObject l) = Some "".
Proof. intros Hl. unfold Conv.toString. simpl. rewrite Hl. reflexivity. Qed.

Lemma toString_null_array (h : heap) (l : nat) (fr : bool) :
  h !! l = Some (mkObject (OArray [VNull]) fr) -> Conv.toString h (VObject l) = Some "".
Proof. intros Hl. unfold Conv.toString. simpl. rewrite Hl. reflexivity. Qed.

(** Values of one type compare without conversion. *)
Lemma looseEq_same_type (h : heap) (a b : value) :
  typeOf a = typeOf b -> looseEq h a b = Some (strictEq a b).
Proof.
  intros Ht. unfold looseEq. simpl. rewrite Ht.
  destruct (typeOf b); reflexivity.
Qed.

(** Values of different types are never strictly equal. *)
Lemma strictEq_different_types (x y : value) :
  typeOf x <> typeOf y -> strictEq x y = false.
Proof. destruct x, y; simpl; intros H; try reflexivity; congruence. Qed.

End ConversionFacts.

(** C4.  ToNumber, which Number() and the numeric operators apply, gives
    42 for "42", 0 for the empty string, NaN for "foo", 1 for true, 0 for
    false and for null, NaN for undefined; an empty array converts to the
    empty string first and so to 0.  The script prints these values. *)
Theorem number_conversion (h : heap) (l : nat) (fr : bool) (st : state) (v : value) :
  h !! l = Some (mkObject (OArray []) fr) ->
  Conv.toNumber h (VString "42") = Some (Num.of_int 42)
  /\ Conv.toNumber h (VString "") = Some Num.zero
  /\ Conv.toNumber h (VString "foo") = Some Num.NaN
  /\ Conv.toNumber h (VBool true) = Some (Num.of_int 1)
  /\ Conv.toNumber h (VBool false) = Some Num.zero
  /\ Conv.toNumber h VNull = Some Num.zero
  /\ Conv.toNumber h VUndefined = Some Num.NaN
  /\ Conv.toPrimitive h (VObject l) = Some (VString "")
  /\ Conv.toNumber h (VObject l) = Some Num.zero
  /\ Number v st
     = match Conv.toNumber (store st) v with
       | Some n => (Normal (VNumber n), st)
       | None => (Unsupported, st)
       end
  /\ numeric1 Num.bitNot v st
     = match Conv.toNumber (store st) v with
       | Some n => (Normal (VNumber (Num.bitNot n)), st)
       | None => (Unsupported, st)
       end
  /\ output NumberPrimitive.type_conversion_to_number
     = [[DString (nl ++ "--- Type Conversion to Number ---")];
        [DString ("Number(" ++ dq ++ "42" ++ dq ++ "):"); DNumber (Num.of_int 42)];
        [DString ("Number(" ++ dq ++ dq ++ "):"); DNumber Num.zero];
        [DString ("Number(" ++ dq ++ "foo" ++ dq ++ "):"); DNumber Num.NaN];
        [DString "Number(true):"; DNumber (Num.of_int 1)];
        [DString "Number(false):"; DNumber Num.zero];
        [DString "Number(null):"; DNumber Num.zero];
        [DString "Number(undefined):"; DNumber Num.NaN]]
  /\ result TypeConversion.toNumber_table
     = Normal [VNumber Num.zero; VNumber Num.NaN; VNumber Num.zero;
               VNumber (Num.of_int 123); VNumber Num.NaN; VNumber Num.zero;
               VNumber (Num.of_int 1); VNumber Num.NaN; VNumber Num.NaN].
Proof.
  intros Hl.
  assert (Hp : Conv.toPrimitive h (VObject l) = Some (VString "")).
  { unfold Conv.toPrimitive. rewrite (toString_empty_array h l fr Hl). reflexivity. }
  do 7 (split; [vm_compute; reflexivity |]).
  split; [exact Hp |].
  split; [unfold Conv.toNumber; rewrite Hp; reflexivity |].
  split.
  { unfold Number, toNumberM, bind, liftOption.
    destruct (Conv.toNumber (store st) v); reflexivity. }
  split.
  { unfold numeric1, toNumberM, bind, liftOption.
    destruct (Conv.toNumber (store st) v); reflexivity. }
  split; vm_compute; reflexivity.
Qed.

Lemma number_conversion_witness :
  Conv.toNumber [mkObject (OArray []) false] (VObject 0) = Some Num.zero
  /\ Conv.toNumber [mkObject (OArray []) false] (VString "42") = Some (Num.of_int 42).
Proof.
  destruct (number_conversion [mkObject (OArray []) false] 0 false initialState
              VUndefined eq_refl)
    as (H42 & _ & _ & _ & _ & _ & _ & _ & Harr & _).
  split; [exact Harr | exact H42].
Defined.

(** C5.  Strict equality never converts: values of different types are
    not strictly equal, and loose equality of values of one type is
    strict equality.  Loose equality converts operands of different
    types: [] == false, "0" == false, [null] == 0, "42" == 42 and
    null == undefined are true, while [] === false, false === "0" and
    null === undefined are false; null == false is false, and
    NaN === NaN is false. *)
Theorem loose_and_strict_equality (h : heap) (l l1 : nat) (fr fr1 : bool)
    (x y : value) :
  h !! l = Some (mkObject (OArray []) fr) ->
  h !! l1 = Some (mkObject (OArray [VNull]) fr1) ->
  typeOf x <> typeOf y ->
  strictEq x y = false
  /\ (forall a b, typeOf a = typeOf b -> looseEq h a b = Some (strictEq a b))
  /\ looseEq h (VObject l) (VBool false) = Some true
  /\ looseEq h (VString "0") (VBool false) = Some true
  /\ looseEq h (VObject l1) (num 0) = Some true
  /\ looseEq h (VString "42") (num 42) = Some true
  /\ looseEq h VNull VUndefined = Some true
  /\ strictEq (VObject l) (VBool false) = false
  /\ strictEq (VBool false) (VString "0") = false
  /\ strictEq VNull VUndefined = false
  /\ looseEq h VNull (VBool false) = Some false
  /\ strictEq (VNumber Num.NaN) (VNumber Num.NaN) = false
  /\ output TypeConversion.comparison_operators
     = [[DString (nl ++ "--- Comparison Operators ---")];
        [DString ("0 === " ++ dq ++ "0" ++ dq ++ " ->"); DBool false];
        [DString "NaN === NaN ->"; DBool false];
        [DString "null == undefined ->"; DBool true];
        [DString (dq ++ "42" ++ dq ++ " == 42 ->"); DBool true];
        [DString "true == 1 ->"; DBool true];
        [DString "[] == 0 ->"; DBool true];
        [DString "[] == false ->"; DBool true];
        [DString (dq ++ "2" ++ dq ++ " < " ++ dq ++ "12" ++ dq ++ " ->"); DBool false];
        [DString (dq ++ "2" ++ dq ++ " < 12 ->"); DBool true]]
  /\ output TypeConversion.comparison_brain_benders
     = [[DString (nl ++ "--- Comparison Brain-Benders with Solutions ---")];
        [DString "Q1.1: null == undefined ->"; DBool true];
        [DString "Q1.2: null === undefined ->"; DBool false];
        [DString "Q2.1: [] == 0 ->"; DBool true];
        [DString "Q2.2: [] == false ->"; DBool true];
        [DString "Q2.3: [null] == 0 ->"; DBool true];
        [DString ("Q3: " ++ dq ++ "2" ++ dq ++ " < " ++ dq ++ "12" ++ dq ++ " ->");
         DBool false];
        [DString ("Q4.1: false == " ++ dq ++ "0" ++ dq ++ " ->"); DBool true];
        [DString ("Q4.2: false === " ++ dq ++ "0" ++ dq ++ " ->"); DBool false];
        [DString "Q5: NaN === NaN ->"; DBool false];
        [DString "   Number.isNaN(NaN) ->"; DBool true];
        [DString "   Object.is(NaN, NaN) ->"; DBool true]]
  /\ output BooleanPrimitive.tricky_loose_equality
     = [[DString (nl ++ "--- Tricky Loose Equality (==) ---")];
        [DString "[] == false is"; DBool true];
        [DString "[] === false is"; DBool false];
        [DString (dq ++ "0" ++ dq ++ " == false is"); DBool true];
        [DString "null == false is"; DBool false]].
Proof.
  intros Hl Hl1 Ht.
  split; [apply strictEq_different_types, Ht |].
  split; [apply looseEq_same_type |].
  split.
  { unfold looseEq. simpl. unfold Conv.toPrimitive.
    rewrite (toString_empty_array h l fr Hl). reflexivity. }
  split; [vm_compute; reflexivity |].
  split.
  { unfold looseEq. simpl. unfold Conv.toPrimitive.
    rewrite (toString_null_array h l1 fr1 Hl1). reflexivity. }
  repeat split; vm_compute; reflexivity.
Qed.

Lemma loose_and_strict_equality_witness :
  strictEq (VBool false) (VString "0") = false
  /\ looseEq [mkObject (OArray []) false; mkObject (OArray [VNull]) false]
             (VObject 0) (VBool false) = Some true
  /\ looseEq [mkObject (OArray []) false; mkObject (OArray [VNull]) false]
             (VObject 1) (num 0) = Some true.
Proof.
  destruct (loose_and_strict_equality
              [mkObject (OArray []) false; mkObject (OArray [VNull]) false]
              0 1 false false (VBool false) (VString "0") eq_refl eq_refl
              ltac:(discriminate))
    as (Hstrict & _ & Hempty & _ & Hnull & _).
  split; [exact Hstrict |]. split; [exact Hempty | exact Hnull].
Defined.

(** ** Rest properties in destructuring *)

Section RestFacts.

(** The rest object holds the properties whose keys the pattern did not
    name. *)
Lemma objectRest_object (st : state) (l : nat) (ps : list (string * value))
    (fr : bool) (named : list string) :
  store st !! l = Some (mkObject (OProps ps) fr) ->
  objectRest (VObject l) named st
  = (Normal (VObject (length (store st))),
     setStore (store st
               ++ [mkObject
                     (OProps (List.filter
                                (fun kv => negb (existsb (String.eqb (fst kv)) named))
                                ps)) false])%list st).
Proof. intros Hl. unfold objectRest, alloc. simpl. rewrite Hl. reflexivity. Qed.

(** When the pattern names no key of the object, the rest is a copy of
    all of it. *)
Lemma rest_of_unnamed_keys (ps : list (string * value)) (named : list string) :
  (forall k, k ∈ named -> k ∉ (fst <$> ps)) ->
  List.filter (fun kv => negb (existsb (String.eqb (fst kv)) named)) ps = ps.
Proof.
  intros Hnone. induction ps as [| [k v] ps IH]; simpl; [reflexivity |].
  assert (Hk : existsb (String.eqb k) named = false).
  { apply not_true_is_false. intros Hex. apply existsb_exists in Hex as (k' & Hin & Heq).
    apply String.eqb_eq in Heq. subst k'.
    apply (Hnone k); [apply list_elem_of_In, Hin | simpl; apply list_elem_of_here]. }
  rewrite Hk. simpl. f_equal. apply IH. intros k' Hin Hps.
  apply (Hnone k' Hin). simpl. apply list_elem_of_further, Hps.
Qed.

End RestFacts.

(** C1.  The statement of line 228 names the key x_s5, which the object
    { x: 1, y: 2, z: 3 } does not have: x_s5 is undefined, the rest
    leaves nothing out, and line 229 prints { x: 1, y: 2, z: 3 }, not the
    { y: 2, z: 3 } of its comment.  The sibling statements, which name the
    key and the variable apart ({ a: a_s2, ...rest_s2 }), print what
    their comments say. *)
Theorem rest_s5_holds_every_property :
  output Destructuring.ignoring_values
  = [[DString (nl ++ "--- 5. Ignoring Values ---")];
     [DString "Ignoring with commas [a, , b]:"; DString "a=1, b=3"];
     [DString "Ignoring with rest operator {...rest}:";
      DObject [("x", DNumber (Num.of_int 1)); ("y", DNumber (Num.of_int 2));
               ("z", DNumber (Num.of_int 3))]]]
  /\ showBinding (finalState Destructuring.ignoring_values) "rest_s5"
     <> Some Destructuring.annotated_rest_s5
  /\ showBinding (finalState Destructuring.ignoring_values) "x_s5" = Some DUndefined
  /\ output SpreadRest.rest_operator
     = [[DString "Rest in object destructuring:";
         DObject [("b", DNumber (Num.of_int 20)); ("c", DNumber (Num.of_int 30))]];
        [DString "Rest in array destructuring:";
         DArray [DNumber (Num.of_int 20); DNumber (Num.of_int 30);
                 DNumber (Num.of_int 40)]]]
  /\ output AdvancedSpread.destructuring_with_rest
     = [[DString (nl ++ "--- 5. Destructuring with Rest ---")];
        [DString "Rest of object properties:";
         DObject [("b", DNumber (Num.of_int 2)); ("c", DNumber (Num.of_int 3))]];
        [DString "Rest of array elements:";
         DArray [DNumber (Num.of_int 20); DNumber (Num.of_int 30)]]].
Proof.
  split; [vm_compute; reflexivity |].
  split; [vm_compute; intros H; discriminate H |].
  repeat split; vm_compute; reflexivity.
Qed.

(** ** Number literals and the totality of loose equality *)

(** The decimal literals of the scripts denote the binary64 values the
    kernel's own floating-point numbers give them. *)
Lemma decimal_literals_are_binary64 :
  Prim2SF 4.9%float = Num.of_decimal 49 1
  /\ Prim2SF (-4.9)%float = Num.of_decimal (-49) 1
  /\ Prim2SF 3.7%float = Num.of_decimal 37 1
  /\ Prim2SF (-3.7)%float = Num.of_decimal (-37) 1
  /\ Prim2SF 3.14%float = Num.of_decimal 314 2
  /\ Prim2SF 3.1415%float = Num.of_decimal 31415 4
  /\ Prim2SF 42%float = Num.of_int 42
  /\ Prim2SF 4294967291%float = Num.of_int 4294967291
  /\ Prim2SF 9999999999999999%float = Num.of_int 9999999999999999.
Proof. repeat split; vm_compute; reflexivity. Qed.

(** Loose equality gives an answer whenever the conversion of its object
    operands to primitives does: the fuel of [looseEq] is enough. *)
Lemma looseEq_total (h : heap) (x y : value) :
  (forall l, x = VObject l \/ y = VObject l -> is_Some (Conv.toString h (VObject l))) ->
  is_Some (looseEq h x y).
Proof.
  intros Hprim. unfold looseEq.
  destruct x as [| | bx | nx | sx | lx], y as [| | b2 | ny | sy | ly];
    try (simpl; eexists; reflexivity).
  - destruct (Hprim ly (or_intror eq_refl)) as [s Hs].
    simpl. unfold Conv.toPrimitive. rewrite Hs. simpl. eexists; reflexivity.
  - destruct (Hprim ly (or_intror eq_refl)) as [s Hs].
    simpl. unfold Conv.toPrimitive. rewrite Hs. simpl. eexists; reflexivity.
  - destruct (Hprim ly (or_intror eq_refl)) as [s Hs].
    simpl. unfold Conv.toPrimitive. rewrite Hs. simpl. eexists; reflexivity.
  - destruct (Hprim lx (or_introl eq_refl)) as [s Hs].
    simpl. unfold Conv.toPrimitive. rewrite Hs. simpl. eexists; reflexivity.
  - destruct (Hprim lx (or_introl eq_refl)) as [s Hs].
    simpl. unfold Conv.toPrimitive. rewrite Hs. simpl. eexists; reflexivity.
  - destruct (Hprim lx (or_introl eq_refl)) as [s Hs].
    simpl. unfold Conv.toPrimitive. rewrite Hs. simpl. eexists; reflexivity.
Qed.

(** * Further properties *)

(** ** Masks, parity and the XOR swap *)

Section MaskFacts.

Import Num.

Lemma wrap32_mod_pow2 (z k : Z) : 0 <= k <= 32 -> wrap32 z mod 2 ^ k = z mod 2 ^ k.
Proof.
  intros Hk.
  assert (Hd : 2 ^ 32 = 2 ^ (32 - k) * 2 ^ k)
    by (rewrite <- Z.pow_add_r by lia; f_equal; lia).
  assert (Hpos : 0 < 2 ^ k) by (apply Z.pow_pos_nonneg; lia).
  assert (Hm : (z mod 2 ^ 32) mod 2 ^ k = z mod 2 ^ k).
  { apply Z.mod_mod_divide. exists (2 ^ (32 - k)). exact Hd. }
  unfold wrap32. cbv zeta.
  destruct (Z.leb_spec (2 ^ 31) (z mod 2 ^ 32)); [| exact Hm].
  rewrite <- Hm. rewrite Hd.
  replace (z mod (2 ^ (32 - k) * 2 ^ k) - 2 ^ (32 - k) * 2 ^ k)
    with (z mod (2 ^ (32 - k) * 2 ^ k) + (- 2 ^ (32 - k)) * 2 ^ k) by lia.
  apply Z_mod_plus_full.
Qed.

Lemma toInt32_of_safe_int (z : Z) : Z.abs z < 2 ^ 53 -> toInt32 (of_int z) = wrap32 z.
Proof.
  intros Hs. destruct (Z.eq_dec z 0) as [-> | Hnz]; [reflexivity |].
  destruct (of_int_finite z Hs Hnz) as (s & m & e & Heq).
  pose proof (truncate_of_int z Hs) as Ht. rewrite Heq in Ht |- *.
  unfold toInt32. rewrite Ht. reflexivity.
Qed.

Lemma toUint32_of_safe_int (z : Z) : Z.abs z < 2 ^ 53 -> toUint32 (of_int z) = z mod 2 ^ 32.
Proof.
  intros Hs. destruct (Z.eq_dec z 0) as [-> | Hnz]; [reflexivity |].
  destruct (of_int_finite z Hs Hnz) as (s & m & e & Heq).
  pose proof (truncate_of_int z Hs) as Ht. rewrite Heq in Ht |- *.
  unfold toUint32. rewrite Ht. reflexivity.
Qed.

(** A mask of [k] low bits keeps the value modulo 2^k. *)
Lemma bitAnd_ones (n k : Z) :
  Z.abs n < 2 ^ 53 -> 0 <= k <= 31 ->
  bitAnd (of_int n) (of_int (Z.ones k)) = of_int (n mod 2 ^ k).
Proof.
  intros Hn Hk. unfold bitAnd.
  assert (Hp : 0 < 2 ^ k) by (apply Z.pow_pos_nonneg; lia).
  assert (Hle : 2 ^ k <= 2 ^ 31) by (apply Z.pow_le_mono_r; lia).
  rewrite toInt32_of_safe_int by exact Hn.
  rewrite (toInt32_of_int (Z.ones k)) by (rewrite Z.ones_equiv; lia).
  rewrite Z.land_ones by lia. rewrite wrap32_mod_pow2 by lia. reflexivity.
Qed.

Lemma testbit_wrap32 (p i : Z) : 0 <= i < 32 -> Z.testbit (wrap32 p) i = Z.testbit p i.
Proof.
  intros Hi.
  rewrite <- (Z.mod_pow2_bits_low (wrap32 p) 32 i) by lia.
  rewrite wrap32_mod_pow2 by lia.
  apply Z.mod_pow2_bits_low. lia.
Qed.

Lemma land_pow2 (p i : Z) :
  0 <= i -> Z.land p (2 ^ i) = if Z.testbit p i then 2 ^ i else 0.
Proof.
  intros Hi. apply Z.bits_inj'. intros n Hn.
  rewrite Z.land_spec, Z.pow2_bits_eqb by lia.
  destruct (Z.eqb_spec i n) as [-> | Hne].
  - destruct (Z.testbit p n); simpl.
    + rewrite Z.pow2_bits_true by lia. reflexivity.
    + rewrite Z.bits_0. reflexivity.
  - rewrite andb_false_r. destruct (Z.testbit p i).
    + rewrite Z.pow2_bits_false by lia. reflexivity.
    + rewrite Z.bits_0. reflexivity.
Qed.

Lemma of_int_positive (z : Z) :
  0 < z < 2 ^ 53 -> exists m e, of_int z = S754_finite false m e.
Proof.
  intros Hz. destruct z as [| p | p]; try lia.
  assert (Hb : bits p <= 53) by (apply bits_bound; lia).
  unfold of_int, prec. rewrite (proj2 (Z.leb_le _ _) Hb). eauto.
Qed.

Lemma lxor_bound (a b n : Z) :
  0 <= n -> 0 <= a < 2 ^ n -> 0 <= b < 2 ^ n -> 0 <= Z.lxor a b < 2 ^ n.
Proof.
  intros Hn Ha Hb.
  assert (H0 : 0 <= Z.lxor a b) by (apply Z.lxor_nonneg; lia).
  split; [exact H0 |].
  destruct (Z.eq_dec (Z.lxor a b) 0) as [-> | Hnz];
    [apply Z.pow_pos_nonneg; lia |].
  apply Z.log2_lt_pow2; [lia |].
  pose proof (Z.log2_lxor a b (proj1 Ha) (proj1 Hb)) as Hl.
  assert (Hla : a = 0 \/ Z.log2 a < n).
  { destruct (Z.eq_dec a 0); [left; assumption | right; apply Z.log2_lt_pow2; lia]. }
  assert (Hlb : b = 0 \/ Z.log2 b < n).
  { destruct (Z.eq_dec b 0); [left; assumption | right; apply Z.log2_lt_pow2; lia]. }
  assert (Hn0 : 0 < n).
  { destruct (Z.eq_dec n 0) as [-> | ]; [| lia].
    assert (a = 0) by (change (2 ^ 0) with 1 in Ha; lia).
    assert (b = 0) by (change (2 ^ 0) with 1 in Hb; lia).
    subst. rewrite Z.lxor_0_l in Hnz. congruence. }
  destruct Hla as [-> | Hla], Hlb as [-> | Hlb];
    change (Z.log2 0) with 0 in Hl; lia.
Qed.

(** The exclusive or of two signed 32-bit integers is one. *)
Lemma lxor_range (a b : Z) :
  - 2 ^ 31 <= a < 2 ^ 31 -> - 2 ^ 31 <= b < 2 ^ 31 ->
  - 2 ^ 31 <= Z.lxor a b < 2 ^ 31.
Proof.
  intros Ha Hb.
  assert (Hna : a < 0 -> a = Z.lnot (Z.lnot a) /\ 0 <= Z.lnot a < 2 ^ 31).
  { intros H. rewrite Z.lnot_involutive. split; [reflexivity |].
    unfold Z.lnot. rewrite <- Z.sub_1_r. lia. }
  assert (Hnb : b < 0 -> b = Z.lnot (Z.lnot b) /\ 0 <= Z.lnot b < 2 ^ 31).
  { intros H. rewrite Z.lnot_involutive. split; [reflexivity |].
    unfold Z.lnot. rewrite <- Z.sub_1_r. lia. }
  destruct (Z.ltb_spec a 0) as [Han | Hap], (Z.ltb_spec b 0) as [Hbn | Hbp].
  - destruct (Hna Han) as [Ea Ra], (Hnb Hbn) as [Eb Rb].
    rewrite Ea, Eb, Z.lxor_lnot_lnot.
    pose proof (lxor_bound (Z.lnot a) (Z.lnot b) 31 ltac:(lia) Ra Rb). lia.
  - destruct (Hna Han) as [Ea Ra].
    rewrite Ea, <- Z.lnot_lxor_l.
    pose proof (lxor_bound (Z.lnot a) b 31 ltac:(lia) Ra ltac:(lia)) as H.
    unfold Z.lnot at 1 3. rewrite <- !Z.sub_1_r. lia.
  - destruct (Hnb Hbn) as [Eb Rb].
    rewrite Eb, <- Z.lnot_lxor_r.
    pose proof (lxor_bound a (Z.lnot b) 31 ltac:(lia) ltac:(lia) Rb) as H.
    unfold Z.lnot at 1 3. rewrite <- !Z.sub_1_r. lia.
  - pose proof (lxor_bound a b 31 ltac:(lia) ltac:(lia) ltac:(lia)). lia.
Qed.

Lemma bitXor_of_int (x y : Z) :
  - 2 ^ 31 <= x < 2 ^ 31 -> - 2 ^ 31 <= y < 2 ^ 31 ->
  bitXor (of_int x) (of_int y) = of_int (Z.lxor x y).
Proof.
  intros Hx Hy. unfold bitXor. rewrite !toInt32_of_int by assumption. reflexivity.
Qed.

End MaskFacts.

(** ** Running statements on an arbitrary state *)

Section ExecutionFacts.

Lemma numeric2_numbers f (x y : Num.number) (st : state) :
  numeric2 f (VNumber x) (VNumber y) st = (Normal (VNumber (f x y)), st).
Proof. reflexivity. Qed.

(** A computation that ends normally hands its result and state on. *)
Lemma bind_run {A B} (c : M A) (k : A -> M B) (st : state) (a : A) (st' : state) :
  c st = (Normal a, st') -> bind c k st = k a st'.
Proof. intros H. unfold bind. rewrite H. reflexivity. Qed.

Lemma bind_thrown {A B} (c : M A) (k : A -> M B) (st : state) (e : error) (st' : state) :
  c st = (Thrown e, st') -> bind c k st = (Thrown e, st').
Proof. intros H. unfold bind. rewrite H. reflexivity. Qed.

Lemma exprStmt_run (e : M value) (st : state) (v : value) (st' : state) :
  e st = (Normal v, st') -> exprStmt e st = (Normal (), st').
Proof. intros H. unfold exprStmt. rewrite (bind_run _ _ _ _ _ H). reflexivity. Qed.

Lemma bindingOf_frame (st st' : state) (x : string) :
  envs st' = envs st -> cur st' = cur st -> bindingOf st' x = bindingOf st x.
Proof.
  intros He Hc. unfold bindingOf, lookupBinding. rewrite He, Hc. reflexivity.
Qed.

(** An assignment to an initialized binding that is not a constant
    stores the value there and changes nothing else. *)
Lemma assign_mutable (st : state) (x : string) (k : bindingKind) (v w : value) :
  bindingOf st x = Some (mkBinding k (Some v)) -> k <> KConst ->
  exists st', assign x w st = (Normal w, st')
              /\ bindingOf st' x = Some (mkBinding k (Some w))
              /\ (forall y, y <> x -> bindingOf st' y = bindingOf st y)
              /\ store st' = store st /\ console st' = console st
              /\ cur st' = cur st.
Proof.
  unfold bindingOf at 1, assign.
  destruct (lookupBinding st x) as [[e b] |] eqn:Hl; simpl; [| discriminate].
  intros [= ->] Hk. simpl.
  exists (putBinding e x (mkBinding k (Some w)) st).
  split; [destruct k; congruence || reflexivity |].
  split; [eapply bindingOf_putBinding_same; exact Hl |].
  split; [intros y Hy; apply bindingOf_putBinding_ne; exact Hy |].
  repeat split; reflexivity.
Qed.

End ExecutionFacts.

(** X1.  [n & 1] is the parity of n: for every integer n below 2^53 in
    magnitude the expression is n modulo 2, so [n & 1 ? "odd" : "even"]
    names the parity, for negative n and for n outside the 32-bit range
    as well.  The section prints 1, 0, odd, even. *)
Theorem and_one_is_parity (n : Z) (st : state) :
  Z.abs n < 2 ^ 53 ->
  bitAnd (num n) (num 1) st = (Normal (num (n mod 2)), st) /\
  BitTricks.parity (num n) st
    = (Normal (str (if Z.odd n then "odd" else "even")), st) /\
  output BitTricks.even_odd_check =
    [[DString (nl ++ "--- 2. Bitwise AND (& 1) for Even/Odd Check ---")];
     [DString "5 & 1 (is 1, so odd) ->"; DNumber (Num.of_int 1)];
     [DString "8 & 1 (is 0, so even) ->"; DNumber (Num.of_int 0)];
     [DString "odd"]; [DString "even"]].
Proof.
  intros Hn.
  pose proof (bitAnd_ones n 1 Hn ltac:(lia)) as Hand.
  change (Z.ones 1) with 1 in Hand. change (2 ^ 1) with 2 in Hand.
  assert (Hb : bitAnd (num n) (num 1) st = (Normal (num (n mod 2)), st)).
  { unfold bitAnd, num. rewrite numeric2_numbers, Hand. reflexivity. }
  split; [exact Hb |]. split; [| vm_compute; reflexivity].
  unfold BitTricks.parity, bind. rewrite Hb. cbv beta iota.
  rewrite Zmod_odd. destruct (Z.odd n); reflexivity.
Qed.

Lemma and_one_is_parity_witness :
  bitAnd (num (-7)) (num 1) initialState = (Normal (num ((-7) mod 2)), initialState) /\
  BitTricks.parity (num (-7)) initialState
    = (Normal (str (if Z.odd (-7) then "odd" else "even")), initialState) /\
  output BitTricks.even_odd_check =
    [[DString (nl ++ "--- 2. Bitwise AND (& 1) for Even/Odd Check ---")];
     [DString "5 & 1 (is 1, so odd) ->"; DNumber (Num.of_int 1)];
     [DString "8 & 1 (is 0, so even) ->"; DNumber (Num.of_int 0)];
     [DString "odd"]; [DString "even"]].
Proof. apply (and_one_is_parity (-7) initialState). reflexivity. Defined.

(** X2.  Masks.  [n & m] with m the mask of the k low bits (k at most 31,
    0b1111 for k = 4) is n modulo 2^k, and [(p & f) > 0] with f the single
    bit 2^i (i below 31) is true exactly when bit i of p is set.  Bit 2 of
    0b1011 is not set: the section prints false for the read permission,
    and 11 for 123 under the mask 0b1111. *)
Theorem masks_extract_bits (n k p i : Z) (st : state) :
  Z.abs n < 2 ^ 53 -> 0 <= k <= 31 -> Z.abs p < 2 ^ 53 -> 0 <= i < 31 ->
  bitAnd (num n) (num (Z.ones k)) st = (Normal (num (n mod 2 ^ k)), st) /\
  BitTricks.flagSet (num p) (num (2 ^ i)) st = (Normal (VBool (Z.testbit p i)), st) /\
  output BitTricks.bit_masking =
    [[DString (nl ++ "--- 5. Bit Masking with AND (&) ---")];
     [DString "Has read permission?"; DBool false];
     [DString "123 & mask (binary 1111011 & 00001111) ->"; DNumber (Num.of_int 11)]].
Proof.
  intros Hn Hk Hp Hi.
  split; [| split; [| vm_compute; reflexivity]].
  - unfold bitAnd, num. rewrite numeric2_numbers, bitAnd_ones by assumption. reflexivity.
  - assert (Hlt : 0 < 2 ^ i < 2 ^ 31).
    { split; [apply Z.pow_pos_nonneg; lia | apply Z.pow_lt_mono_r; lia]. }
    unfold BitTricks.flagSet, bind, bitAnd, num. rewrite numeric2_numbers.
    cbv beta iota. unfold Num.bitAnd.
    rewrite toInt32_of_safe_int by exact Hp.
    rewrite (toInt32_of_int (2 ^ i)) by lia.
    rewrite land_pow2 by lia. rewrite testbit_wrap32 by lia.
    unfold greaterThan, lessThan. simpl Conv.toPrimitive. cbv beta iota.
    simpl Conv.toNumber. cbv beta iota.
    destruct (Z.testbit p i).
    + destruct (of_int_positive (2 ^ i) ltac:(lia)) as (m & e & ->). reflexivity.
    + reflexivity.
Qed.

Lemma masks_extract_bits_witness :
  bitAnd (num 123) (num (Z.ones 4)) initialState
    = (Normal (num (123 mod 2 ^ 4)), initialState) /\
  BitTricks.flagSet (num 11) (num (2 ^ 2)) initialState
    = (Normal (VBool (Z.testbit 11 2)), initialState) /\
  output BitTricks.bit_masking =
    [[DString (nl ++ "--- 5. Bit Masking with AND (&) ---")];
     [DString "Has read permission?"; DBool false];
     [DString "123 & mask (binary 1111011 & 00001111) ->"; DNumber (Num.of_int 11)]].
Proof.
  apply (masks_extract_bits 123 4 11 2 initialState); [reflexivity | lia | reflexivity | lia].
Defined.

(** X3.  The XOR swap.  In any state where a and b are initialized,
    assignable bindings holding signed 32-bit integers x and y, the three
    statements [a = a ^ b; b = a ^ b; a = a ^ b] end normally with a
    holding y and b holding x; no other binding, the heap and the console
    change.  The section prints 3 5. *)
Theorem xor_swap_exchanges (st : state) (x y : Z) (ka kb : bindingKind) :
  - 2 ^ 31 <= x < 2 ^ 31 -> - 2 ^ 31 <= y < 2 ^ 31 ->
  bindingOf st "a" = Some (mkBinding ka (Some (num x))) ->
  bindingOf st "b" = Some (mkBinding kb (Some (num y))) ->
  ka <> KConst -> kb <> KConst ->
  (exists st', BitTricks.xor_swap_steps st = (Normal (), st')
               /\ bindingOf st' "a" = Some (mkBinding ka (Some (num y)))
               /\ bindingOf st' "b" = Some (mkBinding kb (Some (num x)))
               /\ (forall z, z <> "a" -> z <> "b" -> bindingOf st' z = bindingOf st z)
               /\ store st' = store st /\ console st' = console st) /\
  output BitTricks.xor_swap =
    [[DString (nl ++ "--- 3. XOR (^) Swap Trick ---")];
     [DString "a, b after XOR swap:"; DNumber (Num.of_int 3); DNumber (Num.of_int 5)]].
Proof.
  intros Hx Hy Ha Hb Hka Hkb. split; [| vm_compute; reflexivity].
  pose proof (lxor_range x y Hx Hy) as Hxy.
  (* a = a ^ b *)
  destruct (assign_mutable st "a" ka (num x) (num (Z.lxor x y)) Ha Hka)
    as (st1 & E1 & Ha1 & Ho1 & Hs1 & Hc1 & _).
  assert (Hb1 : bindingOf st1 "b" = Some (mkBinding kb (Some (num y))))
    by (rewrite Ho1 by discriminate; exact Hb).
  (* b = a ^ b *)
  destruct (assign_mutable st1 "b" kb (num y) (num x) Hb1 Hkb)
    as (st2 & E2 & Hb2 & Ho2 & Hs2 & Hc2 & _).
  assert (Ha2 : bindingOf st2 "a" = Some (mkBinding ka (Some (num (Z.lxor x y)))))
    by (rewrite Ho2 by discriminate; exact Ha1).
  (* a = a ^ b *)
  destruct (assign_mutable st2 "a" ka (num (Z.lxor x y)) (num y) Ha2 Hka)
    as (st3 & E3 & Ha3 & Ho3 & Hs3 & Hc3 & _).
  assert (Hb3 : bindingOf st3 "b" = Some (mkBinding kb (Some (num x))))
    by (rewrite Ho3 by discriminate; exact Hb2).
  assert (X1 : Z.lxor (Z.lxor x y) y = x)
    by (rewrite Z.lxor_assoc, Z.lxor_nilpotent, Z.lxor_0_r; reflexivity).
  assert (X2 : Z.lxor (Z.lxor x y) x = y)
    by (rewrite (Z.lxor_comm x y), Z.lxor_assoc, Z.lxor_nilpotent, Z.lxor_0_r; reflexivity).
  assert (N1 : bitXor (num x) (num y) st = (Normal (num (Z.lxor x y)), st))
    by (unfold bitXor, num; rewrite numeric2_numbers, bitXor_of_int by assumption;
        reflexivity).
  assert (N2 : bitXor (num (Z.lxor x y)) (num y) st1 = (Normal (num x), st1))
    by (unfold bitXor, num; rewrite numeric2_numbers, bitXor_of_int, X1 by assumption;
        reflexivity).
  assert (N3 : bitXor (num (Z.lxor x y)) (num x) st2 = (Normal (num y), st2))
    by (unfold bitXor, num; rewrite numeric2_numbers, bitXor_of_int, X2 by assumption;
        reflexivity).
  exists st3. split.
  - unfold BitTricks.xor_swap_steps.
    rewrite (bind_run _ _ _ _ _ (getBinding_value _ _ _ _ Ha)).
    rewrite (bind_run _ _ _ _ _ (getBinding_value _ _ _ _ Hb)).
    rewrite (bind_run _ _ _ _ _ N1).
    rewrite (bind_run _ _ _ _ _ (exprStmt_run _ _ _ _ E1)).
    rewrite (bind_run _ _ _ _ _ (getBinding_value _ _ _ _ Ha1)).
    rewrite (bind_run _ _ _ _ _ (getBinding_value _ _ _ _ Hb1)).
    rewrite (bind_run _ _ _ _ _ N2).
    rewrite (bind_run _ _ _ _ _ (exprStmt_run _ _ _ _ E2)).
    rewrite (bind_run _ _ _ _ _ (getBinding_value _ _ _ _ Ha2)).
    rewrite (bind_run _ _ _ _ _ (getBinding_value _ _ _ _ Hb2)).
    rewrite (bind_run _ _ _ _ _ N3).
    exact (exprStmt_run _ _ _ _ E3).
  - split; [exact Ha3 |]. split; [exact Hb3 |].
    split; [| split; congruence].
    intros z Hza Hzb. rewrite Ho3, Ho2, Ho1 by assumption. reflexivity.
Qed.

Lemma xor_swap_exchanges_witness :
  let st :=
    mkState [mkEnv (list_to_map [("a", mkBinding KLet (Some (num (-9))));
                                 ("b", mkBinding KVar (Some (num 4)))]) None] 0 [] [] in
  (exists st', BitTricks.xor_swap_steps st = (Normal (), st')
               /\ bindingOf st' "a" = Some (mkBinding KLet (Some (num 4)))
               /\ bindingOf st' "b" = Some (mkBinding KVar (Some (num (-9))))
               /\ (forall z, z <> "a" -> z <> "b" -> bindingOf st' z = bindingOf st z)
               /\ store st' = store st /\ console st' = console st) /\
  output BitTricks.xor_swap =
    [[DString (nl ++ "--- 3. XOR (^) Swap Trick ---")];
     [DString "a, b after XOR swap:"; DNumber (Num.of_int 3); DNumber (Num.of_int 5)]].
Proof.
  intros st.
  apply (xor_swap_exchanges st (-9) 4 KLet KVar);
    [lia | lia | reflexivity | reflexivity | discriminate | discriminate].
Defined.

(** X4.  Right shifts of negative numbers.  For every signed 32-bit
    integer n and count k below 32, [n >> k] is floor(n / 2^k), so it keeps
    the sign, and [n >>> k] is floor((n mod 2^32) / 2^k), which is never
    negative: [n >> 0] is n, and [n >>> 0] is n + 2^32 for negative n
    (-5 >>> 0 is 4294967291). *)
Theorem right_shifts_of_signed_integers (n k : Z) (st : state) :
  - 2 ^ 31 <= n < 2 ^ 31 -> 0 <= k < 32 ->
  shiftRight (num n) (num k) st = (Normal (num (n / 2 ^ k)), st) /\
  shiftRightUnsigned (num n) (num k) st = (Normal (num ((n mod 2 ^ 32) / 2 ^ k)), st) /\
  0 <= (n mod 2 ^ 32) / 2 ^ k /\
  (n < 0 -> n mod 2 ^ 32 = n + 2 ^ 32).
Proof.
  intros Hn Hk.
  assert (Hc : Num.toUint32 (Num.of_int k) mod 32 = k)
    by (rewrite toUint32_of_int by lia; apply Z.mod_small; lia).
  split; [| split; [| split]].
  - unfold shiftRight, num. rewrite numeric2_numbers. unfold Num.shiftRight.
    rewrite Hc, toInt32_of_int by exact Hn.
    rewrite Z.shiftr_div_pow2 by lia. reflexivity.
  - unfold shiftRightUnsigned, num. rewrite numeric2_numbers.
    unfold Num.shiftRightUnsigned.
    rewrite Hc, toUint32_of_safe_int by lia.
    rewrite Z.shiftr_div_pow2 by lia. reflexivity.
  - apply Z.div_pos; [apply Z.mod_pos_bound; lia | apply Z.pow_pos_nonneg; lia].
  - intros Hneg. symmetry. apply Z.mod_unique with (q := -1); lia.
Qed.

Lemma right_shifts_of_signed_integers_witness :
  shiftRight (num (-5)) (num 1) initialState = (Normal (num ((-5) / 2 ^ 1)), initialState) /\
  shiftRightUnsigned (num (-5)) (num 1) initialState
    = (Normal (num (((-5) mod 2 ^ 32) / 2 ^ 1)), initialState) /\
  0 <= ((-5) mod 2 ^ 32) / 2 ^ 1 /\
  (-5 < 0 -> (-5) mod 2 ^ 32 = -5 + 2 ^ 32).
Proof. apply (right_shifts_of_signed_integers (-5) 1 initialState); lia. Defined.

(** ** Identity: [===], [Object.is] and NaN *)

Section IdentityFacts.

Lemma SFcompare_refl (x : Num.number) :
  x <> S754_nan -> SFcompare x x = Some Eq.
Proof.
  destruct x as [s | s | | s m e]; intros Hx; try congruence; simpl.
  - reflexivity.
  - destruct s; reflexivity.
  - destruct s; rewrite Z.compare_refl.
    + rewrite Pos.compare_cont_refl. reflexivity.
    + rewrite Pos.compare_cont_refl. reflexivity.
Qed.

Lemma equal_refl (x : Num.number) : Num.equal x x = negb (Num.isNaN x).
Proof.
  destruct x as [s | s | | s m e]; try reflexivity;
    unfold Num.equal, SFeqb; rewrite SFcompare_refl by discriminate; reflexivity.
Qed.

End IdentityFacts.

(** X5.  NaN is the only value that is not strictly equal to itself:
    [v === v] is false exactly when v is NaN, which is also exactly when
    [Number.isNaN(v)] is true, [v == v] agrees with [v === v] on every
    heap, and [Object.is(v, v)] is true for every v.  [Object.is] and
    [===] give different answers only on NaN against NaN and on two
    zeros of different sign.  The section prints false, true, true,
    false. *)
Theorem only_NaN_differs_from_itself (v w : value) (h : heap) :
  (strictEq v v = false <-> v = VNumber Num.NaN) /\
  (Number_isNaN v = VBool true <-> v = VNumber Num.NaN) /\
  looseEq h v v = Some (strictEq v v) /\
  Object_is v v = VBool true /\
  (Object_is v w <> VBool (strictEq v w) <->
   (v = VNumber Num.NaN /\ w = VNumber Num.NaN) \/
   (exists s, v = VNumber (S754_zero s) /\ w = VNumber (S754_zero (negb s)))) /\
  output NumberPitfalls.nan_and_negative_zero =
    [[DString "NaN === NaN is"; DBool false];
     [DString "Number.isNaN(NaN) is"; DBool true];
     [DString "0 === -0 is"; DBool true];
     [DString "Object.is(0, -0) is"; DBool false]].
Proof.
  unfold Num.NaN.
  split; [| split; [| split; [| split; [| split; [| vm_compute; reflexivity]]]]].
  - destruct v as [| | b | n | s | l]; simpl;
      try (split; [discriminate | discriminate]).
    + destruct b; split; discriminate.
    + rewrite equal_refl. destruct n; simpl; split; congruence.
    + rewrite String.eqb_refl. split; discriminate.
    + rewrite Nat.eqb_refl. split; discriminate.
  - destruct v as [| | b | n | s | l]; simpl; try (split; discriminate).
    destruct n; simpl; split; congruence.
  - unfold looseEq. simpl. destruct v; reflexivity.
  - destruct v as [| | b | n | s | l]; simpl; try reflexivity.
    + destruct b; reflexivity.
    + destruct n as [s | s | | s m e]; simpl; try reflexivity;
        try (destruct s; reflexivity).
      f_equal. apply (equal_refl (S754_finite s m e)).
    + rewrite String.eqb_refl. reflexivity.
    + rewrite Nat.eqb_refl. reflexivity.
  - split.
    + intros Hne.
      destruct v as [| | b | [s | s | | s m e] | str | l],
               w as [| | b' | [s' | s' | | s' m' e'] | str' | l'];
        try (exfalso; apply Hne; reflexivity).
      * right. exists s. split; [reflexivity |].
        destruct s, s'; try reflexivity; exfalso; apply Hne; reflexivity.
      * left. split; reflexivity.
    + intros [[-> ->] | (s & -> & ->)]; simpl; [discriminate |].
      destruct s; discriminate.
Qed.

(** ** Merging objects with spread *)

Section MergeFacts.

Implicit Types (ps qs acc : list (string * value)) (k : string).

Lemma propLookup_absent k ps : k ∉ (fst <$> ps) -> propLookup k ps = None.
Proof.
  induction ps as [| [k' v'] ps IH]; simpl; intros Hk; [reflexivity |].
  apply not_elem_of_cons in Hk as [Hne Hk].
  rewrite (proj2 (String.eqb_neq k k')) by exact Hne. apply IH, Hk.
Qed.

(** Defining the properties of [ps] on top of [acc]: a key of [ps] takes
    its value from [ps], any other key keeps the one of [acc]. *)
Lemma merge_lookup ps acc k :
  NoDup (fst <$> ps) ->
  propLookup k (fold_left (fun a kv => propSet (fst kv) (snd kv) a) ps acc)
  = match propLookup k ps with
    | Some v => Some v
    | None => propLookup k acc
    end.
Proof.
  revert acc. induction ps as [| [k0 v0] ps IH]; intros acc Hnd; [reflexivity |].
  apply NoDup_cons in Hnd as [Hk0 Hnd]. simpl.
  rewrite IH by exact Hnd.
  destruct (String.eqb_spec k k0) as [-> | Hne].
  - rewrite propLookup_absent by exact Hk0. apply propLookup_propSet_eq.
  - rewrite propLookup_propSet_ne by congruence. reflexivity.
Qed.

Lemma filter_agree {A} (P Q : A -> Prop) `{forall x, Decision (P x)}
    `{forall x, Decision (Q x)} (l : list A) :
  (forall x, x ∈ l -> P x <-> Q x) -> filter P l = filter Q l.
Proof.
  induction l as [| a l IH]; intros Hpq; [reflexivity |].
  assert (Hl : filter P l = filter Q l).
  { apply IH. intros x Hx. apply Hpq, list_elem_of_further, Hx. }
  destruct (decide (P a)) as [Hp | Hp].
  - rewrite !filter_cons_True; [rewrite Hl; reflexivity | | exact Hp].
    apply Hpq; [apply list_elem_of_here | exact Hp].
  - rewrite !filter_cons_False; [exact Hl | | exact Hp].
    intros Hq. apply Hp. apply Hpq; [apply list_elem_of_here | exact Hq].
Qed.

(** The keys keep the order of [acc]; the new keys of [ps] follow in the
    order of [ps]. *)
Lemma merge_keys ps acc :
  NoDup (fst <$> ps) ->
  fst <$> fold_left (fun a kv => propSet (fst kv) (snd kv) a) ps acc
  = ((fst <$> acc) ++ filter (fun k => k ∉ (fst <$> acc)) (fst <$> ps))%list.
Proof.
  revert acc. induction ps as [| [k0 v0] ps IH]; intros acc Hnd.
  - simpl. rewrite app_nil_r. reflexivity.
  - apply NoDup_cons in Hnd as [Hk0 Hnd]. simpl fold_left. rewrite IH by exact Hnd.
    rewrite propSet_keys. simpl fst. csimpl. case_bool_decide as Hin.
    + rewrite filter_cons_False by (intros Hn; apply Hn, Hin). reflexivity.
    + rewrite filter_cons_True by exact Hin. rewrite <- app_assoc. simpl.
      do 2 f_equal. apply filter_agree. intros x Hx. split.
      * intros Hn Hacc. apply Hn. apply elem_of_app. left. exact Hacc.
      * intros Hn Hacc. apply elem_of_app in Hacc as [Hacc | Hx0]; [contradiction |].
        apply list_elem_of_singleton in Hx0. subst x. contradiction.
Qed.

(** The merge [{ ...a, ...b }] of two objects. *)
Lemma objectLiteral_merge (st : state) (a b : value) :
  NoDup (fst <$> ownProps (store st) a) -> NoDup (fst <$> ownProps (store st) b) ->
  exists m,
    objectLiteral [Spread a; Spread b] st
    = (Normal (VObject (length (store st))),
       setStore (store st ++ [mkObject (OProps m) false])%list st)
    /\ (forall k, propLookup k m
                  = match propLookup k (ownProps (store st) b) with
                    | Some v => Some v
                    | None => propLookup k (ownProps (store st) a)
                    end)
    /\ fst <$> m
       = ((fst <$> ownProps (store st) a)
          ++ filter (fun k => k ∉ (fst <$> ownProps (store st) a))
               (fst <$> ownProps (store st) b))%list.
Proof.
  intros Ha Hb. eexists. split; [reflexivity |]. simpl. split.
  - intros k. rewrite merge_lookup by exact Hb.
    rewrite (copy_props _ []) by exact Ha. reflexivity.
  - rewrite merge_keys by exact Hb. rewrite (copy_props _ []) by exact Ha. reflexivity.
Qed.

End MergeFacts.

(** X6.  Merging with spread.  For any two objects a and b of a heap,
    [{ ...a, ...b }] is a new object in which every key of b has the
    value b gives it and every other key of a the value a gives it: the
    rightmost spread wins; a and b themselves are unchanged.  When no key
    of a or of b is made of digits only (so none is an array index, which
    the language would list first), the keys of the result are those of a
    in a's order, then the keys only b has in b's order.  The section
    prints { x: 1, y: 10, z: 3 } and { y: 2, z: 3, x: 1 }. *)
Theorem merge_rightmost_spread_wins (st : state) (la lb : nat)
    (pa pb : list (string * value)) (fa fb : bool) :
  store st !! la = Some (mkObject (OProps pa) fa) ->
  store st !! lb = Some (mkObject (OProps pb) fb) ->
  NoDup (fst <$> pa) -> NoDup (fst <$> pb) ->
  (exists m st',
     objectLiteral [Spread (VObject la); Spread (VObject lb)] st
     = (Normal (VObject (length (store st))), st')
     /\ store st' !! length (store st) = Some (mkObject (OProps m) false)
     /\ (forall k v, propLookup k pb = Some v -> propLookup k m = Some v)
     /\ (forall k, propLookup k pb = None -> propLookup k m = propLookup k pa)
     /\ (Forall (fun k => digitsOnly k = false) ((fst <$> pa) ++ (fst <$> pb)) ->
         fst <$> m = ((fst <$> pa) ++ filter (fun k => k ∉ (fst <$> pa)) (fst <$> pb))%list)
     /\ store st' !! la = Some (mkObject (OProps pa) fa)
     /\ store st' !! lb = Some (mkObject (OProps pb) fb)) /\
  output SpreadTricks.merging_objects =
    [[DString (nl ++ "--- 2. Merging Objects & Overwrites ---")];
     [DString "Later spread overwrites earlier:";
      DObject [("x", DNumber (Num.of_int 1)); ("y", DNumber (Num.of_int 10));
               ("z", DNumber (Num.of_int 3))]];
     [DString "Reversing order preserves earlier values:";
      DObject [("y", DNumber (Num.of_int 2)); ("z", DNumber (Num.of_int 3));
               ("x", DNumber (Num.of_int 1))]]].
Proof.
  intros Hla Hlb Hna Hnb. split; [| vm_compute; reflexivity].
  assert (Ha : ownProps (store st) (VObject la) = pa) by (simpl; rewrite Hla; reflexivity).
  assert (Hb : ownProps (store st) (VObject lb) = pb) by (simpl; rewrite Hlb; reflexivity).
  destruct (objectLiteral_merge st (VObject la) (VObject lb)) as (m & E & Hlook & Hkeys).
  { rewrite Ha. exact Hna. }
  { rewrite Hb. exact Hnb. }
  rewrite Ha, Hb in Hlook, Hkeys.
  exists m. eexists. split; [exact E |]. simpl.
  split; [rewrite lookup_app_r, Nat.sub_diag by lia; reflexivity |].
  split; [intros k v Hk; rewrite Hlook, Hk; reflexivity |].
  split; [intros k Hk; rewrite Hlook, Hk; reflexivity |].
  split; [intros _; exact Hkeys |].
  split; (rewrite lookup_app_l by (eapply lookup_lt_Some; eassumption); assumption).
Qed.

Lemma merge_rightmost_spread_wins_witness :
  let st :=
    mkState [mkEnv ∅ None] 0
      [mkObject (OProps [("x", num 1); ("y", num 2)]) false;
       mkObject (OProps [("y", num 10); ("z", num 3)]) true] [] in
  (exists m st',
     objectLiteral [Spread (VObject 0); Spread (VObject 1)] st
     = (Normal (VObject (length (store st))), st')
     /\ store st' !! length (store st) = Some (mkObject (OProps m) false)
     /\ (forall k v, propLookup k [("y", num 10); ("z", num 3)] = Some v ->
                     propLookup k m = Some v)
     /\ (forall k, propLookup k [("y", num 10); ("z", num 3)] = None ->
                   propLookup k m = propLookup k [("x", num 1); ("y", num 2)])
     /\ fst <$> m
        = ((fst <$> [("x", num 1); ("y", num 2)])
           ++ filter (fun k => k ∉ (fst <$> [("x", num 1); ("y", num 2)]))
                (fst <$> [("y", num 10); ("z", num 3)]))%list
     /\ store st' !! 0%nat = Some (mkObject (OProps [("x", num 1); ("y", num 2)]) false)
     /\ store st' !! 1%nat = Some (mkObject (OProps [("y", num 10); ("z", num 3)]) true)) /\
  output SpreadTricks.merging_objects =
    [[DString (nl ++ "--- 2. Merging Objects & Overwrites ---")];
     [DString "Later spread overwrites earlier:";
      DObject [("x", DNumber (Num.of_int 1)); ("y", DNumber (Num.of_int 10));
               ("z", DNumber (Num.of_int 3))]];
     [DString "Reversing order preserves earlier values:";
      DObject [("y", DNumber (Num.of_int 2)); ("z", DNumber (Num.of_int 3));
               ("x", DNumber (Num.of_int 1))]]].
Proof.
  intros st.
  destruct (merge_rightmost_spread_wins st 0 1 [("x", num 1); ("y", num 2)]
              [("y", num 10); ("z", num 3)] false true)
    as [(m & st' & E & Hm & Hb & Ha & Hkeys & Hla & Hlb) Hout];
    [reflexivity | reflexivity | | |];
    [apply (bool_decide_unpack _); vm_compute; reflexivity .. |].
  split; [| exact Hout].
  exists m, st'. repeat (split; [assumption |]).
  split; [| split; assumption].
  apply Hkeys. repeat constructor.
Defined.

(** ** Function bodies: the bindings of the running record *)

Section LocalFacts.

Lemma lookupBinding_local (st : state) (r : envRecord) (x : string) (b : binding) :
  envs st !! cur st = Some r -> bindings r !! x = Some b ->
  lookupBinding st x = Some (cur st, b).
Proof.
  intros Hr Hb. unfold lookupBinding.
  assert (Hlt : (cur st < length (envs st))%nat) by (eapply lookup_lt_Some, Hr).
  destruct (length (envs st)) as [| n]; [lia |]. simpl. rewrite Hr, Hb. reflexivity.
Qed.

Lemma getBinding_local (st : state) (r : envRecord) (x : string) (k : bindingKind)
    (v : value) :
  envs st !! cur st = Some r -> bindings r !! x = Some (mkBinding k (Some v)) ->
  getBinding x st = (Normal v, st).
Proof.
  intros Hr Hb. unfold getBinding. rewrite (lookupBinding_local _ _ _ _ Hr Hb). reflexivity.
Qed.

Lemma getBinding_local_dead (st : state) (r : envRecord) (x : string) (k : bindingKind) :
  envs st !! cur st = Some r -> bindings r !! x = Some (mkBinding k None) ->
  getBinding x st = (Thrown (mkError ReferenceError (tdzMessage x)), st).
Proof.
  intros Hr Hb. unfold getBinding. rewrite (lookupBinding_local _ _ _ _ Hr Hb). reflexivity.
Qed.

Lemma initializeBinding_local (st : state) (r : envRecord) (x : string) (b : binding)
    (v : value) :
  envs st !! cur st = Some r -> bindings r !! x = Some b ->
  initializeBinding x v st
  = (Normal (), putBinding (cur st) x (mkBinding (bkind b) (Some v)) st).
Proof.
  intros Hr Hb. unfold initializeBinding.
  rewrite (lookupBinding_local _ _ _ _ Hr Hb). reflexivity.
Qed.

Lemma putBinding_local (st : state) (r : envRecord) (x : string) (b : binding) :
  envs st !! cur st = Some r ->
  envs (putBinding (cur st) x b st) !! cur st = Some (updateRecord x b r).
Proof. intros Hr. simpl. rewrite list_lookup_alter_eq, Hr. reflexivity. Qed.

Lemma pushEnv_local (st : state) (r : envRecord) :
  envs (pushEnv r st) !! cur (pushEnv r st) = Some r.
Proof.
  unfold pushEnv. simpl. rewrite lookup_app_r by lia. rewrite Nat.sub_diag. reflexivity.
Qed.

(** A heap that grows keeps what its references point to. *)
Lemma ownProps_app (h h' : heap) (v : value) :
  (forall l, v = VObject l -> (l < length h)%nat) ->
  ownProps (h ++ h') v = ownProps h v.
Proof.
  intros Hv. destruct v as [| | b | n | s | l]; try reflexivity.
  simpl. rewrite lookup_app_l by (apply Hv; reflexivity). reflexivity.
Qed.

End LocalFacts.

(** X7.  setup(options) merges the defaults under the options.  Called
    in any state with a value whose references are valid and whose own
    keys are not made of digits only (an object without array-index
    keys, undefined, null, a number, a boolean; not an array and not a
    string with characters, whose keys are indices), it returns a new
    object in which every own property of options has the value options
    gives it, and debug, verbose and port have the defaults false, false
    and 8080 where options has no such property; its keys are debug,
    verbose, port, then the other keys of options.  The call prints one
    line, leaves the objects of the heap as they are (options included)
    and returns to the record it was called in.  With undefined or null
    the result holds the defaults.  The section prints
    { debug: true, verbose: false, port: 8080 }. *)
Theorem setup_merges_defaults (st : state) (options : value) :
  (forall l, options = VObject l -> (l < length (store st))%nat) ->
  NoDup (fst <$> ownProps (store st) options) ->
  Forall (fun k => digitsOnly k = false) (fst <$> ownProps (store st) options) ->
  (exists m st',
     SpreadTricks.setup options st = (Normal (VObject (S (length (store st)))), st')
     /\ store st'
        = (store st ++ [mkObject (OProps SpreadTricks.setup_defaults) false;
                        mkObject (OProps m) false])%list
     /\ (forall k v, propLookup k (ownProps (store st) options) = Some v ->
                     propLookup k m = Some v)
     /\ (forall k, propLookup k (ownProps (store st) options) = None ->
                   propLookup k m = propLookup k SpreadTricks.setup_defaults)
     /\ fst <$> m
        = (["debug"; "verbose"; "port"]
           ++ filter (fun k => k ∉ ["debug"; "verbose"; "port"])
                (fst <$> ownProps (store st) options))%list
     /\ console st'
        = (console st
           ++ [[DString "  Final config:";
                inspect (store st') (VObject (S (length (store st))))]])%list
     /\ cur st' = cur st) /\
  output SpreadTricks.merging_defaults =
    [[DString (nl ++ "--- 9. Merging Defaults ---")];
     [DString "Calling setup({ debug: true }):"];
     [DString "  Final config:";
      DObject [("debug", DBool true); ("verbose", DBool false);
               ("port", DNumber (Num.of_int 8080))]]].
Proof.
  intros Hvalid Hnd _. split; [| vm_compute; reflexivity].
  unfold SpreadTricks.setup, functionScope, finally.
  set (st1 := functionEntry _ _ _ _ st).
  pose (r := mkEnv (paramBindings [("options", options)] ∪ varBindings []
                    ∪ lexicalBindings [("defaults", KConst); ("finalConfig", KConst)])
                   (Some 0%nat)).
  assert (R1 : envs st1 !! cur st1 = Some r) by apply (pushEnv_local st r).
  (* const defaults = { ... } *)
  set (d := VObject (length (store st))).
  set (st2 := setStore (store st ++ [mkObject (OProps SpreadTricks.setup_defaults) false]) st1).
  assert (E1 : objectLiteral
                 (map (fun kv => Field (fst kv) (snd kv)) SpreadTricks.setup_defaults) st1
               = (Normal d, st2)) by reflexivity.
  rewrite (bind_run _ _ _ _ _ E1).
  assert (R2 : envs st2 !! cur st2 = Some r) by exact R1.
  rewrite (bind_run _ _ _ _ _ (initializeBinding_local st2 r "defaults" _ d R2 eq_refl)).
  set (st3 := putBinding (cur st2) "defaults" _ st2).
  assert (R3 : envs st3 !! cur st3 = Some (updateRecord "defaults" (mkBinding KConst (Some d)) r))
    by (apply (putBinding_local st2); exact R2).
  rewrite (bind_run _ _ _ _ _ (getBinding_local st3 _ "defaults" KConst d R3 eq_refl)).
  rewrite (bind_run _ _ _ _ _ (getBinding_local st3 _ "options" KParam options R3 eq_refl)).
  (* const finalConfig = { ...defaults, ...options } *)
  assert (Hd : ownProps (store st3) d = SpreadTricks.setup_defaults).
  { unfold d. simpl. rewrite lookup_app_r by lia. rewrite Nat.sub_diag. reflexivity. }
  assert (Ho : ownProps (store st3) options = ownProps (store st) options)
    by (apply ownProps_app; exact Hvalid).
  destruct (objectLiteral_merge st3 d options) as (m & E2 & Hlook & Hkeys).
  { rewrite Hd. apply (bool_decide_unpack _). vm_compute. reflexivity. }
  { rewrite Ho. exact Hnd. }
  rewrite Hd, Ho in Hlook, Hkeys.
  rewrite (bind_run _ _ _ _ _ E2).
  set (f := VObject (length (store st3))).
  set (st4 := setStore _ st3).
  assert (R4 : envs st4 !! cur st4 = Some (updateRecord "defaults" (mkBinding KConst (Some d)) r))
    by exact R3.
  rewrite (bind_run _ _ _ _ _ (initializeBinding_local st4 _ "finalConfig" _ f R4 eq_refl)).
  set (st5 := putBinding (cur st4) "finalConfig" _ st4).
  assert (R5 : envs st5 !! cur st5
               = Some (updateRecord "finalConfig" (mkBinding KConst (Some f))
                         (updateRecord "defaults" (mkBinding KConst (Some d)) r)))
    by (apply (putBinding_local st4); exact R4).
  rewrite (bind_run _ _ _ _ _ (getBinding_local st5 _ "finalConfig" KConst f R5 eq_refl)).
  unfold bind at 1. unfold console_log at 1. cbv beta iota.
  set (st6 := setConsole _ st5).
  assert (R6 : envs st6 !! cur st6
               = Some (updateRecord "finalConfig" (mkBinding KConst (Some f))
                         (updateRecord "defaults" (mkBinding KConst (Some d)) r)))
    by exact R5.
  rewrite (getBinding_local st6 _ "finalConfig" KConst f R6 eq_refl).
  assert (Hf : f = VObject (S (length (store st)))).
  { unfold f. simpl. rewrite length_app. simpl. f_equal. lia. }
  exists m, (setCur (cur st) st6). rewrite Hf.
  split; [reflexivity |].
  split; [simpl; rewrite <- app_assoc; reflexivity |].
  split; [intros k v Hk; rewrite Hlook, Hk; reflexivity |].
  split; [intros k Hk; rewrite Hlook, Hk; reflexivity |].
  split; [exact Hkeys |].
  split; [| reflexivity].
  simpl. rewrite Hf. reflexivity.
Qed.

Lemma setup_merges_defaults_witness :
  let st := mkState [mkEnv ∅ None] 0
              [mkObject (OProps [("port", num 3000); ("host", str "example.org")]) false] [] in
  let options := VObject 0 in
  (exists m st',
     SpreadTricks.setup options st = (Normal (VObject (S (length (store st)))), st')
     /\ store st'
        = (store st ++ [mkObject (OProps SpreadTricks.setup_defaults) false;
                        mkObject (OProps m) false])%list
     /\ (forall k v, propLookup k (ownProps (store st) options) = Some v ->
                     propLookup k m = Some v)
     /\ (forall k, propLookup k (ownProps (store st) options) = None ->
                   propLookup k m = propLookup k SpreadTricks.setup_defaults)
     /\ fst <$> m
        = (["debug"; "verbose"; "port"]
           ++ filter (fun k => k ∉ ["debug"; "verbose"; "port"])
                (fst <$> ownProps (store st) options))%list
     /\ console st'
        = (console st
           ++ [[DString "  Final config:";
                inspect (store st') (VObject (S (length (store st))))]])%list
     /\ cur st' = cur st) /\
  output SpreadTricks.merging_defaults =
    [[DString (nl ++ "--- 9. Merging Defaults ---")];
     [DString "Calling setup({ debug: true }):"];
     [DString "  Final config:";
      DObject [("debug", DBool true); ("verbose", DBool false);
               ("port", DNumber (Num.of_int 8080))]]].
Proof.
  intros st options. apply (setup_merges_defaults st options).
  - intros l [= <-]. simpl. lia.
  - apply (bool_decide_unpack _). vm_compute. reflexivity.
  - repeat constructor.
Defined.

(** ** Parameter patterns and their defaults *)

Section PatternFacts.

Lemma append_empty_r (s : string) : s ++ "" = s.
Proof.
  induction s as [| c s IH]; [reflexivity |].
  change (String c (s ++ "") = String c s). rewrite IH. reflexivity.
Qed.

(** A template with two substitutions. *)
Lemma template_two (st : state) (s0 s1 : string) (v1 v2 : value) (t1 t2 : string) :
  Conv.toString (store st) v1 = Some t1 -> Conv.toString (store st) v2 = Some t2 ->
  template [inl s0; inr v1; inl s1; inr v2] st = (Normal (s0 ++ t1 ++ s1 ++ t2), st).
Proof.
  intros H1 H2. unfold template, bind. rewrite H1. simpl. rewrite H2. simpl.
  rewrite append_empty_r. reflexivity.
Qed.

(** What a defaulted property of a pattern binds: the default when the
    property is missing or undefined. *)
Lemma orDefault_property (o : option value) (d : value) (st : state) :
  orDefault (default VUndefined o) (ret d) st
  = (Normal match o with
            | Some VUndefined | None => d
            | Some v => v
            end, st).
Proof. destruct o as [[] |]; reflexivity. Qed.

End PatternFacts.

(** X8.  Parameter patterns.  connect({ host = "localhost", port = 80 } = {})
    called with undefined matches the pattern against a new empty object
    and prints localhost:80; called with an object it prints the object's
    host and port, each replaced by its default exactly when the property
    is missing or undefined (null is kept); called with null it throws a
    TypeError before printing.  printUser({ name, age }), whose pattern has
    no default, throws a TypeError for undefined as well, and prints the
    two properties of an object.  Every call returns to the record it was
    called in. *)
Theorem parameter_pattern_defaults (st : state) (l : nat) (ps : list (string * value))
    (fr : bool) (sh sp sn sa : string) :
  store st !! l = Some (mkObject (OProps ps) fr) ->
  Conv.toString (store st)
    match propLookup "host" ps with
    | Some VUndefined | None => str "localhost"
    | Some v => v
    end = Some sh ->
  Conv.toString (store st)
    match propLookup "port" ps with
    | Some VUndefined | None => num 80
    | Some v => v
    end = Some sp ->
  Conv.toString (store st) (default VUndefined (propLookup "name" ps)) = Some sn ->
  Conv.toString (store st) (default VUndefined (propLookup "age" ps)) = Some sa ->
  (exists st', DestructuringUses.connect (VObject l) st = (Normal VUndefined, st')
               /\ console st'
                  = (console st ++ [[DString ("   Connecting to " ++ sh ++ ":" ++ sp)]])%list
               /\ store st' = store st /\ cur st' = cur st) /\
  (exists st', DestructuringUses.connect VUndefined st = (Normal VUndefined, st')
               /\ console st'
                  = (console st ++ [[DString "   Connecting to localhost:80"]])%list
               /\ store st' = (store st ++ [mkObject (OProps []) false])%list
               /\ cur st' = cur st) /\
  (exists msg st', DestructuringUses.connect VNull st = (Thrown (mkError TypeError msg), st')
                   /\ console st' = console st /\ store st' = store st
                   /\ cur st' = cur st) /\
  (exists st', AssignmentCases.printUser (VObject l) st = (Normal VUndefined, st')
               /\ console st'
                  = (console st ++ [[DString ("User: " ++ sn ++ ", Age: " ++ sa)]])%list
               /\ store st' = store st /\ cur st' = cur st) /\
  (exists msg st', AssignmentCases.printUser VUndefined st
                   = (Thrown (mkError TypeError msg), st')
                   /\ console st' = console st /\ store st' = store st
                   /\ cur st' = cur st) /\
  output DestructuringUses.function_parameter_defaults =
    [[DString (nl ++ "--- 4. Function Parameter Defaults ---")];
     [DString "Calling connect():"];
     [DString "   Connecting to localhost:80"];
     [DString "Calling connect({ host: '127.0.0.1' }):"];
     [DString "   Connecting to 127.0.0.1:80"]] /\
  output AssignmentCases.function_parameter_destructuring =
    [[DString (nl ++ "--- 6. Function Parameter Destructuring ---")];
     [DString "User: Alice, Age: 25"]].
Proof.
  intros Hl Hh Hp Hn Ha.
  (* the body of connect once the parameter holds an object *)
  assert (Hconnect :
    forall (s1 : state) (l' : nat) (ps' : list (string * value)) (fr' : bool)
           (th tp : string),
      envs s1 !! cur s1
      = Some (mkEnv (lexicalBindings [("host", KParam); ("port", KParam)]) (Some 0%nat)) ->
      store s1 !! l' = Some (mkObject (OProps ps') fr') ->
      Conv.toString (store s1)
        match propLookup "host" ps' with
        | Some VUndefined | None => str "localhost"
        | Some v => v
        end = Some th ->
      Conv.toString (store s1)
        match propLookup "port" ps' with
        | Some VUndefined | None => num 80
        | Some v => v
        end = Some tp ->
      exists s2,
        (requireObject (VObject l') "host" ;;
         h <- getProp (VObject l') "host" ;;
         h <- orDefault h (ret (str "localhost")) ;;
         initializeBinding "host" h ;;
         p <- getProp (VObject l') "port" ;;
         p <- orDefault p (ret (num 80)) ;;
         initializeBinding "port" p ;;
         h <- getBinding "host" ;;
         p <- getBinding "port" ;;
         t <- template [inl "   Connecting to "; inr h; inl ":"; inr p] ;;
         console_log [str t] ;;
         ret VUndefined)%js s1 = (Normal VUndefined, s2)
        /\ console s2
           = (console s1 ++ [[DString ("   Connecting to " ++ th ++ ":" ++ tp)]])%list
        /\ store s2 = store s1).
  { intros s1 l' ps' fr' th tp R1 Hl' Hth Htp.
    set (r := mkEnv (lexicalBindings [("host", KParam); ("port", KParam)]) (Some 0%nat)) in *.
    set (h := match propLookup "host" ps' with
              | Some VUndefined | None => str "localhost"
              | Some v => v
              end) in *.
    set (p := match propLookup "port" ps' with
              | Some VUndefined | None => num 80
              | Some v => v
              end) in *.
    rewrite (bind_run _ _ s1 () s1 eq_refl).
    rewrite (bind_run _ _ _ _ _ (getProp_object s1 l' ps' fr' "host" Hl')).
    rewrite (bind_run _ _ _ _ _ (orDefault_property _ _ s1)). fold h.
    rewrite (bind_run _ _ _ _ _ (initializeBinding_local s1 r "host" _ h R1 eq_refl)).
    set (s2 := putBinding (cur s1) "host" _ s1).
    assert (R2 : envs s2 !! cur s2
                 = Some (updateRecord "host" (mkBinding KParam (Some h)) r))
      by (apply (putBinding_local s1); exact R1).
    rewrite (bind_run _ _ _ _ _ (getProp_object s2 l' ps' fr' "port" Hl')).
    rewrite (bind_run _ _ _ _ _ (orDefault_property _ _ s2)). fold p.
    rewrite (bind_run _ _ _ _ _ (initializeBinding_local s2 _ "port" _ p R2 eq_refl)).
    set (s3 := putBinding (cur s2) "port" _ s2).
    assert (R3 : envs s3 !! cur s3
                 = Some (updateRecord "port" (mkBinding KParam (Some p))
                           (updateRecord "host" (mkBinding KParam (Some h)) r)))
      by (apply (putBinding_local s2); exact R2).
    rewrite (bind_run _ _ _ _ _ (getBinding_local s3 _ "host" KParam h R3 eq_refl)).
    rewrite (bind_run _ _ _ _ _ (getBinding_local s3 _ "port" KParam p R3 eq_refl)).
    rewrite (bind_run _ _ _ _ _ (template_two s3 _ _ h p th tp Hth Htp)).
    eexists. split; [reflexivity |]. split; reflexivity. }
  (* the body of printUser on an object *)
  assert (Hprint :
    forall (s1 : state),
      envs s1 !! cur s1
      = Some (mkEnv (lexicalBindings [("name", KParam); ("age", KParam)]) (Some 0%nat)) ->
      store s1 = store st ->
      exists s2,
        (requireObject (VObject l) "name" ;;
         n <- getProp (VObject l) "name" ;;
         initializeBinding "name" n ;;
         a <- getProp (VObject l) "age" ;;
         initializeBinding "age" a ;;
         n <- getBinding "name" ;;
         a <- getBinding "age" ;;
         t <- template [inl "User: "; inr n; inl ", Age: "; inr a] ;;
         console_log [str t] ;;
         ret VUndefined)%js s1 = (Normal VUndefined, s2)
        /\ console s2 = (console s1 ++ [[DString ("User: " ++ sn ++ ", Age: " ++ sa)]])%list
        /\ store s2 = store s1).
  { intros s1 R1 Hs.
    set (r := mkEnv (lexicalBindings [("name", KParam); ("age", KParam)]) (Some 0%nat)) in *.
    assert (Hl1 : store s1 !! l = Some (mkObject (OProps ps) fr)) by (rewrite Hs; exact Hl).
    set (n := default VUndefined (propLookup "name" ps)) in *.
    set (a := default VUndefined (propLookup "age" ps)) in *.
    rewrite (bind_run _ _ s1 () s1 eq_refl).
    rewrite (bind_run _ _ _ _ _ (getProp_object s1 l ps fr "name" Hl1)). fold n.
    rewrite (bind_run _ _ _ _ _ (initializeBinding_local s1 r "name" _ n R1 eq_refl)).
    set (s2 := putBinding (cur s1) "name" _ s1).
    assert (R2 : envs s2 !! cur s2
                 = Some (updateRecord "name" (mkBinding KParam (Some n)) r))
      by (apply (putBinding_local s1); exact R1).
    rewrite (bind_run _ _ _ _ _ (getProp_object s2 l ps fr "age" Hl1)). fold a.
    rewrite (bind_run _ _ _ _ _ (initializeBinding_local s2 _ "age" _ a R2 eq_refl)).
    set (s3 := putBinding (cur s2) "age" _ s2).
    assert (R3 : envs s3 !! cur s3
                 = Some (updateRecord "age" (mkBinding KParam (Some a))
                           (updateRecord "name" (mkBinding KParam (Some n)) r)))
      by (apply (putBinding_local s2); exact R2).
    rewrite (bind_run _ _ _ _ _ (getBinding_local s3 _ "name" KParam n R3 eq_refl)).
    rewrite (bind_run _ _ _ _ _ (getBinding_local s3 _ "age" KParam a R3 eq_refl)).
    assert (Hn3 : Conv.toString (store s3) n = Some sn) by (simpl; rewrite Hs; exact Hn).
    assert (Ha3 : Conv.toString (store s3) a = Some sa) by (simpl; rewrite Hs; exact Ha).
    rewrite (bind_run _ _ _ _ _ (template_two s3 _ _ n a sn sa Hn3 Ha3)).
    eexists. split; [reflexivity |]. split; reflexivity. }
  split; [| split; [| split; [| split; [| split; [| split; vm_compute; reflexivity]]]]].
  - unfold DestructuringUses.connect, finally.
    set (s1 := pushEnv _ st).
    rewrite (bind_run _ _ s1 (VObject l) s1 eq_refl).
    destruct (Hconnect s1 l ps fr sh sp) as (s2 & E & Hc & Hs);
      [apply pushEnv_local | exact Hl | exact Hh | exact Hp |].
    rewrite E. eexists. split; [reflexivity |].
    split; [exact Hc |]. split; [exact Hs | reflexivity].
  - unfold DestructuringUses.connect, finally.
    set (s0 := pushEnv _ st).
    set (s1 := setStore (store st ++ [mkObject (OProps []) false]) s0).
    rewrite (bind_run _ _ s0 (VObject (length (store st))) s1 eq_refl).
    destruct (Hconnect s1 (length (store st)) [] false "localhost" "80")
      as (s2 & E & Hc & Hs).
    + apply (pushEnv_local st).
    + simpl. rewrite lookup_app_r by lia. rewrite Nat.sub_diag. reflexivity.
    + reflexivity.
    + vm_compute. reflexivity.
    + rewrite E. eexists. split; [reflexivity |].
      split; [exact Hc |]. split; [exact Hs | reflexivity].
  - unfold DestructuringUses.connect, finally. do 2 eexists.
    split; [reflexivity |]. repeat split; reflexivity.
  - unfold AssignmentCases.printUser, finally.
    set (s1 := pushEnv _ st).
    destruct (Hprint s1) as (s2 & E & Hc & Hs); [apply pushEnv_local | reflexivity |].
    rewrite E. eexists. split; [reflexivity |].
    split; [exact Hc |]. split; [exact Hs | reflexivity].
  - unfold AssignmentCases.printUser, finally. do 2 eexists.
    split; [reflexivity |]. repeat split; reflexivity.
Qed.

Lemma parameter_pattern_defaults_witness :
  let st := mkState [mkEnv ∅ None] 0
              [mkObject (OProps [("host", VNull); ("port", VUndefined);
                                 ("name", str "Alice")]) false] [] in
  (exists st', DestructuringUses.connect (VObject 0) st = (Normal VUndefined, st')
               /\ console st'
                  = (console st ++ [[DString ("   Connecting to " ++ "null" ++ ":" ++ "80")]])%list
               /\ store st' = store st /\ cur st' = cur st) /\
  (exists st', DestructuringUses.connect VUndefined st = (Normal VUndefined, st')
               /\ console st'
                  = (console st ++ [[DString "   Connecting to localhost:80"]])%list
               /\ store st' = (store st ++ [mkObject (OProps []) false])%list
               /\ cur st' = cur st) /\
  (exists msg st', DestructuringUses.connect VNull st = (Thrown (mkError TypeError msg), st')
                   /\ console st' = console st /\ store st' = store st
                   /\ cur st' = cur st) /\
  (exists st', AssignmentCases.printUser (VObject 0) st = (Normal VUndefined, st')
               /\ console st'
                  = (console st
                     ++ [[DString ("User: " ++ "Alice" ++ ", Age: " ++ "undefined")]])%list
               /\ store st' = store st /\ cur st' = cur st) /\
  (exists msg st', AssignmentCases.printUser VUndefined st
                   = (Thrown (mkError TypeError msg), st')
                   /\ console st' = console st /\ store st' = store st
                   /\ cur st' = cur st) /\
  output DestructuringUses.function_parameter_defaults =
    [[DString (nl ++ "--- 4. Function Parameter Defaults ---")];
     [DString "Calling connect():"];
     [DString "   Connecting to localhost:80"];
     [DString "Calling connect({ host: '127.0.0.1' }):"];
     [DString "   Connecting to 127.0.0.1:80"]] /\
  output AssignmentCases.function_parameter_destructuring =
    [[DString (nl ++ "--- 6. Function Parameter Destructuring ---")];
     [DString "User: Alice, Age: 25"]].
Proof.
  intros st.
  apply (parameter_pattern_defaults st 0
           [("host", VNull); ("port", VUndefined); ("name", str "Alice")] false
           "null" "80" "Alice" "undefined");
    vm_compute; reflexivity.
Defined.

(** X9.  The chained assignment [a_bb.x = a_bb = { n: 2 }].  In any state
    where a_bb (assignable) and b_bb hold the same unfrozen object, the
    statement ends with a_bb holding a new object { n: 2 } that has no
    property x, while b_bb still holds the old object, whose property x
    now is the new object: the reference on the left is resolved before
    the right-hand side rebinds a_bb.  The section prints undefined for
    a.x and { n: 2 } for b.x. *)
Theorem chained_assignment_writes_to_old_object (st : state) (l : nat)
    (ps : list (string * value)) (ka kb : bindingKind) :
  bindingOf st "a_bb" = Some (mkBinding ka (Some (VObject l))) ->
  bindingOf st "b_bb" = Some (mkBinding kb (Some (VObject l))) ->
  ka <> KConst ->
  store st !! l = Some (mkObject (OProps ps) false) ->
  (exists st',
     AssignmentCases.chained_assignment_statement st = (Normal (), st')
     /\ bindingOf st' "a_bb" = Some (mkBinding ka (Some (VObject (length (store st)))))
     /\ bindingOf st' "b_bb" = Some (mkBinding kb (Some (VObject l)))
     /\ store st' !! length (store st) = Some (mkObject (OProps [("n", num 2)]) false)
     /\ store st' !! l
        = Some (mkObject (OProps (propSet "x" (VObject (length (store st))) ps)) false)
     /\ getProp (VObject (length (store st))) "x" st' = (Normal VUndefined, st')
     /\ getProp (VObject l) "x" st' = (Normal (VObject (length (store st))), st')) /\
  output AssignmentCases.chained_assignment_with_mutation =
    [[DString (nl ++ "--- Brain-Bender: Chained Assignment with Mutation ---")];
     [DString "a.x ->"; DUndefined];
     [DString "b.x ->"; DObject [("n", DNumber (Num.of_int 2))]]].
Proof.
  intros Ha Hb Hka Hl. split; [| vm_compute; reflexivity].
  assert (Hlt : (l < length (store st))%nat) by (eapply lookup_lt_Some, Hl).
  set (n := length (store st)).
  set (st1 := setStore (store st ++ [mkObject (OProps [("n", num 2)]) false]) st).
  assert (E1 : objectLiteral [Field "n" (num 2)] st = (Normal (VObject n), st1))
    by reflexivity.
  assert (Ha1 : bindingOf st1 "a_bb" = Some (mkBinding ka (Some (VObject l))))
    by exact Ha.
  destruct (assign_mutable st1 "a_bb" ka (VObject l) (VObject n) Ha1 Hka)
    as (st2 & E2 & Ha2 & Ho2 & Hs2 & Hc2 & _).
  assert (Hl2 : store st2 !! l = Some (mkObject (OProps ps) false)).
  { rewrite Hs2. simpl. rewrite lookup_app_l by exact Hlt. exact Hl. }
  pose proof (setProp_object st2 l ps "x" (VObject n) Hl2) as E3.
  set (st3 := putObject l (OProps (propSet "x" (VObject n) ps)) st2) in E3.
  assert (Hnew : store st3 !! n = Some (mkObject (OProps [("n", num 2)]) false)).
  { unfold st3. rewrite store_putObject_ne by (unfold n; lia).
    rewrite Hs2. simpl. rewrite lookup_app_r by (unfold n; lia).
    unfold n. rewrite Nat.sub_diag. reflexivity. }
  assert (Hold : store st3 !! l
                 = Some (mkObject (OProps (propSet "x" (VObject n) ps)) false))
    by (unfold st3; rewrite (store_putObject_eq _ _ _ _ Hl2); reflexivity).
  exists st3. split.
  - unfold AssignmentCases.chained_assignment_statement.
    rewrite (bind_run _ _ _ _ _ (getBinding_value _ _ _ _ Ha)).
    rewrite (bind_run _ _ _ _ _ E1).
    rewrite (bind_run _ _ _ _ _ E2).
    exact (exprStmt_run _ _ _ _ E3).
  - split; [exact Ha2 |].
    split; [rewrite (bindingOf_frame st2 st3) by reflexivity;
            rewrite Ho2 by discriminate; exact Hb |].
    split; [exact Hnew |]. split; [exact Hold |].
    split.
    + rewrite (getProp_object _ _ _ _ _ Hnew). reflexivity.
    + rewrite (getProp_object _ _ _ _ _ Hold), propLookup_propSet_eq. reflexivity.
Qed.

Lemma chained_assignment_writes_to_old_object_witness :
  let st := mkState [mkEnv (list_to_map [("a_bb", mkBinding KLet (Some (VObject 0)));
                                         ("b_bb", mkBinding KConst (Some (VObject 0)))]) None]
              0 [mkObject (OProps [("n", num 1)]) false] [] in
  (exists st',
     AssignmentCases.chained_assignment_statement st = (Normal (), st')
     /\ bindingOf st' "a_bb" = Some (mkBinding KLet (Some (VObject (length (store st)))))
     /\ bindingOf st' "b_bb" = Some (mkBinding KConst (Some (VObject 0)))
     /\ store st' !! length (store st) = Some (mkObject (OProps [("n", num 2)]) false)
     /\ store st' !! 0%nat
        = Some (mkObject (OProps (propSet "x" (VObject (length (store st)))
                                    [("n", num 1)])) false)
     /\ getProp (VObject (length (store st))) "x" st' = (Normal VUndefined, st')
     /\ getProp (VObject 0) "x" st' = (Normal (VObject (length (store st))), st')) /\
  output AssignmentCases.chained_assignment_with_mutation =
    [[DString (nl ++ "--- Brain-Bender: Chained Assignment with Mutation ---")];
     [DString "a.x ->"; DUndefined];
     [DString "b.x ->"; DObject [("n", DNumber (Num.of_int 2))]]].
Proof.
  intros st.
  apply (chained_assignment_writes_to_old_object st 0 [("n", num 1)] KLet KConst);
    [reflexivity | reflexivity | discriminate | reflexivity].
Defined.

(** X10.  Swapping by destructuring.  In any state where a_s1 and b_s1
    are initialized, assignable bindings, [[a_s1, b_s1] = [b_s1, a_s1]]
    exchanges their values, whatever the values are; the only other
    change is the temporary array [b_s1, a_s1] on the heap.  The section
    prints a=2, b=1. *)
Theorem destructuring_swap_exchanges (st : state) (va vb : value) (ka kb : bindingKind) :
  bindingOf st "a_s1" = Some (mkBinding ka (Some va)) ->
  bindingOf st "b_s1" = Some (mkBinding kb (Some vb)) ->
  ka <> KConst -> kb <> KConst ->
  (exists st',
     DestructuringUses.swap_statement st = (Normal (), st')
     /\ bindingOf st' "a_s1" = Some (mkBinding ka (Some vb))
     /\ bindingOf st' "b_s1" = Some (mkBinding kb (Some va))
     /\ (forall z, z <> "a_s1" -> z <> "b_s1" -> bindingOf st' z = bindingOf st z)
     /\ store st' = (store st ++ [mkObject (OArray [vb; va]) false])%list
     /\ console st' = console st) /\
  output DestructuringUses.swapping_variables =
    [[DString (nl ++ "--- 1. Swapping Variables ---")];
     [DString "Swapped a and b ->"; DString "a=2, b=1"]].
Proof.
  intros Ha Hb Hka Hkb. split; [| vm_compute; reflexivity].
  set (st1 := setStore (store st ++ [mkObject (OArray [vb; va]) false]) st).
  assert (E1 : arrayLiteral [Item vb; Item va] st
               = (Normal (VObject (length (store st))), st1)) by reflexivity.
  assert (E2 : iterateM (VObject (length (store st))) "[b_s1, a_s1]" st1
               = (Normal [vb; va], st1)).
  { unfold iterateM, iterate. simpl. rewrite lookup_app_r by lia.
    rewrite Nat.sub_diag. reflexivity. }
  assert (Ha1 : bindingOf st1 "a_s1" = Some (mkBinding ka (Some va))) by exact Ha.
  assert (Hb1 : bindingOf st1 "b_s1" = Some (mkBinding kb (Some vb))) by exact Hb.
  destruct (assign_mutable st1 "a_s1" ka va vb Ha1 Hka)
    as (st2 & E3 & Ha2 & Ho2 & Hs2 & Hc2 & _).
  assert (Hb2 : bindingOf st2 "b_s1" = Some (mkBinding kb (Some vb)))
    by (rewrite Ho2 by discriminate; exact Hb1).
  destruct (assign_mutable st2 "b_s1" kb vb va Hb2 Hkb)
    as (st3 & E4 & Hb3 & Ho3 & Hs3 & Hc3 & _).
  exists st3. split.
  - unfold DestructuringUses.swap_statement.
    rewrite (bind_run _ _ _ _ _ (getBinding_value _ _ _ _ Hb)).
    rewrite (bind_run _ _ _ _ _ (getBinding_value _ _ _ _ Ha)).
    rewrite (bind_run _ _ _ _ _ E1).
    rewrite (bind_run _ _ _ _ _ E2).
    rewrite (bind_run _ _ _ _ _ (exprStmt_run _ _ _ _ E3)).
    exact (exprStmt_run _ _ _ _ E4).
  - split; [rewrite Ho3 by discriminate; exact Ha2 |].
    split; [exact Hb3 |].
    split; [intros z Hza Hzb; rewrite Ho3, Ho2 by assumption; reflexivity |].
    split; [rewrite Hs3, Hs2; reflexivity | rewrite Hc3, Hc2; reflexivity].
Qed.

Lemma destructuring_swap_exchanges_witness :
  let st := mkState [mkEnv (list_to_map [("a_s1", mkBinding KLet (Some (str "left")));
                                         ("b_s1", mkBinding KVar (Some VNull))]) None]
              0 [] [] in
  (exists st',
     DestructuringUses.swap_statement st = (Normal (), st')
     /\ bindingOf st' "a_s1" = Some (mkBinding KLet (Some VNull))
     /\ bindingOf st' "b_s1" = Some (mkBinding KVar (Some (str "left")))
     /\ (forall z, z <> "a_s1" -> z <> "b_s1" -> bindingOf st' z = bindingOf st z)
     /\ store st' = (store st ++ [mkObject (OArray [VNull; str "left"]) false])%list
     /\ console st' = console st) /\
  output DestructuringUses.swapping_variables =
    [[DString (nl ++ "--- 1. Swapping Variables ---")];
     [DString "Swapped a and b ->"; DString "a=2, b=1"]].
Proof.
  intros st.
  apply (destructuring_swap_exchanges st (str "left") VNull KLet KVar);
    [reflexivity | reflexivity | discriminate | discriminate].
Defined.

(** X11.  Default parameters in their dead zone.  test_q9(x = y, y = 2)
    throws the ReferenceError of the temporal dead zone exactly when its
    first argument is undefined, whatever the second argument is: the
    default of x reads y before y is bound.  With any other first
    argument it prints x and y, y being 2 when the second argument is
    undefined.  Either way the heap is unchanged and the call returns to
    the record it was called in.  The section prints the error message. *)
Theorem default_parameter_reads_dead_parameter (st : state) (x y : value) :
  match x with
  | VUndefined =>
      exists st',
        Round2Parameters.test_q9 x y st
        = (Thrown (mkError ReferenceError "Cannot access 'y' before initialization"), st')
        /\ console st' = console st /\ store st' = store st /\ cur st' = cur st
  | _ =>
      exists st',
        Round2Parameters.test_q9 x y st = (Normal VUndefined, st')
        /\ console st'
           = (console st
              ++ [[inspect (store st) x;
                   inspect (store st) match y with VUndefined => num 2 | _ => y end]])%list
        /\ store st' = store st /\ cur st' = cur st
  end /\
  output Round2Parameters.q9_tdz_function_parameter =
    [[DString (nl ++ "--- Q9: TDZ + Function Parameter ---")];
     [DString "Q9 Error:"; DString "Cannot access 'y' before initialization"]].
Proof.
  split; [| vm_compute; reflexivity].
  pose (r := mkEnv (lexicalBindings [("x", KParam); ("y", KParam)]) (Some 0%nat)).
  assert (Hrun : x <> VUndefined ->
    exists st',
      Round2Parameters.test_q9 x y st = (Normal VUndefined, st')
      /\ console st'
         = (console st
            ++ [[inspect (store st) x;
                 inspect (store st) match y with VUndefined => num 2 | _ => y end]])%list
      /\ store st' = store st /\ cur st' = cur st).
  { intros Hx. unfold Round2Parameters.test_q9, finally.
    set (s1 := pushEnv _ st).
    assert (R1 : envs s1 !! cur s1 = Some r) by apply (pushEnv_local st r).
    assert (Ex : orDefault x (getBinding "y") s1 = (Normal x, s1))
      by (destruct x; try reflexivity; congruence).
    rewrite (bind_run _ _ _ _ _ Ex).
    rewrite (bind_run _ _ _ _ _ (initializeBinding_local s1 r "x" _ x R1 eq_refl)).
    set (s2 := putBinding (cur s1) "x" _ s1).
    assert (R2 : envs s2 !! cur s2 = Some (updateRecord "x" (mkBinding KParam (Some x)) r))
      by (apply (putBinding_local s1); exact R1).
    set (y' := match y with VUndefined => num 2 | _ => y end).
    assert (Ey : orDefault y (ret (num 2)) s2 = (Normal y', s2))
      by (destruct y; reflexivity).
    rewrite (bind_run _ _ _ _ _ Ey).
    rewrite (bind_run _ _ _ _ _ (initializeBinding_local s2 _ "y" _ y' R2 eq_refl)).
    set (s3 := putBinding (cur s2) "y" _ s2).
    assert (R3 : envs s3 !! cur s3
                 = Some (updateRecord "y" (mkBinding KParam (Some y'))
                           (updateRecord "x" (mkBinding KParam (Some x)) r)))
      by (apply (putBinding_local s2); exact R2).
    rewrite (bind_run _ _ _ _ _ (getBinding_local s3 _ "x" KParam x R3 eq_refl)).
    rewrite (bind_run _ _ _ _ _ (getBinding_local s3 _ "y" KParam y' R3 eq_refl)).
    eexists. split; [reflexivity |]. repeat split; reflexivity. }
  destruct x; try (apply Hrun; discriminate).
  unfold Round2Parameters.test_q9, finally.
  set (s1 := pushEnv _ st).
  assert (R1 : envs s1 !! cur s1 = Some r) by apply (pushEnv_local st r).
  assert (Ex : orDefault VUndefined (getBinding "y") s1
               = (Thrown (mkError ReferenceError (tdzMessage "y")), s1))
    by exact (getBinding_local_dead s1 r "y" KParam R1 eq_refl).
  rewrite (bind_thrown _ _ _ _ _ Ex).
  eexists. split; [reflexivity |]. repeat split; reflexivity.
Qed.

(** X12.  Nested patterns on a missing property.  Matching
    [{ a: a_db3, b: { c: c_db3 } }] against an object whose property b is
    missing, undefined or null throws a TypeError after a_db3 has been
    bound, and c_db3 stays in its dead zone.  The pattern with defaults,
    [{ profile: { address: { city } = {} } = {} }], ends normally with city
    undefined when profile is missing, undefined, a boolean or a number;
    the default does not apply to null, for which it throws a TypeError
    as well.  The sections print undefined and the error message. *)
Theorem nested_pattern_on_missing_property (st : state) (l : nat)
    (ps : list (string * value)) (fr : bool) (ka kc kd : bindingKind) :
  store st !! l = Some (mkObject (OProps ps) fr) ->
  bindingOf st "a_db3" = Some (mkBinding ka None) ->
  bindingOf st "c_db3" = Some (mkBinding kc None) ->
  bindingOf st "city_d4_safe" = Some (mkBinding kd None) ->
  match propLookup "b" ps with
  | None | Some VUndefined | Some VNull =>
      exists msg st',
        AssignmentCases.nested_pattern (VObject l) st
        = (Thrown (mkError TypeError msg), st')
        /\ bindingOf st' "a_db3"
           = Some (mkBinding ka (Some (default VUndefined (propLookup "a" ps))))
        /\ bindingOf st' "c_db3" = Some (mkBinding kc None)
  | _ => True
  end /\
  match propLookup "profile" ps with
  | Some VNull =>
      exists msg st',
        AssignmentCases.safe_nested_pattern (VObject l) st
        = (Thrown (mkError TypeError msg), st')
        /\ bindingOf st' "city_d4_safe" = Some (mkBinding kd None)
  | None | Some VUndefined | Some (VBool _) | Some (VNumber _) =>
      exists st',
        AssignmentCases.safe_nested_pattern (VObject l) st = (Normal (), st')
        /\ bindingOf st' "city_d4_safe" = Some (mkBinding kd (Some VUndefined))
  | _ => True
  end /\
  output AssignmentCases.safe_nested_city = [[DString "Safe nested city ->"; DUndefined]] /\
  output AssignmentCases.q3_nested_missing =
    [[DString (nl ++ "Q3:")];
     [DString "  Error in Q3:"; DString "Cannot read properties of undefined (reading 'c')"]].
Proof.
  intros Hl Ha Hc Hd.
  split; [| split; [| split; vm_compute; reflexivity]].
  - (* the pattern without defaults *)
    destruct (initializeBinding_dead st "a_db3" ka (default VUndefined (propLookup "a" ps)) Ha)
      as (st1 & E1 & Ha1 & Hs1 & _).
    assert (Hc1 : bindingOf st1 "c_db3" = Some (mkBinding kc None)).
    { pose proof (initializeBinding_other st "c_db3" "a_db3"
                    (default VUndefined (propLookup "a" ps)) _ ltac:(discriminate) Hc) as H.
      rewrite E1 in H. exact H. }
    assert (Hl1 : store st1 !! l = Some (mkObject (OProps ps) fr)) by (rewrite Hs1; exact Hl).
    assert (Hthrow : forall b,
      default VUndefined (propLookup "b" ps) = b -> b = VUndefined \/ b = VNull ->
      exists msg st',
        AssignmentCases.nested_pattern (VObject l) st
        = (Thrown (mkError TypeError msg), st')
        /\ bindingOf st' "a_db3"
           = Some (mkBinding ka (Some (default VUndefined (propLookup "a" ps))))
        /\ bindingOf st' "c_db3" = Some (mkBinding kc None)).
    { intros b Hb Hcase. unfold AssignmentCases.nested_pattern.
      rewrite (bind_run _ _ st () st eq_refl).
      rewrite (bind_run _ _ _ _ _ (getProp_object st l ps fr "a" Hl)).
      rewrite (bind_run _ _ _ _ _ E1).
      rewrite (bind_run _ _ _ _ _ (getProp_object st1 l ps fr "b" Hl1)).
      rewrite Hb.
      destruct Hcase as [-> | ->].
      - eexists. exists st1. split; [reflexivity |]. split; assumption.
      - eexists. exists st1. split; [reflexivity |]. split; assumption. }
    destruct (propLookup "b" ps) as [[] |] eqn:Eb; try exact I.
    + apply (Hthrow VUndefined); [reflexivity | left; reflexivity].
    + apply (Hthrow VNull); [reflexivity | right; reflexivity].
    + apply (Hthrow VUndefined); [reflexivity | left; reflexivity].
  - (* the pattern with defaults *)
    assert (Hsafe : forall p s1,
      default VUndefined (propLookup "profile" ps) = p ->
      (orDefault p (objectLiteral []) st = (Normal (VObject (length (store st))), s1)
       /\ s1 = setStore (store st ++ [mkObject (OProps []) false])%list st)
      \/ (orDefault p (objectLiteral []) st = (Normal p, s1) /\ s1 = st
          /\ exists b n, p = VBool b \/ p = VNumber n) ->
      exists st',
        AssignmentCases.safe_nested_pattern (VObject l) st = (Normal (), st')
        /\ bindingOf st' "city_d4_safe" = Some (mkBinding kd (Some VUndefined))).
    { intros p s1 Hp Hcase. unfold AssignmentCases.safe_nested_pattern.
      rewrite (bind_run _ _ st () st eq_refl).
      rewrite (bind_run _ _ _ _ _ (getProp_object st l ps fr "profile" Hl)).
      rewrite Hp.
      assert (Haddr : exists p', orDefault p (objectLiteral []) st = (Normal p', s1)
                                 /\ getProp p' "address" s1 = (Normal VUndefined, s1)
                                 /\ envs s1 = envs st /\ cur s1 = cur st).
      { destruct Hcase as [[E ->] | (E & -> & b & n & [-> | ->])].
        - eexists. split; [exact E |]. split; [| split; reflexivity].
          unfold getProp. simpl. rewrite lookup_app_r by lia.
          rewrite Nat.sub_diag. reflexivity.
        - eexists. split; [exact E |]. repeat split; reflexivity.
        - eexists. split; [exact E |]. repeat split; reflexivity. }
      destruct Haddr as (p' & E1 & E2 & He & Hcur).
      rewrite (bind_run _ _ _ _ _ E1).
      rewrite (bind_run _ _ _ _ _ E2).
      set (s2 := setStore (store s1 ++ [mkObject (OProps []) false])%list s1).
      rewrite (bind_run _ _ s1 (VObject (length (store s1))) s2 eq_refl).
      assert (E3 : getProp (VObject (length (store s1))) "city" s2 = (Normal VUndefined, s2)).
      { unfold getProp. simpl. rewrite lookup_app_r by lia.
        rewrite Nat.sub_diag. reflexivity. }
      rewrite (bind_run _ _ _ _ _ E3).
      assert (Hd2 : bindingOf s2 "city_d4_safe" = Some (mkBinding kd None)).
      { rewrite (bindingOf_frame st s2) by assumption. exact Hd. }
      destruct (initializeBinding_dead s2 "city_d4_safe" kd VUndefined Hd2)
        as (s3 & E4 & Hd3 & _).
      exists s3. split; [exact E4 | exact Hd3]. }
    destruct (propLookup "profile" ps) as [[| | b | n | s | lp] |] eqn:Ep; try exact I.
    + eapply (Hsafe VUndefined); [reflexivity |]. left. split; reflexivity.
    + unfold AssignmentCases.safe_nested_pattern.
      rewrite (bind_run _ _ st () st eq_refl).
      rewrite (bind_run _ _ _ _ _ (getProp_object st l ps fr "profile" Hl)).
      rewrite Ep. eexists. exists st. split; [reflexivity | exact Hd].
    + eapply (Hsafe (VBool b)); [reflexivity |]. right.
      split; [reflexivity |]. split; [reflexivity |]. exists b, Num.zero. left. reflexivity.
    + eapply (Hsafe (VNumber n)); [reflexivity |]. right.
      split; [reflexivity |]. split; [reflexivity |]. exists true, n. right. reflexivity.
    + eapply (Hsafe VUndefined); [reflexivity |]. left. split; reflexivity.
Qed.

Lemma nested_pattern_on_missing_property_witness :
  let ps := [("a", num 1); ("profile", VNull)] in
  let st := mkState [mkEnv (lexicalBindings [("a_db3", KConst); ("c_db3", KConst);
                                             ("city_d4_safe", KConst)]) None]
              0 [mkObject (OProps ps) false] [] in
  match propLookup "b" ps with
  | None | Some VUndefined | Some VNull =>
      exists msg st',
        AssignmentCases.nested_pattern (VObject 0) st
        = (Thrown (mkError TypeError msg), st')
        /\ bindingOf st' "a_db3"
           = Some (mkBinding KConst (Some (default VUndefined (propLookup "a" ps))))
        /\ bindingOf st' "c_db3" = Some (mkBinding KConst None)
  | _ => True
  end /\
  match propLookup "profile" ps with
  | Some VNull =>
      exists msg st',
        AssignmentCases.safe_nested_pattern (VObject 0) st
        = (Thrown (mkError TypeError msg), st')
        /\ bindingOf st' "city_d4_safe" = Some (mkBinding KConst None)
  | None | Some VUndefined | Some (VBool _) | Some (VNumber _) =>
      exists st',
        AssignmentCases.safe_nested_pattern (VObject 0) st = (Normal (), st')
        /\ bindingOf st' "city_d4_safe" = Some (mkBinding KConst (Some VUndefined))
  | _ => True
  end /\
  output AssignmentCases.safe_nested_city = [[DString "Safe nested city ->"; DUndefined]] /\
  output AssignmentCases.q3_nested_missing =
    [[DString (nl ++ "Q3:")];
     [DString "  Error in Q3:"; DString "Cannot read properties of undefined (reading 'c')"]].
Proof.
  intros ps st.
  apply (nested_pattern_on_missing_property st 0 ps false KConst KConst KConst);
    reflexivity.
Defined.

(** ** Blocks and hoisted functions *)

Section ScopeFacts.

(** A change to a record the chain from [c] cannot reach does not change
    what an identifier resolves to from [c]. *)
Lemma lookupF_alter_above fuel (es : list envRecord) (c e : nat) (x : string)
    (f : envRecord -> envRecord) :
  (forall i r p, es !! i = Some r -> outer r = Some p -> (p < i)%nat) ->
  (c < e)%nat ->
  lookupF fuel (alter f e es) c x = lookupF fuel es c x.
Proof.
  intros Hwf. revert fuel. induction c as [c IH] using lt_wf_ind.
  intros fuel Hc. destruct fuel as [| n]; [reflexivity |]. simpl.
  rewrite list_lookup_alter_ne by lia.
  destruct (es !! c) as [r |] eqn:Hr; [| reflexivity].
  destruct (bindings r !! x); [reflexivity |].
  destruct (outer r) as [p |] eqn:Hp; [| reflexivity].
  apply IH; [eapply Hwf; eassumption |].
  assert (p < c)%nat by (eapply Hwf; eassumption). lia.
Qed.

(** After a block, an identifier resolves as before the block when the
    block only changed its own record. *)
Lemma lookupF_after_block (es : list envRecord) (r : envRecord) (c : nat) (x : string)
    (f : envRecord -> envRecord) :
  (forall i r' p, es !! i = Some r' -> outer r' = Some p -> (p < i)%nat) ->
  (c < length es)%nat ->
  lookupF (length (alter f (length es) (es ++ [r])%list))
    (alter f (length es) (es ++ [r])%list) c x
  = lookupF (length es) es c x.
Proof.
  intros Hwf Hc. rewrite length_alter, length_app. simpl.
  assert (Hal : alter f (length es) (es ++ [r])%list = (es ++ [f r])%list).
  { rewrite alter_app_r_alt by lia. rewrite Nat.sub_diag. reflexivity. }
  rewrite Hal. rewrite lookupF_app by assumption.
  apply lookupF_fuel; [exact Hwf | lia | exact Hc].
Qed.

End ScopeFacts.

(** X13.  Block scope.  For a block that declares x with let or const
    and assigns to a var y of the enclosing scope: inside the block x
    reads as the value given to it; after the block x resolves to what
    it resolved to before the block (to nothing, if it was not declared
    outside, and then a read throws "x is not defined"), while y keeps
    the value assigned inside the block.  Exercise 3 prints 1 for p_ex3
    and the two ReferenceErrors for q_ex3 and r_ex3. *)
Theorem let_is_block_scoped_var_is_not (st : state) (lex : list (string * bindingKind))
    (x y : string) (v w u : value) (k : bindingKind) :
  wfState st ->
  x ∈ (fst <$> lex) -> y ∉ (fst <$> lex) ->
  bindingOf st y = Some (mkBinding k (Some u)) -> k <> KConst ->
  fst (block lex (initializeBinding x v ;; getBinding x) st) = Normal v /\
  (exists st',
     block lex (initializeBinding x v ;; varInit y w) st = (Normal (), st')
     /\ bindingOf st' x = bindingOf st x
     /\ bindingOf st' y = Some (mkBinding k (Some w))
     /\ cur st' = cur st
     /\ (bindingOf st x = None ->
         getBinding x st' = (Thrown (mkError ReferenceError (x ++ " is not defined")), st'))) /\
  output VariableBasics.exercise3_block_scope =
    [[DString (nl ++ "--- Exercise 3: Block Scope ---")];
     [DString "Value of 'p_ex3' outside block:"; DNumber (Num.of_int 1)];
     [DString "Error accessing 'q_ex3':"; DString "q_ex3 is not defined"];
     [DString "Error accessing 'r_ex3':"; DString "r_ex3 is not defined"]].
Proof.
  intros Hwf Hx Hy Hby Hk.
  assert (Hxy : x <> y) by (intros ->; contradiction).
  destruct (lexicalBindings_declared lex x Hx) as (kx & Hlx).
  pose proof (lexicalBindings_other lex y Hy) as Hly.
  set (r := mkEnv (lexicalBindings lex) (Some (cur st))).
  set (st1 := blockEntry lex st).
  assert (L1 : lookupBinding st1 x = Some (length (envs st), mkBinding kx None))
    by (apply lookupBinding_pushEnv_declared; exact Hlx).
  assert (E1 : initializeBinding x v st1
               = (Normal (), putBinding (length (envs st)) x (mkBinding kx (Some v)) st1)).
  { unfold initializeBinding. rewrite L1. reflexivity. }
  set (st2 := putBinding (length (envs st)) x (mkBinding kx (Some v)) st1) in E1.
  assert (Hx2 : bindingOf st2 x = Some (mkBinding kx (Some v)))
    by (eapply bindingOf_putBinding_same; exact L1).
  split; [| split; [| vm_compute; reflexivity]].
  - unfold block, finally. fold st1.
    rewrite (bind_run _ _ _ _ _ E1).
    rewrite (getBinding_value _ _ _ _ Hx2). reflexivity.
  - (* the assignment to y reaches the binding outside the block *)
    unfold bindingOf in Hby.
    destruct (lookupBinding st y) as [[e b] |] eqn:Ly; simpl in Hby; [| discriminate].
    injection Hby as ->.
    assert (L2 : lookupBinding st2 y = Some (e, mkBinding k (Some u))).
    { unfold st2, lookupBinding. rewrite putBinding_envs, length_alter. simpl.
      rewrite lookupF_alter_ne by congruence.
      pose proof (lookupBinding_pushEnv_other st (lexicalBindings lex) y Hwf Hly) as H.
      unfold lookupBinding in H. simpl in H. rewrite H. exact Ly. }
    assert (E2 : assign y w st2
                 = (Normal w, putBinding e y (mkBinding k (Some w)) st2)).
    { unfold assign. rewrite L2. simpl. destruct k; congruence || reflexivity. }
    set (st3 := putBinding e y (mkBinding k (Some w)) st2) in E2.
    exists (setCur (cur st) st3).
    destruct Hwf as [Hcur Hchain].
    (* resolution from the record of the enclosing code, after the block *)
    assert (Hback : forall z,
      lookupF (length (envs st2)) (envs st2) (cur st) z
      = lookupF (length (envs st)) (envs st) (cur st) z).
    { intros z. unfold st2. rewrite putBinding_envs.
      apply (lookupF_after_block (envs st) r (cur st) z); assumption. }
    assert (Hbx : bindingOf (setCur (cur st) st3) x = bindingOf st x).
    { unfold bindingOf, lookupBinding, st3. simpl.
      rewrite length_alter. rewrite lookupF_alter_ne by exact Hxy.
      rewrite Hback. reflexivity. }
    split; [| split; [exact Hbx | split; [| split; [reflexivity |]]]].
    + unfold block, finally. fold st1.
      rewrite (bind_run _ _ _ _ _ E1). unfold varInit.
      rewrite (bind_run _ _ _ _ _ E2). reflexivity.
    + unfold bindingOf, lookupBinding, st3. simpl. rewrite length_alter.
      rewrite (lookupF_alter_same _ _ _ e y (mkBinding k (Some u))); [reflexivity |].
      rewrite Hback. exact Ly.
    + intros Hnone. unfold getBinding.
      unfold bindingOf in Hbx, Hnone. rewrite Hnone in Hbx.
      destruct (lookupBinding (setCur (cur st) st3) x) as [[e' b'] |]; [discriminate |].
      reflexivity.
Qed.

Lemma let_is_block_scoped_var_is_not_witness :
  let st := mkState [mkEnv (list_to_map [("p", mkBinding KVar (Some VUndefined))]) None]
              0 [] [] in
  fst (block [("q", KLet)] (initializeBinding "q" (num 2) ;; getBinding "q") st)
  = Normal (num 2) /\
  (exists st',
     block [("q", KLet)] (initializeBinding "q" (num 2) ;; varInit "p" (num 1)) st
     = (Normal (), st')
     /\ bindingOf st' "q" = bindingOf st "q"
     /\ bindingOf st' "p" = Some (mkBinding KVar (Some (num 1)))
     /\ cur st' = cur st
     /\ (bindingOf st "q" = None ->
         getBinding "q" st'
         = (Thrown (mkError ReferenceError ("q" ++ " is not defined")), st'))) /\
  output VariableBasics.exercise3_block_scope =
    [[DString (nl ++ "--- Exercise 3: Block Scope ---")];
     [DString "Value of 'p_ex3' outside block:"; DNumber (Num.of_int 1)];
     [DString "Error accessing 'q_ex3':"; DString "q_ex3 is not defined"];
     [DString "Error accessing 'r_ex3':"; DString "r_ex3 is not defined"]].
Proof.
  intros st.
  apply (let_is_block_scoped_var_is_not st [("q", KLet)] "q" "p" (num 2) (num 1)
           VUndefined KVar).
  - split; [simpl; lia |]. intros e r p Hr Ho.
    destruct e as [| e]; simpl in Hr; [| destruct e; discriminate].
    injection Hr as <-. discriminate.
  - apply (bool_decide_unpack _). vm_compute. reflexivity.
  - apply (bool_decide_unpack _). vm_compute. reflexivity.
  - reflexivity.
  - discriminate.
Defined.

(** X14.  Hoisted functions.  At the entry of a script, before any
    statement has run, a call of a declared function f runs its body,
    for every body: the name is bound to its function object from the
    start.  A call of a name x that the script declares with var only
    throws the TypeError "x is not a function" and runs nothing of the
    body: x is undefined until the assignment of the function expression
    runs.  Q2 prints the line of sayHello and the error of sayHi, and
    Q5 of the second round the error of sayHi_q5. *)
Theorem declared_functions_are_callable_at_entry {A : Type} (st : state) (r : envRecord)
    (funs vars : list string) (lex : list (string * bindingKind)) (f x : string)
    (code : M A) :
  envs st !! cur st = Some r ->
  f ∈ funs -> f ∉ (fst <$> lex) ->
  x ∈ vars -> x ∉ funs -> x ∉ (fst <$> lex) -> bindings r !! x = None ->
  call f code (scriptEntry funs vars lex st) = code (scriptEntry funs vars lex st) /\
  call x code (scriptEntry funs vars lex st)
  = (Thrown (mkError TypeError (x ++ " is not a function")), scriptEntry funs vars lex st) /\
  output VariableQuestions.q2_function_hoisting =
    [[DString (nl ++ "--- Q2: Function Hoisting ---")];
     [DString "sayHello() output: Hello!"];
     [DString "sayHi() error:"; DString "sayHi is not a function"]] /\
  output Round2.q5_function_hoisting_var =
    [[DString (nl ++ "--- Q5: Function Hoisting with Var ---")];
     [DString "Q5 Error:"; DString "sayHi_q5 is not a function"]].
Proof.
  intros Hr Hf Hflex Hx Hxf Hxlex Hxr.
  split; [| split; [| split; vm_compute; reflexivity]].
  - destruct (functionBindings_declared (length (store st)) funs f Hf) as (i & Hi & Hb).
    assert (L : lookupBinding (scriptEntry funs vars lex st) f
                = Some (cur st, mkBinding KFunction (Some (VObject (length (store st) + i))))).
    { apply (lookupBinding_scriptEntry st funs vars lex r); [exact Hr |].
      simpl. rewrite <- !assoc_L by apply _.
      rewrite lookup_union_r by (apply lexicalBindings_other; exact Hflex).
      apply lookup_union_Some_l. exact Hb. }
    unfold call, bind, getBinding. rewrite L. simpl.
    rewrite lookup_app_r by lia.
    replace (length (store st) + i - length (store st))%nat with i by lia.
    rewrite list_lookup_fmap, Hi. reflexivity.
  - assert (L : lookupBinding (scriptEntry funs vars lex st) x
                = Some (cur st, mkBinding KVar (Some VUndefined))).
    { apply (lookupBinding_scriptEntry st funs vars lex r); [exact Hr |].
      simpl. rewrite <- !assoc_L by apply _.
      rewrite lookup_union_r by (apply lexicalBindings_other; exact Hxlex).
      rewrite lookup_union_r by (apply functionBindings_other; exact Hxf).
      rewrite lookup_union_r by exact Hxr.
      apply varBindings_declared. exact Hx. }
    unfold call, bind, getBinding. rewrite L. reflexivity.
Qed.

Lemma declared_functions_are_callable_at_entry_witness :
  call "greet" (console_log [str "hello"])
    (scriptEntry ["greet"] ["later"] [] initialState)
  = console_log [str "hello"] (scriptEntry ["greet"] ["later"] [] initialState) /\
  call "later" (console_log [str "hello"])
    (scriptEntry ["greet"] ["later"] [] initialState)
  = (Thrown (mkError TypeError ("later" ++ " is not a function")),
     scriptEntry ["greet"] ["later"] [] initialState) /\
  output VariableQuestions.q2_function_hoisting =
    [[DString (nl ++ "--- Q2: Function Hoisting ---")];
     [DString "sayHello() output: Hello!"];
     [DString "sayHi() error:"; DString "sayHi is not a function"]] /\
  output Round2.q5_function_hoisting_var =
    [[DString (nl ++ "--- Q5: Function Hoisting with Var ---")];
     [DString "Q5 Error:"; DString "sayHi_q5 is not a function"]].
Proof.
  apply (declared_functions_are_callable_at_entry initialState (mkEnv ∅ None)
           ["greet"] ["later"] [] "greet" "later" (console_log [str "hello"]));
    try reflexivity; apply (bool_decide_unpack _); vm_compute; reflexivity.
Defined.

(** ** Truthiness *)

Section TruthFacts.

Lemma toBoolean_num (z : Z) : Z.abs z < 2 ^ 53 -> toBoolean (num z) = negb (z =? 0).
Proof.
  intros Hz. destruct (Z.eqb_spec z 0) as [-> | Hnz]; [reflexivity |].
  destruct (of_int_finite z Hz Hnz) as (s & m & e & Heq).
  unfold num. rewrite Heq. reflexivity.
Qed.

End TruthFacts.

(** X15.  [??] against [||], and assignments inside them.  For every
    value v and default d, [v ?? d] and [v || d] give different results
    only when v is false, a zero, NaN or the empty string, where [??]
    keeps v.  [y_q3 ?? ((y_q3 = 10) && 20)] is 20 and sets y_q3 to 10 when
    y_q3 is undefined or null, and otherwise is the value of y_q3 and
    assigns nothing; [(x_case5 = 0) || (x_case5 = 5)] is 5 and leaves
    x_case5 at 5 whatever it held.  The sections print default and 0,
    then 5 and 5, then 20 and 10. *)
Theorem nullish_keeps_falsy_values (st : state) (v d u : value) (ky kx : bindingKind) :
  bindingOf st "y_q3" = Some (mkBinding ky (Some v)) -> ky <> KConst ->
  bindingOf st "x_case5" = Some (mkBinding kx (Some u)) -> kx <> KConst ->
  (nullish (ret v) (ret d) st <> or_ (ret v) (ret d) st ->
   nullish (ret v) (ret d) st = (Normal v, st)
   /\ (v = VBool false \/ v = VString ""
       \/ exists n, v = VNumber n /\ (Num.isZero n || Num.isNaN n) = true)) /\
  match v with
  | VUndefined | VNull =>
      exists st', LogicalCorners.nullish_assign st = (Normal (num 20), st')
                  /\ bindingOf st' "y_q3" = Some (mkBinding ky (Some (num 10)))
  | _ => LogicalCorners.nullish_assign st = (Normal v, st)
  end /\
  (exists st', LogicalCorners.assign_or_assign st = (Normal (num 5), st')
               /\ bindingOf st' "x_case5" = Some (mkBinding kx (Some (num 5)))) /\
  output LogicalCorners.case1_or_vs_nullish =
    [[DString (nl ++ "--- Case 1: || vs ?? ---")];
     [DString "0 || 'default' ->"; DString "default"];
     [DString "0 ?? 'default' ->"; DNumber (Num.of_int 0)]] /\
  output LogicalCorners.case5_assignment_in_expression =
    [[DString (nl ++ "--- Case 5: Assignment in Expression ---")];
     [DString "Result of (x = 0) || (x = 5):"; DNumber (Num.of_int 5)];
     [DString "Final value of x:"; DNumber (Num.of_int 5)]] /\
  output LogicalCorners.q3_nullish_assignment =
    [[DString "Q3: y ?? (y = 10) && 20 ->"; DNumber (Num.of_int 20)];
     [DString "   (Final value of y is:"; DNumber (Num.of_int 10); DString ")"]].
Proof.
  intros Hy Hky Hx Hkx.
  split; [| split; [| split; [| split; [| split]]]]; try (vm_compute; reflexivity).
  - intros Hne. destruct v as [| | b | n | s | l]; try (exfalso; apply Hne; reflexivity).
    + destruct b; [exfalso; apply Hne; reflexivity |].
      split; [reflexivity | left; reflexivity].
    + split; [reflexivity |]. right. right. exists n. split; [reflexivity |].
      destruct (Num.isZero n || Num.isNaN n) eqn:E; [reflexivity |].
      exfalso. apply Hne. unfold or_, nullish, bind, ret. simpl. rewrite E. reflexivity.
    + split; [reflexivity |]. right. left.
      destruct (String.eqb_spec s "") as [-> | Hs]; [reflexivity |].
      exfalso. apply Hne. unfold or_, nullish, bind, ret. simpl.
      rewrite (proj2 (String.eqb_neq s "") Hs). reflexivity.
  - assert (Hassign : exists st',
      and_ (assign "y_q3" (num 10)) (ret (num 20)) st = (Normal (num 20), st')
      /\ bindingOf st' "y_q3" = Some (mkBinding ky (Some (num 10)))).
    { destruct (assign_mutable st "y_q3" ky v (num 10) Hy Hky) as (st1 & E & Hb & _).
      exists st1. split; [| exact Hb]. unfold and_.
      rewrite (bind_run _ _ _ _ _ E). reflexivity. }
    unfold LogicalCorners.nullish_assign, nullish.
    rewrite (bind_run _ _ _ _ _ (getBinding_value _ _ _ _ Hy)).
    destruct v; try reflexivity; exact Hassign.
  - destruct (assign_mutable st "x_case5" kx u (num 0) Hx Hkx) as (st1 & E1 & Hb1 & _).
    destruct (assign_mutable st1 "x_case5" kx (num 0) (num 5) Hb1 Hkx) as (st2 & E2 & Hb2 & _).
    exists st2. split; [| exact Hb2]. unfold LogicalCorners.assign_or_assign, or_.
    rewrite (bind_run _ _ _ _ _ E1). exact E2.
Qed.

Lemma nullish_keeps_falsy_values_witness :
  let st := mkState [mkEnv (list_to_map [("y_q3", mkBinding KLet (Some (num 0)));
                                         ("x_case5", mkBinding KVar (Some VNull))]) None]
              0 [] [] in
  (nullish (ret (num 0)) (ret (str "none")) st <> or_ (ret (num 0)) (ret (str "none")) st ->
   nullish (ret (num 0)) (ret (str "none")) st = (Normal (num 0), st)
   /\ (num 0 = VBool false \/ num 0 = VString ""
       \/ exists n, num 0 = VNumber n /\ (Num.isZero n || Num.isNaN n) = true)) /\
  LogicalCorners.nullish_assign st = (Normal (num 0), st) /\
  (exists st', LogicalCorners.assign_or_assign st = (Normal (num 5), st')
               /\ bindingOf st' "x_case5" = Some (mkBinding KVar (Some (num 5)))) /\
  output LogicalCorners.case1_or_vs_nullish =
    [[DString (nl ++ "--- Case 1: || vs ?? ---")];
     [DString "0 || 'default' ->"; DString "default"];
     [DString "0 ?? 'default' ->"; DNumber (Num.of_int 0)]] /\
  output LogicalCorners.case5_assignment_in_expression =
    [[DString (nl ++ "--- Case 5: Assignment in Expression ---")];
     [DString "Result of (x = 0) || (x = 5):"; DNumber (Num.of_int 5)];
     [DString "Final value of x:"; DNumber (Num.of_int 5)]] /\
  output LogicalCorners.q3_nullish_assignment =
    [[DString "Q3: y ?? (y = 10) && 20 ->"; DNumber (Num.of_int 20)];
     [DString "   (Final value of y is:"; DNumber (Num.of_int 10); DString ")"]].
Proof.
  intros st.
  apply (nullish_keeps_falsy_values st (num 0) (str "none") VNull KLet KVar);
    [reflexivity | discriminate | reflexivity | discriminate].
Defined.

(** X16.  Validation by truthiness.  validateInput(v) returns
    Boolean(v) for every value v.  handleApiResponse(data) never throws on
    null and undefined, for which it returns "No records" thanks to the
    optional chaining; for an array it returns "Records found" exactly
    when the array is not empty, and for a string exactly when the string
    is not empty.  Both leave heap and console as they are. *)
Theorem validation_follows_truthiness (st : state) (l : nat) (es : list value)
    (fr : bool) (v : value) (s : string) :
  store st !! l = Some (mkObject (OArray es) fr) ->
  Z.of_nat (length es) < 2 ^ 32 ->
  Z.of_nat (String.length s) < 2 ^ 32 ->
  (exists st', BooleanUses.validateInput v st = (Normal (VBool (toBoolean v)), st')
               /\ store st' = store st /\ console st' = console st /\ cur st' = cur st) /\
  (exists st', BooleanUses.handleApiResponse VNull st = (Normal (str "No records"), st')
               /\ store st' = store st /\ console st' = console st /\ cur st' = cur st) /\
  (exists st', BooleanUses.handleApiResponse VUndefined st = (Normal (str "No records"), st')
               /\ store st' = store st /\ console st' = console st /\ cur st' = cur st) /\
  (exists st', BooleanUses.handleApiResponse (VObject l) st
               = (Normal (str match es with [] => "No records" | _ => "Records found" end),
                  st')
               /\ store st' = store st /\ console st' = console st /\ cur st' = cur st) /\
  (exists st', BooleanUses.handleApiResponse (VString s) st
               = (Normal (str (if String.eqb s "" then "No records" else "Records found")),
                  st')
               /\ store st' = store st /\ console st' = console st /\ cur st' = cur st) /\
  result BooleanUses.real_world_use_cases = Normal () /\
  output BooleanUses.real_world_use_cases = [].
Proof.
  intros Hl Hlen Hslen.
  (* the body of handleApiResponse once data.length is known *)
  assert (Hhandle : forall data len,
    (forall s1, store s1 = store st -> optionalProp data "length" s1 = (Normal len, s1)) ->
    exists st',
      BooleanUses.handleApiResponse data st
      = (Normal (str (if toBoolean len then "Records found" else "No records")), st')
      /\ store st' = store st /\ console st' = console st /\ cur st' = cur st).
  { intros data len Hopt. unfold BooleanUses.handleApiResponse, functionScope, finally.
    set (s1 := functionEntry _ _ _ _ st).
    pose (r := mkEnv (paramBindings [("data", data)] ∪ varBindings [] ∪ lexicalBindings [])
                     (Some 0%nat)).
    assert (R1 : envs s1 !! cur s1 = Some r) by apply (pushEnv_local st r).
    rewrite (bind_run _ _ _ _ _ (getBinding_local s1 r "data" KParam data R1 eq_refl)).
    rewrite (bind_run _ _ _ _ _ (Hopt s1 eq_refl)).
    unfold not_. simpl toBoolean.
    destruct (toBoolean len); simpl; eexists; (split; [reflexivity |]);
      repeat split; reflexivity. }
  split; [| split; [| split; [| split; [| split; [| split; vm_compute; reflexivity]]]]].
  - unfold BooleanUses.validateInput, functionScope, finally.
    set (s1 := functionEntry _ _ _ _ st).
    pose (r := mkEnv (paramBindings [("userInput", v)] ∪ varBindings [] ∪ lexicalBindings [])
                     (Some 0%nat)).
    assert (R1 : envs s1 !! cur s1 = Some r) by apply (pushEnv_local st r).
    rewrite (bind_run _ _ _ _ _ (getBinding_local s1 r "userInput" KParam v R1 eq_refl)).
    unfold not_. simpl toBoolean.
    destruct (toBoolean v); simpl; eexists; (split; [reflexivity |]);
      repeat split; reflexivity.
  - apply (Hhandle VNull VUndefined). intros s1 _. reflexivity.
  - apply (Hhandle VUndefined VUndefined). intros s1 _. reflexivity.
  - destruct (Hhandle (VObject l) (num (Z.of_nat (length es)))) as (st' & E & Hrest).
    { intros s1 Hs. unfold optionalProp, getProp. rewrite Hs, Hl. reflexivity. }
    exists st'. split; [| exact Hrest]. rewrite E.
    rewrite toBoolean_num by lia.
    destruct es; reflexivity.
  - destruct (Hhandle (VString s) (num (Z.of_nat (String.length s)))) as (st' & E & Hrest).
    { intros s1 Hs. reflexivity. }
    exists st'. split; [| exact Hrest]. rewrite E.
    rewrite toBoolean_num by lia.
    destruct s; reflexivity.
Qed.

Lemma validation_follows_truthiness_witness :
  let st := mkState [mkEnv ∅ None] 0 [mkObject (OArray [num 7]) false] [] in
  (exists st', BooleanUses.validateInput (num 0) st
               = (Normal (VBool (toBoolean (num 0))), st')
               /\ store st' = store st /\ console st' = console st /\ cur st' = cur st) /\
  (exists st', BooleanUses.handleApiResponse VNull st = (Normal (str "No records"), st')
               /\ store st' = store st /\ console st' = console st /\ cur st' = cur st) /\
  (exists st', BooleanUses.handleApiResponse VUndefined st = (Normal (str "No records"), st')
               /\ store st' = store st /\ console st' = console st /\ cur st' = cur st) /\
  (exists st', BooleanUses.handleApiResponse (VObject 0) st
               = (Normal (str "Records found"), st')
               /\ store st' = store st /\ console st' = console st /\ cur st' = cur st) /\
  (exists st', BooleanUses.handleApiResponse (VString "") st
               = (Normal (str "No records"), st')
               /\ store st' = store st /\ console st' = console st /\ cur st' = cur st) /\
  result BooleanUses.real_world_use_cases = Normal () /\
  output BooleanUses.real_world_use_cases = [].
Proof.
  intros st.
  apply (validation_follows_truthiness st 0 [num 7] false (num 0) "");
    [reflexivity | reflexivity | reflexivity].
Defined.

(** ** Mapping over arrays *)

Section MapFacts.

Lemma getIndex_array (s : state) (la : nat) (es : list value) (fr : bool) (k : nat) :
  store s !! la = Some (mkObject (OArray es) fr) ->
  getIndex (VObject la) k s = (Normal (element es k), s).
Proof. intros Hl. unfold getIndex. rewrite Hl. reflexivity. Qed.

Lemma arrayLength_array (s : state) (la : nat) (es : list value) (fr : bool) :
  store s !! la = Some (mkObject (OArray es) fr) ->
  arrayLength (VObject la) s = (Normal (length es), s).
Proof. intros Hl. unfold arrayLength. rewrite Hl. reflexivity. Qed.

(** One call of the callback of lines 48-50. *)
Lemma activate_second_run (s : state) (l : nat) (ps : list (string * value)) (fr : bool) :
  store s !! l = Some (mkObject (OProps ps) fr) -> NoDup (fst <$> ps) ->
  exists s',
    SpreadTricks.activate_second (VObject l) s
    = (Normal (if strictEq (default VUndefined (propLookup "id" ps)) (num 2)
               then VObject (length (store s)) else VObject l), s')
    /\ store s'
       = (store s
          ++ (if strictEq (default VUndefined (propLookup "id" ps)) (num 2)
              then [mkObject (OProps (propSet "active" (VBool true) ps)) false]
              else []))%list
    /\ console s' = console s /\ cur s' = cur s.
Proof.
  intros Hl Hnd. unfold SpreadTricks.activate_second, functionScope, finally.
  set (s1 := functionEntry _ _ _ _ s).
  pose (r := mkEnv (paramBindings [("u", VObject l)] ∪ varBindings [] ∪ lexicalBindings [])
                   (Some 0%nat)).
  assert (R1 : envs s1 !! cur s1 = Some r) by apply (pushEnv_local s r).
  assert (Hl1 : store s1 !! l = Some (mkObject (OProps ps) fr)) by exact Hl.
  rewrite (bind_run _ _ _ _ _ (getBinding_local s1 r "u" KParam (VObject l) R1 eq_refl)).
  rewrite (bind_run _ _ _ _ _ (getProp_object s1 l ps fr "id" Hl1)).
  rewrite (bind_run _ _ s1 (VBool (strictEq (default VUndefined (propLookup "id" ps)) (num 2)))
             s1 eq_refl).
  unfold toBoolean.
  destruct (strictEq (default VUndefined (propLookup "id" ps)) (num 2)); cbv iota.
  - rewrite (bind_run _ _ _ _ _ (getBinding_local s1 r "u" KParam (VObject l) R1 eq_refl)).
    unfold objectLiteral, alloc. simpl fold_left. rewrite Hl. simpl.
    rewrite (copy_props ps []) by exact Hnd.
    eexists. split; [reflexivity |]. repeat split; reflexivity.
  - rewrite (getBinding_local s1 r "u" KParam (VObject l) R1 eq_refl).
    eexists. split; [reflexivity |]. simpl. rewrite app_nil_r. repeat split; reflexivity.
Qed.

(** The loop of [map] with that callback over an array of objects. *)
Lemma mapFrom_activate_second (st : state) (la : nat) (es : list value) (fr : bool) :
  store st !! la = Some (mkObject (OArray es) fr) ->
  (forall i e, es !! i = Some e ->
     exists l ps fr', e = VObject l
                      /\ store st !! l = Some (mkObject (OProps ps) fr')
                      /\ NoDup (fst <$> ps)) ->
  forall (count k : nat) (acc : list value) (s : state) (extra : heap),
    (k + count = length es)%nat -> store s = (store st ++ extra)%list ->
    exists rs s' extra',
      mapFrom SpreadTricks.activate_second (VObject la) count k acc s
      = (Normal (acc ++ rs)%list, s')
      /\ length rs = count
      /\ store s' = (store s ++ extra')%list
      /\ console s' = console s /\ cur s' = cur s
      /\ forall j l ps fr',
           (j < count)%nat -> es !! (k + j)%nat = Some (VObject l) ->
           store st !! l = Some (mkObject (OProps ps) fr') ->
           if strictEq (default VUndefined (propLookup "id" ps)) (num 2)
           then exists l', rs !! j = Some (VObject l')
                           /\ (length (store st) <= l')%nat
                           /\ store s' !! l'
                              = Some (mkObject (OProps (propSet "active" (VBool true) ps))
                                        false)
           else rs !! j = Some (VObject l).
Proof.
  intros Hla Hes. induction count as [| c IH]; intros k acc s extra Hk Hs.
  - exists [], s, []. simpl. rewrite !app_nil_r.
    repeat split; try reflexivity. intros j l ps fr' Hj. lia.
  - assert (Hlt : (k < length es)%nat) by lia.
    destruct (lookup_lt_is_Some_2 es k Hlt) as [e He].
    destruct (Hes k e He) as (l0 & ps0 & fr0 & -> & Hl0 & Hnd0).
    assert (Hpre : forall i o, store st !! i = Some o -> store s !! i = Some o).
    { intros i o Hi. rewrite Hs. rewrite lookup_app_l by (eapply lookup_lt_Some, Hi).
      exact Hi. }
    assert (E1 : getIndex (VObject la) k s = (Normal (VObject l0), s)).
    { rewrite (getIndex_array s la es fr k (Hpre _ _ Hla)).
      unfold element. rewrite He. reflexivity. }
    destruct (activate_second_run s l0 ps0 fr0 (Hpre _ _ Hl0) Hnd0)
      as (s1 & E2 & Hs1 & Hc1 & Hcur1).
    set (cond := strictEq (default VUndefined (propLookup "id" ps0)) (num 2)) in *.
    set (r := if cond then VObject (length (store s)) else VObject l0) in *.
    set (ex1 := if cond
                then [mkObject (OProps (propSet "active" (VBool true) ps0)) false]
                else []) in *.
    destruct (IH (S k) (acc ++ [r])%list s1 (extra ++ ex1)%list) as
      (rs & s' & extra' & E3 & Hlen & Hs' & Hc' & Hcur' & Hrs).
    { lia. }
    { rewrite Hs1, Hs, <- app_assoc. reflexivity. }
    exists (r :: rs), s', (ex1 ++ extra')%list.
    split.
    { simpl mapFrom. rewrite (bind_run _ _ _ _ _ E1). rewrite (bind_run _ _ _ _ _ E2).
      rewrite E3. rewrite <- app_assoc. reflexivity. }
    split; [simpl; rewrite Hlen; reflexivity |].
    split; [rewrite Hs', Hs1, <- app_assoc; reflexivity |].
    split; [rewrite Hc', Hc1; reflexivity |].
    split; [rewrite Hcur', Hcur1; reflexivity |].
    intros j l ps fr' Hj Hej Hlj. destruct j as [| j].
    + rewrite Nat.add_0_r in Hej. rewrite He in Hej. injection Hej as <-.
      rewrite Hl0 in Hlj. injection Hlj as <- <-.
      fold cond. unfold r, ex1 in *. destruct cond.
      * exists (length (store s)). split; [reflexivity |].
        split; [rewrite Hs, length_app; lia |].
        rewrite Hs', Hs1, <- app_assoc. rewrite lookup_app_r by lia.
        rewrite Nat.sub_diag. reflexivity.
      * reflexivity.
    + replace (k + S j)%nat with (S k + j)%nat in Hej by lia.
      apply (Hrs j l ps fr' ltac:(lia) Hej Hlj).
Qed.

End MapFacts.

(** X17.  The immutable update with map.  For any array of objects,
    [users.map(u => u.id === 2 ? { ...u, active: true } : u)] returns a new
    array of the same length in which an element whose id is not 2 is the
    very same object as in the original array, and an element whose id is
    2 is a new object with the properties of the original and active set
    to true.  Nothing that was on the heap before changes: the original
    array and every object in it are as they were.  The section prints
    the original array with active false twice and the updated one with
    active true for id 2. *)
Theorem map_update_leaves_original_unchanged (st : state) (la : nat) (es : list value)
    (fr : bool) :
  store st !! la = Some (mkObject (OArray es) fr) ->
  (forall i e, es !! i = Some e ->
     exists l ps fr', e = VObject l
                      /\ store st !! l = Some (mkObject (OProps ps) fr')
                      /\ NoDup (fst <$> ps)) ->
  (exists n rs st' extra,
     arrayMap (VObject la) SpreadTricks.activate_second st = (Normal (VObject n), st')
     /\ store st' !! n = Some (mkObject (OArray rs) false)
     /\ (length (store st) <= n)%nat
     /\ length rs = length es
     /\ (forall j l ps fr',
           es !! j = Some (VObject l) ->
           store st !! l = Some (mkObject (OProps ps) fr') ->
           if strictEq (default VUndefined (propLookup "id" ps)) (num 2)
           then exists l', rs !! j = Some (VObject l')
                           /\ (length (store st) <= l')%nat
                           /\ store st' !! l'
                              = Some (mkObject (OProps (propSet "active" (VBool true) ps))
                                        false)
           else rs !! j = Some (VObject l))
     /\ store st' = (store st ++ extra)%list
     /\ console st' = console st /\ cur st' = cur st) /\
  output SpreadTricks.immutable_array_updates =
    [[DString (nl ++ "--- 3. Immutable Array Updates ---")];
     [DString "Original users array:";
      DArray [DObject [("id", DNumber (Num.of_int 1)); ("active", DBool false)];
              DObject [("id", DNumber (Num.of_int 2)); ("active", DBool false)]]];
     [DString "Updated users array (immutable):";
      DArray [DObject [("id", DNumber (Num.of_int 1)); ("active", DBool false)];
              DObject [("id", DNumber (Num.of_int 2)); ("active", DBool true)]]];
     [DString "👉 Spread avoids mutation, which is key for state management (e.g., React)."]].
Proof.
  intros Hla Hes. split; [| vm_compute; reflexivity].
  destruct (mapFrom_activate_second st la es fr Hla Hes (length es) 0%nat [] st [])
    as (rs & s' & extra' & E & Hlen & Hs' & Hc' & Hcur' & Hrs).
  { lia. }
  { rewrite app_nil_r. reflexivity. }
  exists (length (store s')), rs,
    (setStore (store s' ++ [mkObject (OArray rs) false]) s'),
    (extra' ++ [mkObject (OArray rs) false])%list.
  split.
  { unfold arrayMap. rewrite (bind_run _ _ _ _ _ (arrayLength_array st la es fr Hla)).
    rewrite (bind_run _ _ _ _ _ E). reflexivity. }
  split; [simpl; rewrite lookup_app_r by lia; rewrite Nat.sub_diag; reflexivity |].
  split; [rewrite Hs', length_app; lia |].
  split; [exact Hlen |].
  split.
  { intros j l ps fr' Hj Hl.
    assert (Hjlt : (j < length es)%nat) by (eapply lookup_lt_Some, Hj).
    pose proof (Hrs j l ps fr' Hjlt Hj Hl) as H.
    destruct (strictEq (default VUndefined (propLookup "id" ps)) (num 2)); [| exact H].
    destruct H as (l' & Hr & Hge & Hst). exists l'. split; [exact Hr |].
    split; [exact Hge |]. simpl.
    rewrite lookup_app_l by (eapply lookup_lt_Some, Hst). exact Hst. }
  split; [simpl; rewrite Hs', <- app_assoc; reflexivity |].
  split; [exact Hc' | exact Hcur'].
Qed.

Lemma map_update_leaves_original_unchanged_witness :
  let st := mkState [mkEnv ∅ None] 0
              [mkObject (OProps [("id", num 2); ("name", str "Bob")]) false;
               mkObject (OProps [("id", num 1)]) true;
               mkObject (OArray [VObject 0; VObject 1]) false] [] in
  (exists n rs st' extra,
     arrayMap (VObject 2) SpreadTricks.activate_second st = (Normal (VObject n), st')
     /\ store st' !! n = Some (mkObject (OArray rs) false)
     /\ (length (store st) <= n)%nat
     /\ length rs = length [VObject 0; VObject 1]
     /\ (forall j l ps fr',
           [VObject 0; VObject 1] !! j = Some (VObject l) ->
           store st !! l = Some (mkObject (OProps ps) fr') ->
           if strictEq (default VUndefined (propLookup "id" ps)) (num 2)
           then exists l', rs !! j = Some (VObject l')
                           /\ (length (store st) <= l')%nat
                           /\ store st' !! l'
                              = Some (mkObject (OProps (propSet "active" (VBool true) ps))
                                        false)
           else rs !! j = Some (VObject l))
     /\ store st' = (store st ++ extra)%list
     /\ console st' = console st /\ cur st' = cur st) /\
  output SpreadTricks.immutable_array_updates =
    [[DString (nl ++ "--- 3. Immutable Array Updates ---")];
     [DString "Original users array:";
      DArray [DObject [("id", DNumber (Num.of_int 1)); ("active", DBool false)];
              DObject [("id", DNumber (Num.of_int 2)); ("active", DBool false)]]];
     [DString "Updated users array (immutable):";
      DArray [DObject [("id", DNumber (Num.of_int 1)); ("active", DBool false)];
              DObject [("id", DNumber (Num.of_int 2)); ("active", DBool true)]]];
     [DString "👉 Spread avoids mutation, which is key for state management (e.g., React)."]].
Proof.
  intros st.
  apply (map_update_leaves_original_unchanged st 2 [VObject 0; VObject 1] false).
  - reflexivity.
  - intros i e Hi. destruct i as [| [| i]]; simpl in Hi; try discriminate.
    + injection Hi as <-. exists 0%nat, [("id", num 2); ("name", str "Bob")], false.
      split; [reflexivity |]. split; [reflexivity |].
      apply (bool_decide_unpack _). vm_compute. reflexivity.
    + injection Hi as <-. exists 1%nat, [("id", num 1)], true.
      split; [reflexivity |]. split; [reflexivity |].
      apply (bool_decide_unpack _). vm_compute. reflexivity.
Defined.

Section RestParameterFacts.

Lemma inspect_strings (fuel : nat) (h : heap) (ts : list string) :
  map (inspectF fuel h) (VString <$> ts) = DString <$> ts.
Proof.
  induction ts as [| t ts IH]; [reflexivity |].
  change (inspectF fuel h (VString t) :: map (inspectF fuel h) (VString <$> ts)
          = DString t :: (DString <$> ts)).
  rewrite IH. destruct fuel; reflexivity.
Qed.

Lemma inspect_array (h : heap) (l : nat) (es : list value) (fr : bool) :
  h !! l = Some (mkObject (OArray es) fr) ->
  inspect h (VObject l) = DArray (map (inspectF 2 h) es).
Proof. intros Hl. unfold inspect. simpl. rewrite Hl. reflexivity. Qed.

(** One call of the callback of line 62 on a string. *)
Lemma bracketed_run (s : state) (t : string) :
  exists s',
    SpreadTricks.bracketed (VString t) s = (Normal (VString ("[" ++ t ++ "]")), s')
    /\ store s' = store s /\ console s' = console s /\ cur s' = cur s.
Proof.
  unfold SpreadTricks.bracketed, functionScope, finally.
  set (s1 := functionEntry _ _ _ _ s).
  pose (r := mkEnv (paramBindings [("arg", VString t)] ∪ varBindings [] ∪ lexicalBindings [])
                   (Some (cur s))).
  assert (R1 : envs s1 !! cur s1 = Some r) by apply (pushEnv_local s r).
  rewrite (bind_run _ _ _ _ _ (getBinding_local s1 r "arg" KParam (VString t) R1 eq_refl)).
  eexists. split; [reflexivity |]. repeat split; reflexivity.
Qed.

Lemma mapFrom_bracketed (la : nat) (ts : list string) (fr : bool) :
  forall (count k : nat) (acc : list value) (s : state),
    store s !! la = Some (mkObject (OArray (VString <$> ts)) fr) ->
    (k + count = length ts)%nat ->
    exists s',
      mapFrom SpreadTricks.bracketed (VObject la) count k acc s
      = (Normal (acc ++ ((fun t => VString ("[" ++ t ++ "]")) <$> drop k ts))%list, s')
      /\ store s' = store s /\ console s' = console s /\ cur s' = cur s.
Proof.
  induction count as [| c IH]; intros k acc s Hla Hk.
  - exists s. rewrite drop_ge by lia. simpl. rewrite app_nil_r. repeat split; reflexivity.
  - assert (Hlt : (k < length ts)%nat) by lia.
    destruct (lookup_lt_is_Some_2 ts k Hlt) as [t Ht].
    assert (E1 : getIndex (VObject la) k s = (Normal (VString t), s)).
    { rewrite (getIndex_array s la _ fr k Hla). unfold element.
      rewrite list_lookup_fmap, Ht. reflexivity. }
    destruct (bracketed_run s t) as (s1 & E2 & Hs1 & Hc1 & Hcur1).
    destruct (IH (S k) (acc ++ [VString ("[" ++ t ++ "]")])%list s1) as (s' & E3 & Hs' & Hc' & Hcur').
    { rewrite Hs1. exact Hla. }
    { lia. }
    exists s'. split.
    { simpl mapFrom. rewrite (bind_run _ _ _ _ _ E1). rewrite (bind_run _ _ _ _ _ E2).
      rewrite E3. rewrite <- app_assoc. simpl.
      rewrite (drop_S ts t k Ht). reflexivity. }
    split; [rewrite Hs', Hs1; reflexivity |].
    split; [rewrite Hc', Hc1; reflexivity | rewrite Hcur', Hcur1; reflexivity].
Qed.

End RestParameterFacts.

(** X18.  The rest parameter of logAll(first, ...rest).  Called with any
    list of strings, logAll binds first to the first argument, or to
    undefined when there is none, and rest to a new array of the other
    arguments, which is a real array even when it is empty: [rest.map]
    runs on it and gives the arguments in brackets.  The call prints
    three lines, allocates these two arrays and changes nothing else.
    The section prints A, [ 'B', 'C' ] and [ '[B]', '[C]' ]. *)
Theorem rest_parameter_collects_arguments (st : state) (ss : list string) :
  (exists st',
     SpreadTricks.logAll (VString <$> ss) st = (Normal VUndefined, st')
     /\ console st'
        = (console st
           ++ [[DString "  First argument:";
                match ss with [] => DUndefined | s :: _ => DString s end];
               [DString "  Rest of arguments (as a real array):";
                DArray (DString <$> drop 1 ss)];
               [DString "  Can we use .map() on rest? ->";
                DArray ((fun t => DString ("[" ++ t ++ "]")) <$> drop 1 ss)]])%list
     /\ store st'
        = (store st
           ++ [mkObject (OArray (VString <$> drop 1 ss)) false;
               mkObject (OArray ((fun t => VString ("[" ++ t ++ "]")) <$> drop 1 ss))
                 false])%list
     /\ cur st' = cur st) /\
  output SpreadTricks.rest_parameters =
    [[DString (nl ++ "--- 4. Rest Parameters for Flexible APIs ---")];
     [DString "  First argument:"; DString "A"];
     [DString "  Rest of arguments (as a real array):"; DArray [DString "B"; DString "C"]];
     [DString "  Can we use .map() on rest? ->"; DArray [DString "[B]"; DString "[C]"]]].
Proof.
  split; [| vm_compute; reflexivity].
  unfold SpreadTricks.logAll.
  set (n0 := length (store st)).
  set (st1 := setStore (store st ++ [mkObject (OArray (drop 1 (VString <$> ss))) false]) st).
  rewrite (bind_run (arrayRest (VString <$> ss) 1) _ st (VObject n0) st1 eq_refl).
  unfold functionScope, finally.
  set (s2 := functionEntry _ _ _ _ st1).
  pose (r := mkEnv (paramBindings [("first", element (VString <$> ss) 0); ("rest", VObject n0)]
                    ∪ varBindings [] ∪ lexicalBindings []) (Some 0%nat)).
  assert (R2 : envs s2 !! cur s2 = Some r) by apply (pushEnv_local st1 r).
  rewrite (bind_run _ _ _ _ _
             (getBinding_local s2 r "first" KParam (element (VString <$> ss) 0) R2 eq_refl)).
  set (s3 := setConsole (console s2 ++ [map (inspect (store s2))
                                          [str "  First argument:";
                                           element (VString <$> ss) 0]]) s2).
  rewrite (bind_run (console_log [str "  First argument:"; element (VString <$> ss) 0])
             _ s2 () s3 eq_refl).
  assert (R3 : envs s3 !! cur s3 = Some r) by exact R2.
  rewrite (bind_run _ _ _ _ _ (getBinding_local s3 r "rest" KParam (VObject n0) R3 eq_refl)).
  set (s4 := setConsole (console s3 ++ [map (inspect (store s3))
                                          [str "  Rest of arguments (as a real array):";
                                           VObject n0]]) s3).
  rewrite (bind_run (console_log [str "  Rest of arguments (as a real array):"; VObject n0])
             _ s3 () s4 eq_refl).
  assert (R4 : envs s4 !! cur s4 = Some r) by exact R2.
  rewrite (bind_run _ _ _ _ _ (getBinding_local s4 r "rest" KParam (VObject n0) R4 eq_refl)).
  (* rest.map(...) *)
  assert (Hrest : store s4 !! n0 = Some (mkObject (OArray (VString <$> drop 1 ss)) false)).
  { simpl. unfold n0. rewrite lookup_app_r by lia. rewrite Nat.sub_diag.
    rewrite fmap_drop. reflexivity. }
  destruct (mapFrom_bracketed n0 (drop 1 ss) false (length (drop 1 ss)) 0%nat [] s4 Hrest)
    as (s5 & E5 & Hs5 & Hc5 & Hcur5); [lia |].
  rewrite drop_0 in E5. simpl app in E5.
  assert (E6 : exists s6,
    arrayMap (VObject n0) SpreadTricks.bracketed s4
    = (Normal (VObject (S n0)), s6)
    /\ store s6
       = (store s4
          ++ [mkObject (OArray ((fun t => VString ("[" ++ t ++ "]")) <$> drop 1 ss)) false])%list
    /\ console s6 = console s4 /\ cur s6 = cur s4 /\ envs s6 = envs s5).
  { exists (setStore
              (store s5
               ++ [mkObject (OArray ((fun t => VString ("[" ++ t ++ "]")) <$> drop 1 ss))
                     false]) s5).
    split.
    - unfold arrayMap.
      rewrite (bind_run _ _ _ _ _ (arrayLength_array s4 n0 _ false Hrest)).
      rewrite length_fmap. rewrite (bind_run _ _ _ _ _ E5).
      unfold alloc. cbv beta. rewrite Hs5. simpl. rewrite length_app. simpl.
      replace (length (store st) + 1)%nat with (S n0) by (unfold n0; lia). reflexivity.
    - simpl. rewrite Hs5. repeat split; assumption. }
  destruct E6 as (s6 & E6 & Hs6 & Hc6 & Hcur6 & _).
  rewrite (bind_run _ _ _ _ _ E6).
  eexists. split; [reflexivity |]. simpl.
  split; [| split; [| reflexivity]].
  - assert (A1 : forall h, inspect h (element (VString <$> ss) 0)
                           = match ss with [] => DUndefined | t :: _ => DString t end)
      by (intros h; destruct ss; reflexivity).
    assert (A2 : inspect (store st ++ [mkObject (OArray (drop 1 (VString <$> ss))) false])
                   (VObject n0)
                 = DArray (DString <$> drop 1 ss)).
    { rewrite (inspect_array _ n0 (drop 1 (VString <$> ss)) false).
      - rewrite <- fmap_drop, inspect_strings. reflexivity.
      - unfold n0. rewrite lookup_app_r by lia. rewrite Nat.sub_diag. reflexivity. }
    assert (A3 : inspect (store s6) (VObject (S n0))
                 = DArray ((fun t => DString ("[" ++ t ++ "]")) <$> drop 1 ss)).
    { rewrite (inspect_array _ (S n0)
                 ((fun t => VString ("[" ++ t ++ "]")) <$> drop 1 ss) false).
      - f_equal. rewrite (list_fmap_compose (fun t => "[" ++ t ++ "]") VString).
        rewrite inspect_strings. rewrite <- list_fmap_compose. reflexivity.
      - rewrite Hs6. simpl.
        rewrite lookup_app_r by (rewrite length_app; simpl; unfold n0; lia).
        rewrite length_app. simpl.
        replace (S n0 - (length (store st) + 1))%nat with 0%nat by (unfold n0; lia).
        reflexivity. }
    rewrite Hc6. simpl. rewrite <- !app_assoc. simpl.
    rewrite A1, A2, A3. reflexivity.
  - rewrite Hs6. simpl. rewrite <- app_assoc. rewrite <- !fmap_drop. reflexivity.
Qed.

(** ** Decimal numerals: from a number to its string and back *)

Section NumeralFacts.

Import Str Conv.

(** The characters that print a digit. *)
Lemma pretty_N_char_digit (d : N) :
  (d < 10)%N ->
  pretty_N_char d ∈ ["0"; "1"; "2"; "3"; "4"; "5"; "6"; "7"; "8"; "9"]%char
  /\ digitVal 10 (pretty_N_char d) = Some (Z.of_N d).
Proof.
  intros Hd.
  assert (H : (d = 0 \/ d = 1 \/ d = 2 \/ d = 3 \/ d = 4 \/ d = 5 \/ d = 6 \/ d = 7
               \/ d = 8 \/ d = 9)%N) by lia.
  repeat (destruct H as [-> | H]); try subst d;
    (split; [apply (bool_decide_unpack _); vm_compute; reflexivity | reflexivity]).
Qed.

Lemma digit_cases (c : ascii) (P : ascii -> Prop) :
  c ∈ ["0"; "1"; "2"; "3"; "4"; "5"; "6"; "7"; "8"; "9"]%char ->
  P "0"%char -> P "1"%char -> P "2"%char -> P "3"%char -> P "4"%char ->
  P "5"%char -> P "6"%char -> P "7"%char -> P "8"%char -> P "9"%char -> P c.
Proof.
  intros Hc. repeat (apply elem_of_cons in Hc as [-> | Hc]; [intros; assumption |]).
  inversion Hc.
Qed.

(** What [pretty] puts in front of [s] for [x]: digits that read back
    as [x]. *)
Lemma pretty_N_go_digits (x : N) (s : string) :
  exists ds,
    chars (pretty_N_go x s) = (ds ++ chars s)%list
    /\ Forall (fun c => c ∈ ["0"; "1"; "2"; "3"; "4"; "5"; "6"; "7"; "8"; "9"]%char) ds
    /\ (x <> 0%N -> ds <> [])
    /\ forall acc cnt rest,
         readDigits 10 (ds ++ rest)%list acc cnt
         = readDigits 10 rest (acc * 10 ^ Z.of_nat (length ds) + Z.of_N x)
             (cnt + Z.of_nat (length ds)).
Proof.
  revert s. induction (N.lt_wf_0 x) as [x _ IH]. intros s.
  destruct (N.eq_dec x 0%N) as [-> | Hx].
  - exists []. rewrite pretty_N_go_0. split; [reflexivity |].
    split; [constructor |]. split; [congruence |].
    intros acc cnt rest. simpl. f_equal; [f_equal |]; lia.
  - rewrite pretty_N_go_step by lia.
    destruct (IH (x `div` 10)%N ltac:(apply N.div_lt; lia)
                (String (pretty_N_char (x `mod` 10)) s))
      as (ds & Hchars & Hdig & _ & Hread).
    assert (Hm : (x `mod` 10 < 10)%N) by (apply N.mod_lt; lia).
    destruct (pretty_N_char_digit _ Hm) as [Hin Hval].
    exists (ds ++ [pretty_N_char (x `mod` 10)])%list.
    split; [rewrite Hchars, <- app_assoc; reflexivity |].
    split; [apply Forall_app; split; [exact Hdig | constructor; [exact Hin | constructor]] |].
    split; [intros _ Heq; apply app_eq_nil in Heq as [_ Heq]; discriminate |].
    intros acc cnt rest. rewrite <- app_assoc, Hread. simpl.
    rewrite Hval. rewrite length_app. simpl.
    rewrite Nat2Z.inj_add. simpl Z.of_nat.
    rewrite Z.pow_add_r by lia.
    pose proof (f_equal Z.of_N (N.div_mod x 10 ltac:(lia))) as Hz.
    rewrite N2Z.inj_add, N2Z.inj_mul in Hz. change (Z.of_N 10) with 10 in Hz.
    change (Z.of_nat 1) with 1. change (10 ^ 1) with 10. rewrite Hz.
    f_equal; [ring | lia].
Qed.

Lemma trim_digits (pre ds : list ascii) :
  Forall (fun c => c ∈ ["0"; "1"; "2"; "3"; "4"; "5"; "6"; "7"; "8"; "9"]%char) ds ->
  ds <> [] -> (pre = [] \/ pre = ["-"%char]) ->
  trim (pre ++ ds) = (pre ++ ds)%list.
Proof.
  intros Hdig Hne Hpre.
  assert (Hfirst : forall c rest, c ∈ ["0"; "1"; "2"; "3"; "4"; "5"; "6"; "7"; "8"; "9"]%char ->
                                  dropWhite (c :: rest) = c :: rest).
  { intros c rest Hc. revert rest.
    apply (digit_cases c (fun c => forall rest, dropWhite (c :: rest) = c :: rest) Hc);
      reflexivity. }
  assert (Hlast : exists c rest, rev (pre ++ ds) = c :: rest
                                 /\ c ∈ ["0"; "1"; "2"; "3"; "4"; "5"; "6"; "7"; "8"; "9"]%char).
  { destruct (exists_last Hne) as (ds' & c & ->).
    apply Forall_app in Hdig as [_ Hc]. inversion Hc as [| ? ? Hc' _]; subst.
    exists c, (rev (pre ++ ds')). split; [| exact Hc'].
    rewrite app_assoc, rev_unit. reflexivity. }
  destruct Hlast as (c & rest & Hrev & Hc).
  unfold trim.
  assert (Hdrop : dropWhite (pre ++ ds) = (pre ++ ds)%list).
  { destruct Hpre as [-> | ->].
    - destruct ds as [| d ds]; [congruence |]. inversion Hdig; subst.
      simpl app. apply Hfirst. assumption.
    - reflexivity. }
  rewrite Hdrop, Hrev, Hfirst by exact Hc. rewrite <- Hrev. apply rev_involutive.
Qed.

Lemma parseNonDecimal_digits (ds : list ascii) :
  Forall (fun c => c ∈ ["0"; "1"; "2"; "3"; "4"; "5"; "6"; "7"; "8"; "9"]%char) ds ->
  parseNonDecimal ds = None.
Proof.
  intros Hdig. destruct ds as [| c [| p rest]]; [reflexivity | |].
  - inversion Hdig as [| ? ? Hc _]; subst.
    apply (digit_cases c (fun c => parseNonDecimal [c] = None) Hc); reflexivity.
  - inversion Hdig as [| ? ? Hc Hrest]; subst.
    inversion Hrest as [| ? ? Hp _]; subst.
    revert rest Hdig Hrest.
    apply (digit_cases c (fun c => forall rest, _ -> _ -> parseNonDecimal (c :: p :: rest) = None)
             Hc); intros rest _ _; try reflexivity.
    revert rest.
    apply (digit_cases p (fun p => forall rest, parseNonDecimal ("0"%char :: p :: rest) = None)
             Hp); reflexivity.
Qed.

Lemma parseUnsignedDecimal_digits (ds : list ascii) (x : Z) :
  ds <> [] ->
  (forall acc cnt rest,
     readDigits 10 (ds ++ rest)%list acc cnt
     = readDigits 10 rest (acc * 10 ^ Z.of_nat (length ds) + x) (cnt + Z.of_nat (length ds))) ->
  parseUnsignedDecimal ds = Some (x, 0).
Proof.
  intros Hne Hread. unfold parseUnsignedDecimal.
  pose proof (Hread 0 0 []) as H. rewrite app_nil_r in H. rewrite H. simpl readDigits.
  cbv beta iota zeta.
  assert (Hlen : (0 + Z.of_nat (length ds) + 0 =? 0) = false).
  { apply Z.eqb_neq. destruct ds; [congruence | simpl length; lia]. }
  rewrite Hlen. reflexivity.
Qed.

Lemma parseDecimal_digits (ds : list ascii) (x : Z) (sg : bool) :
  Forall (fun c => c ∈ ["0"; "1"; "2"; "3"; "4"; "5"; "6"; "7"; "8"; "9"]%char) ds ->
  ds <> [] ->
  (forall acc cnt rest,
     readDigits 10 (ds ++ rest)%list acc cnt
     = readDigits 10 rest (acc * 10 ^ Z.of_nat (length ds) + x) (cnt + Z.of_nat (length ds))) ->
  parseDecimal ((if sg then ["-"%char] else []) ++ ds) = Some (decimalValue sg x 0).
Proof.
  intros Hdig Hne Hread.
  destruct ds as [| c ds]; [congruence |].
  inversion Hdig as [| ? ? Hc _]; subst.
  assert (Hfirst : forall rest,
            readSign (c :: rest) = (false, c :: rest)
            /\ String.eqb (ofChars (c :: rest)) "Infinity" = false).
  { apply (digit_cases c (fun c => forall rest,
                            readSign (c :: rest) = (false, c :: rest)
                            /\ String.eqb (ofChars (c :: rest)) "Infinity" = false) Hc);
      intros rest; split; reflexivity. }
  assert (Hsign : readSign ((if sg then ["-"%char] else []) ++ c :: ds) = (sg, c :: ds))
    by (destruct sg; [reflexivity | apply Hfirst]).
  assert (Hinf : String.eqb (ofChars (c :: ds)) "Infinity" = false) by apply Hfirst.
  unfold parseDecimal. rewrite Hsign, Hinf.
  rewrite (parseUnsignedDecimal_digits (c :: ds) x Hne Hread). reflexivity.
Qed.

(** A decimal numeral reads back as its integer. *)
Lemma stringToNumber_pretty (n : Z) : stringToNumber (pretty n) = Num.of_int n.
Proof.
  destruct n as [| p | p]; [reflexivity | |].
  - unfold pretty, pretty_Z, pretty, pretty_positive, pretty, pretty_N.
    rewrite decide_False by discriminate.
    destruct (pretty_N_go_digits (N.pos p) "") as (ds & Hchars & Hdig & Hne & Hread).
    specialize (Hne ltac:(discriminate)).
    simpl chars in Hchars. rewrite app_nil_r in Hchars.
    unfold stringToNumber. fold (chars (pretty_N_go (N.pos p) "")). rewrite Hchars.
    pose proof (trim_digits [] ds Hdig Hne (or_introl eq_refl)) as Htrim.
    simpl app in Htrim. rewrite Htrim.
    pose proof (parseNonDecimal_digits ds Hdig) as Hnon.
    pose proof (parseDecimal_digits ds (Z.pos p) false Hdig Hne Hread) as Hdec.
    simpl app in Hdec.
    destruct ds as [| c ds']; [congruence |]. cbv iota.
    rewrite Hnon, Hdec. unfold decimalValue. simpl.
    rewrite Pos.mul_1_r. reflexivity.
  - unfold pretty, pretty_Z, pretty, pretty_positive, pretty, pretty_N.
    rewrite decide_False by discriminate.
    destruct (pretty_N_go_digits (N.pos p) "") as (ds & Hchars & Hdig & Hne & Hread).
    specialize (Hne ltac:(discriminate)).
    simpl chars in Hchars. rewrite app_nil_r in Hchars.
    unfold stringToNumber.
    change (chars ("-" +:+ pretty_N_go (N.pos p) ""))
      with ("-"%char :: chars (pretty_N_go (N.pos p) "")).
    rewrite Hchars.
    pose proof (trim_digits ["-"%char] ds Hdig Hne (or_intror eq_refl)) as Htrim.
    simpl app in Htrim. rewrite Htrim.
    pose proof (parseDecimal_digits ds (Z.pos p) true Hdig Hne Hread) as Hdec.
    simpl app in Hdec. cbv iota.
    change (parseNonDecimal ("-"%char :: ds)) with (@None Num.number).
    cbv iota. rewrite Hdec.
    unfold decimalValue. simpl. rewrite Pos.mul_1_r. reflexivity.
Qed.

Lemma isInteger_of_int (n : Z) : Z.abs n < 2 ^ 53 -> isInteger (Num.of_int n) = true.
Proof.
  intros Hn.
  destruct n as [| p | p]; [reflexivity | |];
    (assert (Hb : Num.bits p <= 53) by (apply bits_bound; lia));
    unfold Num.of_int, Num.prec; rewrite (proj2 (Z.leb_le _ _) Hb);
    unfold isInteger; apply orb_true_iff; right; apply Z.eqb_eq;
    rewrite shifted_mantissa by lia;
    replace (- (Num.bits p - 53)) with (53 - Num.bits p) by lia;
    apply Z.mod_mul; apply Z.pow_nonzero; lia.
Qed.

(** The sign of the Number of a nonzero integer is the sign of it. *)
Lemma of_int_sign (n : Z) :
  Z.abs n < 2 ^ 53 -> n <> 0 -> exists m e, Num.of_int n = S754_finite (n <? 0) m e.
Proof.
  intros Hn Hnz.
  destruct n as [| p | p]; [congruence | |];
    (assert (Hb : Num.bits p <= 53) by (apply bits_bound; lia));
    unfold Num.of_int, Num.prec; rewrite (proj2 (Z.leb_le _ _) Hb); eauto.
Qed.

(** An exact integer prints as its decimal numeral. *)
Lemma numberToString_of_int (n : Z) :
  Z.abs n < 2 ^ 53 -> numberToString (Num.of_int n) = Some (pretty n).
Proof.
  intros Hn. destruct (Z.eq_dec n 0) as [-> | Hnz]; [reflexivity |].
  pose proof (truncate_of_int n Hn) as Ht.
  pose proof (isInteger_of_int n Hn) as Hint.
  destruct (of_int_finite n Hn Hnz) as (s & m & e & Heq).
  rewrite Heq in Ht, Hint |- *. unfold numberToString. rewrite Hint, Ht.
  rewrite (proj2 (Z.leb_le _ _)) by lia. reflexivity.
Qed.

End NumeralFacts.

(** X19.  Decimal numerals.  For every integer n below 2^53 in
    magnitude, on every heap: String(n) is the decimal numeral of n, and
    that string converts back to n, so Number(String(n)) is n; the
    numeral is loosely equal to n ("42" == 42) and never strictly equal
    to it (0 === "0" is false); and the array [n] converts to n as
    well. *)
Theorem numeral_round_trip (n : Z) (h : heap) (l : nat) (fr : bool) :
  Z.abs n < 2 ^ 53 ->
  h !! l = Some (mkObject (OArray [num n]) fr) ->
  Conv.toString h (num n) = Some (pretty n) /\
  Conv.toNumber h (str (pretty n)) = Some (Num.of_int n) /\
  looseEq h (str (pretty n)) (num n) = Some true /\
  looseEq h (num n) (str (pretty n)) = Some true /\
  strictEq (str (pretty n)) (num n) = false /\
  Conv.toNumber h (VObject l) = Some (Num.of_int n) /\
  looseEq h (VObject l) (num n) = Some true.
Proof.
  intros Hn Hl.
  assert (Hs : Conv.toString h (num n) = Some (pretty n))
    by (apply numberToString_of_int; exact Hn).
  assert (Heq : Num.equal (Num.of_int n) (Num.of_int n) = true).
  { rewrite equal_refl. destruct (Z.eq_dec n 0) as [-> | Hnz]; [reflexivity |].
    destruct (of_int_finite n Hn Hnz) as (s & m & e & ->). reflexivity. }
  assert (Harr : Conv.toString h (VObject l) = Some (pretty n)).
  { unfold Conv.toString. simpl. rewrite Hl. simpl.
    assert (Hin : Conv.toStringF (length h) h (num n) = Some (pretty n)).
    { unfold num. destruct (length h); simpl; apply numberToString_of_int; exact Hn. }
    rewrite Hin. reflexivity. }
  split; [exact Hs |].
  split; [simpl; rewrite stringToNumber_pretty; reflexivity |].
  split; [unfold looseEq, num, str; simpl; rewrite stringToNumber_pretty, Heq; reflexivity |].
  split; [unfold looseEq, num, str; simpl; rewrite stringToNumber_pretty, Heq; reflexivity |].
  split; [reflexivity |].
  split.
  - unfold Conv.toNumber, Conv.toPrimitive. rewrite Harr. simpl.
    rewrite stringToNumber_pretty. reflexivity.
  - unfold looseEq, num. simpl. unfold Conv.toPrimitive. rewrite Harr. simpl.
    rewrite stringToNumber_pretty, Heq. reflexivity.
Qed.

Lemma numeral_round_trip_witness :
  let h := [mkObject (OArray [num (-9007199254740991)]) false] in
  Conv.toString h (num (-9007199254740991)) = Some (pretty (-9007199254740991)) /\
  Conv.toNumber h (str (pretty (-9007199254740991))) = Some (Num.of_int (-9007199254740991)) /\
  looseEq h (str (pretty (-9007199254740991))) (num (-9007199254740991)) = Some true /\
  looseEq h (num (-9007199254740991)) (str (pretty (-9007199254740991))) = Some true /\
  strictEq (str (pretty (-9007199254740991))) (num (-9007199254740991)) = false /\
  Conv.toNumber h (VObject 0) = Some (Num.of_int (-9007199254740991)) /\
  looseEq h (VObject 0) (num (-9007199254740991)) = Some true.
Proof.
  intros h. apply (numeral_round_trip (-9007199254740991) h 0 false); reflexivity.
Defined.

(** ** Spreads in array literals *)

Section ArrayLiteralFacts.

Lemma addElems_iterable (h : heap) (parts : list elemInit) (acc : list value) :
  Forall (fun p => match p with
                   | Item _ => True
                   | SpreadItems v _ => is_Some (iterate h v)
                   end) parts ->
  addElems h parts acc
  = inl (acc ++ concat (map (fun p => match p with
                                      | Item v => [v]
                                      | SpreadItems v _ => default [] (iterate h v)
                                      end) parts))%list.
Proof.
  intros Hok. revert acc. induction Hok as [| p parts Hp _ IH]; intros acc.
  - simpl. rewrite app_nil_r. reflexivity.
  - destruct p as [v | v src]; simpl.
    + rewrite IH, <- app_assoc. reflexivity.
    + destruct Hp as [es Hes]. rewrite Hes. simpl. rewrite IH, <- app_assoc. reflexivity.
Qed.

Lemma addElems_not_iterable (h : heap) (pre post : list elemInit) (v : value)
    (src : string) (acc : list value) :
  Forall (fun p => match p with
                   | Item _ => True
                   | SpreadItems v _ => is_Some (iterate h v)
                   end) pre ->
  iterate h v = None ->
  addElems h (pre ++ SpreadItems v src :: post) acc = inr src.
Proof.
  intros Hok Hv. revert acc. induction Hok as [| p pre Hp _ IH]; intros acc.
  - simpl. rewrite Hv. reflexivity.
  - destruct p as [w | w s]; simpl.
    + apply IH.
    + destruct Hp as [es Hes]. rewrite Hes. apply IH.
Qed.

(** What a spread over an array or over a string adds to an array
    literal. *)
Lemma iterate_array_or_string (h : heap) (w : value) :
  match w with
  | VString s => True
  | VObject l => exists es fr, h !! l = Some (mkObject (OArray es) fr)
  | _ => False
  end ->
  iterate h w
  = Some match w with
         | VString s => map (fun a => VString (String a "")) (list_ascii_of_string s)
         | VObject l => match h !! l with
                        | Some (mkObject (OArray es) _) => es
                        | _ => []
                        end
         | _ => []
         end.
Proof.
  destruct w as [| | b | n | s | l]; try contradiction; intros Hw; [reflexivity |].
  destruct Hw as (es & fr & Hl). simpl. rewrite Hl. reflexivity.
Qed.

(** The values of this model that are not iterable. *)
Lemma iterate_other (h : heap) (v : value) :
  match v with
  | VString _ => False
  | VObject l => exists d fr, h !! l = Some (mkObject d fr) /\ forall es, d <> OArray es
  | _ => True
  end ->
  iterate h v = None.
Proof.
  destruct v as [| | b | n | s | l]; try contradiction; try reflexivity.
  intros (d & fr & Hl & Hd). simpl. rewrite Hl. simpl.
  destruct d as [ps | es | f]; [reflexivity | | reflexivity].
  exfalso. apply (Hd es). reflexivity.
Qed.

End ArrayLiteralFacts.

(** X20.  Spreads in array literals.  When every spread of an array
    literal is over an array or over an ASCII string, the literal is a new
    array whose elements are those of its parts in order, a spread giving
    the elements of its array or the characters of its string and a plain
    item the value itself, so [[...a, a]] ends with a itself and
    [[...a, ...b]] is the concatenation.  When some spread is over a value
    that is none of the two (undefined, null, a boolean, a number, a plain
    object or a function; the model has no Set and no Map), the literal
    throws a TypeError at the first such spread and allocates nothing;
    for a plain object the message names the source text of the spread.
    The sections print [ 0, 1, 2, 3, 4 ], the characters of hello,
    [ 1, 2, 3, 4 ], [ 1, 2, 3, [ 1, 2, 3 ] ] and the two error messages. *)
Theorem array_literal_concatenates_spreads (st : state) (parts pre post : list elemInit)
    (v : value) (src : string) :
  Forall (fun p => match p with
                   | Item _ => True
                   | SpreadItems (VString s) _ => asciiOnly s = true
                   | SpreadItems (VObject l) _ =>
                       exists es fr, store st !! l = Some (mkObject (OArray es) fr)
                   | SpreadItems _ _ => False
                   end) parts ->
  Forall (fun p => match p with
                   | Item _ => True
                   | SpreadItems (VString s) _ => asciiOnly s = true
                   | SpreadItems (VObject l) _ =>
                       exists es fr, store st !! l = Some (mkObject (OArray es) fr)
                   | SpreadItems _ _ => False
                   end) pre ->
  match v with
  | VString _ => False
  | VObject l =>
      exists d fr, store st !! l = Some (mkObject d fr) /\ forall es, d <> OArray es
  | _ => True
  end ->
  arrayLiteral parts st
  = (Normal (VObject (length (store st))),
     setStore
       (store st
        ++ [mkObject
              (OArray (concat (map (fun p => match p with
                                             | Item w => [w]
                                             | SpreadItems (VString s) _ =>
                                                 map (fun a => VString (String a ""))
                                                   (list_ascii_of_string s)
                                             | SpreadItems (VObject l) _ =>
                                                 match store st !! l with
                                                 | Some (mkObject (OArray es) _) => es
                                                 | _ => []
                                                 end
                                             | SpreadItems _ _ => []
                                             end) parts))) false])%list st) /\
  (exists msg,
     arrayLiteral (pre ++ SpreadItems v src :: post) st
     = (Thrown (mkError TypeError msg), st)) /\
  (forall l ps fr,
     v = VObject l -> store st !! l = Some (mkObject (OProps ps) fr) ->
     arrayLiteral (pre ++ SpreadItems v src :: post) st
     = (Thrown (mkError TypeError (src ++ " is not iterable")), st)) /\
  output ArraySpread.spread_expands =
    [[DString "Spreading an array [0, ...[1,2,3], 4]:";
      DArray [DNumber (Num.of_int 0); DNumber (Num.of_int 1); DNumber (Num.of_int 2);
              DNumber (Num.of_int 3); DNumber (Num.of_int 4)]];
     [DString "Spreading a string [...'hello']:";
      DArray [DString "h"; DString "e"; DString "l"; DString "l"; DString "o"]]] /\
  output ArraySpread.merging_arrays =
    [[DString "Merging arrays:";
      DArray [DNumber (Num.of_int 1); DNumber (Num.of_int 2); DNumber (Num.of_int 3);
              DNumber (Num.of_int 4)]]] /\
  output ArraySpread.spread_vs_flatten =
    [[DString (nl ++ "--- Q2: Spread vs. Flatten ---")];
     [DString "What is the output of [...arr1, arr1]?";
      DArray [DNumber (Num.of_int 1); DNumber (Num.of_int 2); DNumber (Num.of_int 3);
              DArray [DNumber (Num.of_int 1); DNumber (Num.of_int 2);
                      DNumber (Num.of_int 3)]]];
     [DString "✅ Answer: [1, 2, 3, [1, 2, 3]]. Spread doesn't flatten nested arrays."]] /\
  output ArraySpread.non_iterable_spread =
    [[DString "Array spread on non-iterable object fails:";
      DString "notIterable_ac is not iterable"]] /\
  output ArraySpread.spreading_non_iterables =
    [[DString (nl ++ "--- 6. Spreading Non-Iterables ---")];
     [DString "Spreading a plain object into an array fails:";
      DString "obj_s6 is not iterable"]].
Proof.
  intros Hparts Hpre Hv.
  assert (Hit : forall ps,
             Forall (fun p => match p with
                   | Item _ => True
                   | SpreadItems (VString s) _ => asciiOnly s = true
                   | SpreadItems (VObject l) _ =>
                       exists es fr, store st !! l = Some (mkObject (OArray es) fr)
                   | SpreadItems _ _ => False
                   end) ps ->
             Forall (fun p => match p with
                              | Item _ => True
                              | SpreadItems w _ => is_Some (iterate (store st) w)
                              end) ps).
  { intros ps Hps. eapply Forall_impl; [exact Hps |].
    intros [w | w s0]; [trivial |]. intros Hw.
    rewrite (iterate_array_or_string (store st) w); [eexists; reflexivity |].
    destruct w; try contradiction; [trivial | exact Hw]. }
  assert (Hthrow : arrayLiteral (pre ++ SpreadItems v src :: post) st
                   = (Thrown (mkError TypeError (src ++ " is not iterable")), st)).
  { unfold arrayLiteral.
    rewrite (addElems_not_iterable _ _ _ _ _ [] (Hit _ Hpre) (iterate_other _ _ Hv)).
    reflexivity. }
  split; [| split; [| split; [| repeat split; vm_compute; reflexivity]]].
  - unfold arrayLiteral. rewrite (addElems_iterable _ _ [] (Hit _ Hparts)).
    unfold alloc. simpl app.
    assert (Hmap : forall f g : elemInit -> list value,
               (forall p, p ∈ parts -> f p = g p) -> map f parts = map g parts).
    { intros f g. clear. induction parts as [| p ps IH]; intros Hfg; [reflexivity |].
      simpl. rewrite (Hfg p) by apply list_elem_of_here. rewrite IH; [reflexivity |].
      intros q Hq. apply Hfg, list_elem_of_further, Hq. }
    rewrite (Hmap _ (fun p => match p with
                              | Item w => [w]
                              | SpreadItems (VString s) _ =>
                                  map (fun a => VString (String a ""))
                                    (list_ascii_of_string s)
                              | SpreadItems (VObject l) _ =>
                                  match store st !! l with
                                  | Some (mkObject (OArray es) _) => es
                                  | _ => []
                                  end
                              | SpreadItems _ _ => []
                              end)); [reflexivity |].
    intros [w | w s0] Hin; [reflexivity |].
    rewrite Forall_forall in Hparts. specialize (Hparts _ Hin).
    rewrite (iterate_array_or_string (store st) w).
    + destruct w; reflexivity.
    + destruct w; try contradiction; [trivial | exact Hparts].
  - eexists. exact Hthrow.
  - intros l ps fr _ _. exact Hthrow.
Qed.

Lemma array_literal_concatenates_spreads_witness :
  let st := mkState [mkEnv ∅ None] 0
              [mkObject (OArray [num 1; num 2]) false; mkObject (OProps [("a", num 1)]) false]
              [] in
  arrayLiteral [SpreadItems (VObject 0) "arr"; Item (VObject 0); SpreadItems (str "hi") "s"] st
  = (Normal (VObject 2),
     setStore (store st ++ [mkObject (OArray [num 1; num 2; VObject 0; str "h"; str "i"])
                              false])%list st) /\
  arrayLiteral [Item (num 7); SpreadItems (VObject 0) "arr"; SpreadItems (VObject 1) "obj";
                SpreadItems VNull "gone"] st
  = (Thrown (mkError TypeError "obj is not iterable"), st).
Proof.
  intros st.
  destruct (array_literal_concatenates_spreads st
              [SpreadItems (VObject 0) "arr"; Item (VObject 0); SpreadItems (str "hi") "s"]
              [Item (num 7); SpreadItems (VObject 0) "arr"] [SpreadItems VNull "gone"]
              (VObject 1) "obj") as (Hall & _ & Hobj & _).
  - apply Forall_cons_2; [do 2 eexists; reflexivity |].
    apply Forall_cons_2; [exact I |].
    apply Forall_cons_2; [reflexivity | apply Forall_nil_2].
  - apply Forall_cons_2; [exact I |].
    apply Forall_cons_2; [do 2 eexists; reflexivity | apply Forall_nil_2].
  - exists (OProps [("a", num 1)]), false. split; [reflexivity | discriminate].
  - split; [exact Hall |].
    exact (Hobj 1%nat [("a", num 1)] false eq_refl eq_refl).
Defined.

(** X21.  The remainder operator.  For nonzero integers n and d below
    2^53 in magnitude, [n % d] is the remainder of the division that
    truncates toward zero: it has the sign of the dividend n, whatever the
    sign of d, its magnitude is below that of d, and n is d times the
    truncated quotient plus it.  When the remainder is zero the result is
    the zero with the sign of n.  So -5 % 2 is -1, not 1: the section
    prints 1, -1, 1. *)
Theorem remainder_has_sign_of_dividend (n d : Z) (st : state) :
  Z.abs n < 2 ^ 53 -> Z.abs d < 2 ^ 53 -> n <> 0 -> d <> 0 ->
  remainder (num n) (num d) st
  = (Normal (VNumber (if Z.rem n d =? 0 then S754_zero (n <? 0)
                      else Num.of_int (Z.rem n d))), st) /\
  Z.abs (Z.rem n d) < Z.abs d /\
  0 <= Z.rem n d * n /\
  n = d * Z.quot n d + Z.rem n d /\
  output Arithmetic.remainder_operator =
    [[DString "5 % 2 ->"; DNumber (Num.of_int 1)];
     [DString "-5 % 2 ->"; DNumber (Num.of_int (-1))];
     [DString "5 % -2 ->"; DNumber (Num.of_int 1)]].
Proof.
  intros Hn Hd Hnz Hdz.
  split; [| split; [| split; [| split; [| vm_compute; reflexivity]]]].
  - destruct (of_int_sign n Hn Hnz) as (mn & en & En).
    destruct (of_int_sign d Hd Hdz) as (md & ed & Ed).
    pose proof (truncate_of_int n Hn) as Tn. pose proof (truncate_of_int d Hd) as Td.
    pose proof (isInteger_of_int n Hn) as In. pose proof (isInteger_of_int d Hd) as Id.
    unfold remainder, num, toNumberM, bind. simpl Conv.toNumber. cbv beta iota.
    unfold liftOption, ret. cbv beta iota.
    rewrite En, Ed in *. unfold numberRemainder.
    rewrite In, Id, Tn, Td. reflexivity.
  - apply Z.rem_bound_abs. exact Hdz.
  - pose proof (Z.rem_sign_mul n d Hdz) as H. lia.
  - apply Z.quot_rem'.
Qed.

Lemma remainder_has_sign_of_dividend_witness :
  remainder (num (-9)) (num 3) initialState
  = (Normal (VNumber (if Z.rem (-9) 3 =? 0 then S754_zero (-9 <? 0)
                      else Num.of_int (Z.rem (-9) 3))), initialState) /\
  Z.abs (Z.rem (-9) 3) < Z.abs 3 /\
  0 <= Z.rem (-9) 3 * -9 /\
  -9 = 3 * Z.quot (-9) 3 + Z.rem (-9) 3 /\
  output Arithmetic.remainder_operator =
    [[DString "5 % 2 ->"; DNumber (Num.of_int 1)];
     [DString "-5 % 2 ->"; DNumber (Num.of_int (-1))];
     [DString "5 % -2 ->"; DNumber (Num.of_int 1)]].
Proof.
  apply (remainder_has_sign_of_dividend (-9) 3 initialState);
    [reflexivity | reflexivity | discriminate | discriminate].
Defined.

(** ** Relational operators *)

Section OrderFacts.

Import Num.

Lemma bits_spec (p : positive) : 2 ^ (bits p - 1) <= Z.pos p < 2 ^ bits p.
Proof.
  unfold bits. pose proof (Z.log2_spec (Z.pos p) ltac:(lia)) as H.
  replace (Z.log2 (Z.pos p) + 1 - 1) with (Z.log2 (Z.pos p)) by lia.
  replace (Z.log2 (Z.pos p) + 1) with (Z.succ (Z.log2 (Z.pos p))) by lia.
  exact H.
Qed.

(** Two exact positive integers are ordered by exponent first and by
    mantissa next, as the comparison of two finite Numbers does. *)
Lemma mantissa_order (p q : positive) :
  bits p <= 53 -> bits q <= 53 ->
  match bits p - 53 ?= bits q - 53 with
  | Lt => Lt
  | Gt => Gt
  | Eq => Pos.compare_cont Eq (Z.to_pos (Z.shiftl (Z.pos p) (53 - bits p)))
                              (Z.to_pos (Z.shiftl (Z.pos q) (53 - bits q)))
  end = (Z.pos p ?= Z.pos q).
Proof.
  intros Hp Hq.
  pose proof (bits_spec p) as Bp. pose proof (bits_spec q) as Bq.
  destruct (Z.compare_spec (bits p - 53) (bits q - 53)) as [He | Hl | Hg].
  - assert (Hb : bits p = bits q) by lia.
    change (Pos.compare_cont Eq ?x ?y) with (Z.pos x ?= Z.pos y).
    rewrite !shifted_mantissa by lia. rewrite Hb.
    assert (Hk : 0 < 2 ^ (53 - bits q)) by (apply Z.pow_pos_nonneg; lia).
    destruct (Z.compare_spec (Z.pos p) (Z.pos q)) as [E | L | G].
    + rewrite E. apply Z.compare_refl.
    + apply Z.compare_lt_iff. apply Z.mul_lt_mono_pos_r; assumption.
    + apply Z.compare_gt_iff. apply Z.mul_lt_mono_pos_r; assumption.
  - symmetry. apply Z.compare_lt_iff.
    assert (2 ^ bits p <= 2 ^ (bits q - 1)) by (apply Z.pow_le_mono_r; lia). lia.
  - symmetry. apply Z.compare_gt_iff.
    assert (2 ^ bits q <= 2 ^ (bits p - 1)) by (apply Z.pow_le_mono_r; lia). lia.
Qed.

(** Exact integers compare as Numbers the way they do as integers. *)
Lemma SFcompare_of_int (a b : Z) :
  Z.abs a < 2 ^ 53 -> Z.abs b < 2 ^ 53 ->
  SFcompare (of_int a) (of_int b) = Some (a ?= b).
Proof.
  intros Ha Hb.
  destruct a as [| p | p], b as [| q | q]; try reflexivity;
    try (assert (Hp : bits p <= 53) by (apply bits_bound; lia));
    try (assert (Hq : bits q <= 53) by (apply bits_bound; lia));
    unfold of_int, prec;
    try rewrite (proj2 (Z.leb_le _ _) Hp);
    try rewrite (proj2 (Z.leb_le _ _) Hq);
    try reflexivity.
  - unfold SFcompare. f_equal. apply mantissa_order; assumption.
  - unfold SFcompare. f_equal.
    pose proof (mantissa_order p q Hp Hq) as H.
    change (Z.neg p ?= Z.neg q) with (CompOpp (Z.pos p ?= Z.pos q)).
    rewrite <- H. destruct (bits p - 53 ?= bits q - 53); reflexivity.
Qed.

Lemma SFltb_of_int (a b : Z) :
  Z.abs a < 2 ^ 53 -> Z.abs b < 2 ^ 53 ->
  SFltb (of_int a) (of_int b) = (a <? b).
Proof.
  intros Ha Hb. unfold SFltb, Z.ltb. rewrite SFcompare_of_int by assumption.
  reflexivity.
Qed.

Lemma equal_of_int (a b : Z) :
  Z.abs a < 2 ^ 53 -> Z.abs b < 2 ^ 53 ->
  equal (of_int a) (of_int b) = (a =? b).
Proof.
  intros Ha Hb. unfold equal, SFeqb. rewrite SFcompare_of_int by assumption.
  destruct (Z.compare_spec a b) as [E | L | G]; symmetry;
    [apply Z.eqb_eq; exact E | apply Z.eqb_neq; lia | apply Z.eqb_neq; lia].
Qed.

Lemma ltb_first_character (c d : ascii) (s t : string) :
  c <> d ->
  String.ltb (String c s) (String d t) = (N_of_ascii c <? N_of_ascii d)%N.
Proof.
  intros Hne. unfold String.ltb, N.ltb. simpl. unfold Ascii.compare.
  destruct (N.compare_spec (N_of_ascii c) (N_of_ascii d)) as [He | Hl | Hg];
    try reflexivity.
  exfalso. apply Hne.
  rewrite <- (ascii_N_embedding c), <- (ascii_N_embedding d), He. reflexivity.
Qed.

End OrderFacts.

(** X22.  Relational operators.  Two integers below 2^53 in magnitude
    compare as Numbers the way they do as integers, with [<], [>] and
    [===]; a decimal numeral on either side of a number is read as a
    number first, so the comparison is numeric; and two strings that
    begin with two different ASCII characters compare by those characters
    alone, whatever follows: this is why ["2" < 12] holds and
    ["2" < "12"] does not. *)
Theorem relational_operators_on_numerals
    (a b : Z) (c d : ascii) (s t : string) (st : state) :
  Z.abs a < 2 ^ 53 -> Z.abs b < 2 ^ 53 ->
  (N_of_ascii c < 128)%N -> (N_of_ascii d < 128)%N -> c <> d ->
  lessThan (num a) (num b) st = (Normal (VBool (a <? b)), st) /\
  greaterThan (num a) (num b) st = (Normal (VBool (b <? a)), st) /\
  strictEqual (num a) (num b) st = (Normal (VBool (a =? b)), st) /\
  lessThan (str (pretty a)) (num b) st = (Normal (VBool (a <? b)), st) /\
  lessThan (num a) (str (pretty b)) st = (Normal (VBool (a <? b)), st) /\
  lessThan (str (String c s)) (str (String d t)) st =
    (Normal (VBool (N_of_ascii c <? N_of_ascii d)%N), st).
Proof.
  intros Ha Hb _ _ Hne.
  split; [unfold lessThan, num; simpl; rewrite SFltb_of_int by assumption; reflexivity |].
  split; [unfold greaterThan, lessThan, num; simpl;
          rewrite SFltb_of_int by assumption; reflexivity |].
  split; [unfold strictEqual, ret, num; simpl;
          rewrite equal_of_int by assumption; reflexivity |].
  split; [unfold lessThan, num, str; simpl; rewrite stringToNumber_pretty,
          SFltb_of_int by assumption; reflexivity |].
  split; [unfold lessThan, num, str; simpl; rewrite stringToNumber_pretty,
          SFltb_of_int by assumption; reflexivity |].
  unfold lessThan, str. simpl Conv.toPrimitive. cbv iota.
  rewrite ltb_first_character by exact Hne. reflexivity.
Qed.

Lemma relational_operators_on_numerals_witness :
  let st := mkState [] 0%nat [] [] in
  lessThan (num 2) (num 12) st = (Normal (VBool (2 <? 12)), st) /\
  greaterThan (num 2) (num 12) st = (Normal (VBool (12 <? 2)), st) /\
  strictEqual (num 2) (num 12) st = (Normal (VBool (2 =? 12)), st) /\
  lessThan (str (pretty 2)) (num 12) st = (Normal (VBool (2 <? 12)), st) /\
  lessThan (num 2) (str (pretty 12)) st = (Normal (VBool (2 <? 12)), st) /\
  lessThan (str (String "2" "")) (str (String "1" "2")) st =
    (Normal (VBool (N_of_ascii "2" <? N_of_ascii "1")%N), st).
Proof.
  intros st.
  apply (relational_operators_on_numerals 2 12 "2"%char "1"%char "" "2" st);
    [reflexivity | reflexivity | reflexivity | reflexivity | discriminate].
Defined.
